(** * X-56 HOTAS RGB utility: a shallow embedding of the device-control core

    The development models the Python package [x56gui] (protocol.py,
    calibration.py, effects.py, profile_store.py, usb_backend.py and the
    device and effect logic of main_window.py) and proves properties of it.

    Conventions of the embedding:
    - a Python [int] is a [Z]; a Python [float] is an IEEE-754 binary64 value,
      taken from the standard library's executable specification
      ([SpecFloat], precision 53, exponent bound 1024);
    - a Python [str] is a [string] of ASCII characters;
    - a Python [dict] is an insertion-ordered association list ([dict_get],
      [dict_set], [dict_del]); a Python [set] of ints is a [gset Z];
    - code that raises returns a [res]; code that also mutates an object
      runs in the monad [M S], which keeps the state on an exception, as
      Python does;
    - the USB stack (pyusb) and the file system are an interface ([Host])
      with an abstract world state; the conversions of the Python runtime
      that are not modelled are another ([Builtins]). *)

From Stdlib Require Import ZArith List String Ascii Lia Bool.
From Stdlib Require Import Floats.SpecFloat DecimalString HexadecimalString.
From Stdlib Require Import Sorting.Sorted.
From stdpp Require Import base list gmap strings.

Local Open Scope string_scope.
Local Open Scope Z_scope.

(* ===================================================================== *)
(** * Part I: definitions                                                  *)
(* ===================================================================== *)

(** ** Exceptions, results and the state-and-exception monad *)

(** [usb.core.USBError]: the [errno] attribute and the text of [str(exc)]. *)
Record usb_error := { usb_errno : option Z; usb_str : string }.

Inductive exn :=
| BackendError (msg : string)
| USBError (e : usb_error)
| NoBackendError
| ValueError
| TypeError
| OverflowError
| IndexError
| KeyError
| OSError.

(** Subclassing among the exceptions: [usb.core.NoBackendError] is a
    [ValueError], [usb.core.USBError] is an [IOError], that is an [OSError]. *)
Definition isinstance_ValueError (e : exn) : bool :=
  match e with ValueError | NoBackendError => true | _ => false end.

Definition isinstance_OSError (e : exn) : bool :=
  match e with OSError | USBError _ => true | _ => false end.

Inductive res (A : Type) :=
| Ok (a : A)
| Raise (e : exn).
Arguments Ok {A} a.
Arguments Raise {A} e.

Definition rbind {A B} (m : res A) (k : A -> res B) : res B :=
  match m with
  | Ok a => k a
  | Raise e => Raise e
  end.

Definition M (S A : Type) : Type := S -> res A * S.

Definition ret {S A} (a : A) : M S A := fun s => (Ok a, s).

Definition raise {S A} (e : exn) : M S A := fun s => (Raise e, s).

Definition bind {S A B} (m : M S A) (k : A -> M S B) : M S B :=
  fun s =>
    match m s with
    | (Ok a, s') => k a s'
    | (Raise e, s') => (Raise e, s')
    end.

Definition get {S} : M S S := fun s => (Ok s, s).

Definition modify {S} (f : S -> S) : M S unit := fun s => (Ok tt, f s).

Definition lift_res {S A} (r : res A) : M S A := fun s => (r, s).

(** [try: body / except ...: handler].  [handler e] is [None] when no
    except clause matches [e], which then propagates. *)
Definition try_except {S A} (body : M S A) (handler : exn -> option (M S A)) : M S A :=
  fun s =>
    match body s with
    | (Ok a, s') => (Ok a, s')
    | (Raise e, s') =>
        match handler e with
        | Some h => h s'
        | None => (Raise e, s')
        end
    end.

(** [try: body / finally: fin].  An exception of [fin] replaces the outcome
    of [body]. *)
Definition try_finally {S A} (body : M S A) (fin : M S unit) : M S A :=
  fun s =>
    match body s with
    | (r, s') =>
        match fin s' with
        | (Ok _, s'') => (r, s'')
        | (Raise e, s'') => (Raise e, s'')
        end
    end.

(** [for x in l: body x]. *)
Fixpoint for_each {S A} (l : list A) (body : A -> M S unit) : M S unit :=
  match l with
  | [] => ret tt
  | x :: rest => bind (body x) (fun _ => for_each rest body)
  end.

Declare Scope py_scope.
Delimit Scope py_scope with py.
Notation "x <- m ;; k" := (bind m (fun x => k))
  (at level 100, m at next level, right associativity) : py_scope.
Notation "m ;;; k" := (bind m (fun _ => k))
  (at level 100, right associativity) : py_scope.
Notation "'let?' x := m 'in' k" := (rbind m (fun x => k))
  (at level 100, x name, m at next level, right associativity) : py_scope.
Local Open Scope py_scope.

(** ** Builtins on [int] *)

(** [max(a, b)] and [min(a, b)] keep the first argument on a tie. *)
Definition py_max (a b : Z) : Z := if a <? b then b else a.
Definition py_min (a b : Z) : Z := if b <? a then b else a.

(** [sorted(l)] and [list.sort(key=...)]: a stable sort, here by insertion. *)
Fixpoint insert_sorted {A} (le : A -> A -> bool) (x : A) (l : list A) : list A :=
  match l with
  | [] => [x]
  | y :: rest => if le x y then x :: y :: rest else y :: insert_sorted le x rest
  end.

Definition stable_sort {A} (le : A -> A -> bool) (l : list A) : list A :=
  foldr (insert_sorted le) [] l.

(** ** Strings *)

Definition str_of_Z (z : Z) : string :=
  DecimalString.NilZero.string_of_int (Z.to_int z).

Fixpoint pad_zeros (n : nat) (digits : string) : string :=
  match n with
  | O => digits
  | S n' => pad_zeros n' (String "0" digits)
  end.

(** Left-pad [digits] with zeros up to [width] characters. *)
Definition zfill (width : nat) (digits : string) : string :=
  pad_zeros (width - String.length digits) digits.

(** [f"{z:04x}"]: lower-case hexadecimal, zero-padded to four characters,
    the sign counting as one of them. *)
Definition format_04x (z : Z) : string :=
  let digits := HexadecimalString.NilZero.string_of_uint (N.to_hex_uint (Z.to_N (Z.abs z))) in
  if z <? 0 then String "-" (zfill 3 digits) else zfill 4 digits.

Definition is_space (c : ascii) : bool :=
  let n := nat_of_ascii c in
  ((9 <=? n) && (n <=? 13) || (28 <=? n) && (n <=? 32))%nat.

Definition lower_char (c : ascii) : ascii :=
  let n := nat_of_ascii c in
  if ((65 <=? n) && (n <=? 90))%nat then ascii_of_nat (n + 32) else c.

Definition upper_char (c : ascii) : ascii :=
  let n := nat_of_ascii c in
  if ((97 <=? n) && (n <=? 122))%nat then ascii_of_nat (n - 32) else c.

Fixpoint str_map (f : ascii -> ascii) (s : string) : string :=
  match s with
  | EmptyString => EmptyString
  | String c rest => String (f c) (str_map f rest)
  end.

Definition lower (s : string) : string := str_map lower_char s.
Definition upper (s : string) : string := str_map upper_char s.

Fixpoint lstrip (s : string) : string :=
  match s with
  | EmptyString => EmptyString
  | String c rest => if is_space c then lstrip rest else s
  end.

Fixpoint rstrip (s : string) : string :=
  match s with
  | EmptyString => EmptyString
  | String c rest =>
      match rstrip rest with
      | EmptyString => if is_space c then EmptyString else String c EmptyString
      | rest' => String c rest'
      end
  end.

Definition strip (s : string) : string := rstrip (lstrip s).

Fixpoint starts_with (p s : string) : bool :=
  match p, s with
  | EmptyString, _ => true
  | String a p', String b s' => if Ascii.eqb a b then starts_with p' s' else false
  | String _ _, EmptyString => false
  end.

(** [p in s] for strings. *)
Fixpoint str_contains (p s : string) : bool :=
  starts_with p s ||
  match s with
  | EmptyString => false
  | String _ rest => str_contains p rest
  end.

(** Truth value of an optional string: [None] and [""] are false. *)
Definition str_or (a : option string) (b : string) : string :=
  match a with
  | Some (String c rest) => String c rest
  | _ => b
  end.

(** ** Floats: IEEE-754 binary64 *)

Definition float := spec_float.

Definition fadd : float -> float -> float := SFadd 53 1024.
Definition fsub : float -> float -> float := SFsub 53 1024.
Definition fmul : float -> float -> float := SFmul 53 1024.
Definition fdiv : float -> float -> float := SFdiv 53 1024.
Definition fsqrt : float -> float := SFsqrt 53 1024.
Definition flt : float -> float -> bool := SFltb.
Definition feqb : float -> float -> bool := SFeqb.

(** The binary64 value nearest to the integer [z] (ties to even);
    infinite when [z] is too large. *)
Definition float_of_Z_round (z : Z) : float := binary_normalize 53 1024 z 0 false.

(** [float(z)] for an [int]: OverflowError when [z] is too large. *)
Definition float_of_Z (z : Z) : res float :=
  match float_of_Z_round z with
  | S754_infinity _ => Raise OverflowError
  | f => Ok f
  end.

(** A decimal literal [n/d] with [n] and [d] exactly representable: the
    correctly rounded quotient is the value the Python parser produces. *)
Definition float_lit (n d : Z) : float :=
  fdiv (float_of_Z_round n) (float_of_Z_round d).

Definition f_inf : float := S754_infinity false.
Definition math_pi : float := S754_finite false 7074237752028440 (-51).

(** [max(a, b)] and [min(a, b)] on floats keep the first argument unless
    the second compares strictly beyond it. *)
Definition py_fmax (a b : float) : float := if flt a b then b else a.
Definition py_fmin (a b : float) : float := if flt b a then b else a.

(** [int(f)]: truncation toward zero. *)
Definition float_trunc (f : float) : res Z :=
  match f with
  | S754_zero _ => Ok 0
  | S754_nan => Raise ValueError
  | S754_infinity _ => Raise OverflowError
  | S754_finite s m e =>
      let mag := if 0 <=? e then Zpos m * 2 ^ e else Zpos m / 2 ^ (- e) in
      Ok (if s then - mag else mag)
  end.

(** [round(f)]: the nearest integer, ties to even. *)
Definition float_round (f : float) : res Z :=
  match f with
  | S754_zero _ => Ok 0
  | S754_nan => Raise ValueError
  | S754_infinity _ => Raise OverflowError
  | S754_finite s m e =>
      let mag :=
        if 0 <=? e then Zpos m * 2 ^ e
        else
          let d := 2 ^ (- e) in
          let q := Zpos m / d in
          let r := Zpos m mod d in
          match 2 * r ?= d with
          | Lt => q
          | Gt => q + 1
          | Eq => if Z.even q then q else q + 1
          end in
      Ok (if s then - mag else mag)
  end.

(** [x % 1.0]: the C [fmod], then moved to the sign of the divisor. *)
Definition float_mod_one (x : float) : float :=
  match x with
  | S754_nan | S754_infinity _ => S754_nan
  | S754_zero _ => S754_zero false
  | S754_finite s m e =>
      if 0 <=? e then S754_zero false
      else
        let frac := Zpos m mod 2 ^ (- e) in
        if frac =? 0 then S754_zero false
        else
          let r := binary_normalize 53 1024 (if s then - frac else frac) e false in
          if s then fadd r (float_of_Z_round 1) else r
  end.

(** [math.sqrt(z)] for an [int]. *)
Definition math_sqrt (z : Z) : res float :=
  let? f := float_of_Z z in
  if z <? 0 then Raise ValueError else Ok (fsqrt f).

(** [colorsys.hsv_to_rgb] of the Python standard library. *)
Definition hsv_to_rgb (h s v : float) : res (float * float * float) :=
  let one := float_of_Z_round 1 in
  let six := float_of_Z_round 6 in
  if feqb s (float_of_Z_round 0) then Ok (v, v, v)
  else
    let? i := float_trunc (fmul h six) in
    let? fi := float_of_Z i in
    let f := fsub (fmul h six) fi in
    let p := fmul v (fsub one s) in
    let q := fmul v (fsub one (fmul s f)) in
    let t := fmul v (fsub one (fmul s (fsub one f))) in
    let i := i mod 6 in
    if i =? 0 then Ok (v, t, p)
    else if i =? 1 then Ok (q, v, p)
    else if i =? 2 then Ok (p, v, t)
    else if i =? 3 then Ok (p, q, v)
    else if i =? 4 then Ok (t, p, v)
    else if i =? 5 then Ok (v, p, q)
    else Raise TypeError.

(** ** Dictionaries: insertion-ordered association lists *)

Section Dict.
Context {K V : Type} `{EqDecision K}.

Fixpoint dict_get (k : K) (d : list (K * V)) : option V :=
  match d with
  | [] => None
  | (k', v) :: rest => if decide (k = k') then Some v else dict_get k rest
  end.

(** [d[k] = v]: an existing key keeps its position. *)
Fixpoint dict_set (k : K) (v : V) (d : list (K * V)) : list (K * V) :=
  match d with
  | [] => [(k, v)]
  | (k', v') :: rest =>
      if decide (k = k') then (k', v) :: rest else (k', v') :: dict_set k v rest
  end.

(** [del d[k]] for a present key; no change for an absent one. *)
Fixpoint dict_del (k : K) (d : list (K * V)) : list (K * V) :=
  match d with
  | [] => []
  | (k', v') :: rest =>
      if decide (k = k') then rest else (k', v') :: dict_del k rest
  end.

Definition dict_mem (k : K) (d : list (K * V)) : bool :=
  match dict_get k d with Some _ => true | None => false end.

Definition dict_keys (d : list (K * V)) : list K := map fst d.

(** [d.get(k, default)]. *)
Definition dict_get_default (k : K) (default : V) (d : list (K * V)) : V :=
  match dict_get k d with Some v => v | None => default end.
End Dict.

(** ** Python objects as they come out of [json.loads] *)

#[warnings="-register-all"] Inductive pyobj :=
| PNone
| PBool (b : bool)
| PInt (z : Z)
| PFloat (f : float)
| PStr (s : string)
| PList (l : list pyobj)
| PDict (d : list (string * pyobj)).

(** Parts of the Python runtime that are taken as given: parsing a number
    out of a string for [int(s)] and [float(s)] ([None]: ValueError), and
    [str(x)] of a float, a list or a dict. *)
Class Builtins := {
  int_of_str : string -> option Z;
  float_of_str : string -> option float;
  repr_other : pyobj -> string
}.

(** [int(x)]. *)
Definition py_int `{Builtins} (x : pyobj) : res Z :=
  match x with
  | PInt z => Ok z
  | PBool b => Ok (if b then 1 else 0)
  | PFloat f => float_trunc f
  | PStr s => match int_of_str s with Some z => Ok z | None => Raise ValueError end
  | PNone | PList _ | PDict _ => Raise TypeError
  end.

(** [float(x)]. *)
Definition py_float `{Builtins} (x : pyobj) : res float :=
  match x with
  | PFloat f => Ok f
  | PInt z => float_of_Z z
  | PBool b => Ok (float_of_Z_round (if b then 1 else 0))
  | PStr s => match float_of_str s with Some f => Ok f | None => Raise ValueError end
  | PNone | PList _ | PDict _ => Raise TypeError
  end.

(** [str(x)]. *)
Definition py_str `{Builtins} (x : pyobj) : string :=
  match x with
  | PStr s => s
  | PInt z => str_of_Z z
  | PBool b => if b then "True" else "False"
  | PNone => "None"
  | PFloat _ | PList _ | PDict _ => repr_other x
  end.

(** [bool(x)]. *)
Definition py_bool (x : pyobj) : bool :=
  match x with
  | PNone => false
  | PBool b => b
  | PInt z => negb (z =? 0)
  | PFloat f => negb (feqb f (float_of_Z_round 0))
  | PStr s => negb (String.eqb s "")
  | PList l => match l with [] => false | _ => true end
  | PDict d => match d with [] => false | _ => true end
  end.

(** ** The host: the USB bus and the file system *)

(** A [usb.core.Device] object: its identity and the attributes read by
    the program. *)
Record usb_device := {
  dev_handle : nat;
  idProduct : Z;
  dev_bus : Z;
  dev_address : Z
}.

(** The operations of a device that either return or raise
    [usb.core.USBError]. *)
Inductive usb_op :=
| SetConfiguration
| DetachKernelDriver (iface : Z)
| AttachKernelDriver (iface : Z)
| ClaimInterface (iface : Z)
| ReleaseInterface (iface : Z)
| CtrlTransfer (bmRequestType bRequest wValue wIndex : Z) (data : list Z) (timeout : Z).

(** [is_kernel_driver_active] returns, raises [USBError], or is not
    implemented by the pyusb backend. *)
Inductive kernel_reply :=
| KActive (b : bool)
| KUsbError (e : usb_error)
| KNotImplemented.

(** Reading a JSON file: absent, unreadable (OSError), not JSON
    ([json.JSONDecodeError]), or a document. *)
Inductive read_result :=
| FileMissing
| FileUnreadable
| FileInvalid
| FileDoc (doc : pyobj).

Class Host := {
  World : Type;
  (** [usb.core.find(find_all=True, idVendor=v)] *)
  usb_find : Z -> World -> res (list usb_device);
  (** an operation on a device: [None] on return, [Some e] on USBError *)
  usb_call : usb_device -> usb_op -> World -> option usb_error * World;
  usb_kernel_active : usb_device -> Z -> World -> kernel_reply * World;
  (** [path.write_text(json.dumps(doc))]: [false] on OSError *)
  fs_write_json : string -> pyobj -> World -> bool * World;
  (** [json.loads(path.read_text())] behind [path.exists()] *)
  fs_read_json : string -> World -> read_result
}.

(** What the program did to the host, in order. *)
Inductive event :=
| EvFind
| EvKernelActive (dev : usb_device) (iface : Z)
| EvUsb (dev : usb_device) (op : usb_op)
| EvWrite (path : string) (doc : pyobj).

Record env `{Host} := mk_env { world : World; trace : list event }.

(** Methods of an object of type [O] run on the object and the host. *)
Section HostOps.
Context `{Host} {O : Type}.

Definition host_find (vendor : Z) : M (O * env) (list usb_device) :=
  fun st =>
    let e := snd st in
    (usb_find vendor (world e),
     (fst st, mk_env _ (world e) (trace e ++ [EvFind]))).

Definition host_usb (dev : usb_device) (op : usb_op) : M (O * env) unit :=
  fun st =>
    let e := snd st in
    let r := usb_call dev op (world e) in
    let st' := (fst st, mk_env _ (snd r) (trace e ++ [EvUsb dev op])) in
    match fst r with
    | None => (Ok tt, st')
    | Some err => (Raise (USBError err), st')
    end.

Definition host_kernel_active (dev : usb_device) (iface : Z) : M (O * env) kernel_reply :=
  fun st =>
    let e := snd st in
    let r := usb_kernel_active dev iface (world e) in
    (Ok (fst r), (fst st, mk_env _ (snd r) (trace e ++ [EvKernelActive dev iface]))).

Definition host_write_json (path : string) (doc : pyobj) : M (O * env) unit :=
  fun st =>
    let e := snd st in
    let r := fs_write_json path doc (world e) in
    let st' := (fst st, mk_env _ (snd r) (trace e ++ [EvWrite path doc])) in
    if fst r then (Ok tt, st') else (Raise OSError, st').

Definition host_read_json (path : string) : M (O * env) read_result :=
  fun st => (Ok (fs_read_json path (world (snd st))), st).

Definition get_self : M (O * env) O := fun st => (Ok (fst st), st).

Definition set_self (o : O) : M (O * env) unit := fun st => (Ok tt, (o, snd st)).

(** A method body with a local mutable variable of type [L]. *)
Definition with_local {L A} (init : L) (m : M ((O * L) * env) A) : M (O * env) A :=
  fun st =>
    match m ((fst st, init), snd st) with
    | (r, st') => (r, (fst (fst st'), snd st'))
    end.
End HostOps.

Definition get_local {O L} `{Host} : M ((O * L) * env) L :=
  fun st => (Ok (snd (fst st)), st).

Definition set_local {O L} `{Host} (l : L) : M ((O * L) * env) unit :=
  fun st => (Ok tt, ((fst (fst st), l), snd st)).

(** A method of a member object [P] of [O], reached through [proj] and
    written back through [upd]. *)
Definition on_member {O P A} `{Host} (proj : O -> P) (upd : P -> O -> O)
    (m : M (P * env) A) : M (O * env) A :=
  fun st =>
    match m (proj (fst st), snd st) with
    | (r, st') => (r, (upd (fst st') (fst st), snd st'))
    end.

(** ** protocol.py *)

Module protocol.

Definition VENDOR_ID : Z := 0x0738.

Definition SUPPORTED_PRODUCTS : list (Z * string) :=
  [(0x2221, "X-56 Joystick"); (0xA221, "X-56 Throttle")].

Definition USB_TIMEOUT_MS : Z := 4000.
Definition REQUEST_TYPE_SET_REPORT : Z := 0x21.
Definition REQUEST_SET_REPORT : Z := 0x09.

Definition WVALUE_RGB : Z := 0x0309.
Definition WVALUE_APPLY : Z := 0x0300.
Definition WINDEX_INTERFACE_2 : Z := Z.shiftl 2 8.

Definition PACKET_SIZE : nat := 64.

(** [bytearray(n)]. *)
Definition bytearray (n : nat) : list Z := repeat 0 n.

(** [packet[i] = v]: a byte must be in [range(256)] and the index in
    range. *)
Definition bytearray_set (i : nat) (v : Z) (packet : list Z) : res (list Z) :=
  if negb ((0 <=? v) && (v <? 256)) then Raise ValueError
  else if (i <? length packet)%nat then Ok (<[i := v]> packet)
  else Raise IndexError.

Definition build_rgb_packet (red green blue : Z) : res (list Z) :=
  let packet := bytearray PACKET_SIZE in
  let? packet := bytearray_set 0 0x09 packet in
  let? packet := bytearray_set 1 0x00 packet in
  let? packet := bytearray_set 2 0x03 packet in
  let? packet := bytearray_set 3 red packet in
  let? packet := bytearray_set 4 green packet in
  let? packet := bytearray_set 5 blue packet in
  Ok packet.

Definition build_apply_packet : res (list Z) :=
  let packet := bytearray PACKET_SIZE in
  let? packet := bytearray_set 0 0x01 packet in
  let? packet := bytearray_set 1 0x01 packet in
  Ok packet.

End protocol.

(** ** usb_backend.py: [DeviceInfo] (used by calibration.py as well) *)

Module DeviceInfo.
Record t := mk {
  id : Z;
  name : string;
  bus : Z;
  address : Z;
  product_id : Z
}.
End DeviceInfo.

(** ** effects.py *)

Module effects.

Definition EFFECT_OFF : string := "off".
Definition EFFECT_RAINBOW : string := "rainbow".
Definition EFFECT_MODES : list string := [EFFECT_OFF; EFFECT_RAINBOW].

Definition _clamp_rgb (value : Z) : Z := py_max 0 (py_min 255 value).

Definition compute_effect_color (mode : string) (base_rgb : Z * Z * Z)
    (phase brightness : float) : res (Z * Z * Z) :=
  if String.eqb mode EFFECT_RAINBOW then
    let hue := float_mod_one (fdiv phase (fmul (float_of_Z_round 2) math_pi)) in
    let? rgb :=
      hsv_to_rgb hue (float_of_Z_round 1)
        (py_fmax (float_lit 5 100) (py_fmin (float_of_Z_round 1) brightness)) in
    let '(red, green, blue) := rgb in
    let f255 := float_of_Z_round 255 in
    let? r := float_round (fmul red f255) in
    let? g := float_round (fmul green f255) in
    let? b := float_round (fmul blue f255) in
    Ok (_clamp_rgb r, _clamp_rgb g, _clamp_rgb b)
  else Ok base_rgb.

Definition next_phase (phase : float) (speed : Z) : float :=
  let step := fmul (float_lit 2 100) (float_of_Z_round (py_max 1 (py_min 20 speed))) in
  fadd phase step.

End effects.

(** ** calibration.py *)

Module calibration.

Definition CHANNELS : list string := ["R"; "G"; "B"].

Definition CALIBRATION_COLORS : list (string * (Z * Z * Z)) :=
  [("Red", (255, 0, 0));
   ("Green", (0, 255, 0));
   ("Blue", (0, 0, 255));
   ("Orange", (190, 20, 0));
   ("Purple", (180, 0, 200));
   ("Pink", (190, 4, 18));
   ("White", (255, 255, 255))].

Definition _to_int `{Builtins} (value : pyobj) (default : Z) : res Z :=
  match py_int value with
  | Ok z => Ok z
  | Raise TypeError | Raise ValueError => Ok default
  | Raise e => Raise e
  end.

Module ColorOffset.
Record t := mk { red : Z; green : Z; blue : Z }.

Definition default : t := mk 0 0 0.

Definition to_json (self : t) : list (string * pyobj) :=
  [("red", PInt (red self)); ("green", PInt (green self)); ("blue", PInt (blue self))].

Definition from_json `{Builtins} (data : list (string * pyobj)) : res t :=
  let? r := _to_int (dict_get_default "red" (PInt 0) data) 0 in
  let? g := _to_int (dict_get_default "green" (PInt 0) data) 0 in
  let? b := _to_int (dict_get_default "blue" (PInt 0) data) 0 in
  Ok (mk r g b).
End ColorOffset.

Fixpoint _parse_offsets_loop `{Builtins} (items : list (string * pyobj))
    (parsed : list (string * ColorOffset.t)) : res (list (string * ColorOffset.t)) :=
  match items with
  | [] => Ok parsed
  | (key, value) :: rest =>
      match value with
      | PDict d =>
          if dict_mem key CALIBRATION_COLORS then
            let? offset := ColorOffset.from_json d in
            _parse_offsets_loop rest (dict_set key offset parsed)
          else _parse_offsets_loop rest parsed
      | _ => _parse_offsets_loop rest parsed
      end
  end.

Definition _parse_offsets `{Builtins} (raw : pyobj) : res (list (string * ColorOffset.t)) :=
  match raw with
  | PDict items => _parse_offsets_loop items []
  | _ => Ok []
  end.

Module ColorCalibration.
Record t := mk {
  order : string * string * string;
  gain_r : float;
  gain_g : float;
  gain_b : float;
  target_offsets : option (list (string * ColorOffset.t))
}.

Definition default : t :=
  mk ("R", "G", "B") (float_of_Z_round 1) (float_of_Z_round 1) (float_of_Z_round 1) None.

(** [self.target_offsets or {}]. *)
Definition offsets_or_empty (self : t) : list (string * ColorOffset.t) :=
  match target_offsets self with
  | Some d => d
  | None => []
  end.

Fixpoint closest_loop (items : list (string * (Z * Z * Z))) (red green blue : Z)
    (best_name : string) (best_distance : float) : res string :=
  match items with
  | [] => Ok best_name
  | (name, (r0, g0, b0)) :: rest =>
      let? distance := math_sqrt ((red - r0) ^ 2 + (green - g0) ^ 2 + (blue - b0) ^ 2) in
      if flt distance best_distance
      then closest_loop rest red green blue name distance
      else closest_loop rest red green blue best_name best_distance
  end.

Definition closest_target_name (red green blue : Z) : res string :=
  closest_loop CALIBRATION_COLORS red green blue "White" f_inf.

Definition apply (self : t) (red green blue : Z) (target_name : option string)
    : res (Z * Z * Z) :=
  match offsets_or_empty self with
  | [] => Ok (red, green, blue)
  | offsets =>
      let? selected_target :=
        match target_name with
        | Some (String c rest) => Ok (String c rest)
        | _ => closest_target_name red green blue
        end in
      match dict_get selected_target offsets with
      | Some offset =>
          Ok (py_max 0 (py_min 255 (red + ColorOffset.red offset)),
              py_max 0 (py_min 255 (green + ColorOffset.green offset)),
              py_max 0 (py_min 255 (blue + ColorOffset.blue offset)))
      | None => Ok (red, green, blue)
      end
  end.

Definition offset_for (self : t) (target_name : string) : ColorOffset.t :=
  dict_get_default target_name ColorOffset.default (offsets_or_empty self).

Definition with_offset (self : t) (target_name : string) (offset : ColorOffset.t) : t :=
  mk (order self) (gain_r self) (gain_g self) (gain_b self)
     (Some (dict_set target_name offset (offsets_or_empty self))).

Definition to_json (self : t) : list (string * pyobj) :=
  let '(o0, o1, o2) := order self in
  [("order", PList [PStr o0; PStr o1; PStr o2]);
   ("gain_r", PFloat (gain_r self));
   ("gain_g", PFloat (gain_g self));
   ("gain_b", PFloat (gain_b self));
   ("target_offsets",
    PDict (map (fun kv => (fst kv, PDict (ColorOffset.to_json (snd kv))))
               (offsets_or_empty self)))].

Definition from_json `{Builtins} (data : list (string * pyobj)) : res t :=
  let rgb := ("R", "G", "B") in
  let order_raw := dict_get_default "order" (PList [PStr "R"; PStr "G"; PStr "B"]) data in
  let order :=
    match order_raw with
    | PList [x0; x1; x2] =>
        let parsed := map (fun x => upper (py_str x)) [x0; x1; x2] in
        if existsb (fun item => negb (bool_decide (item ∈ CHANNELS))) parsed then rgb
        else (upper (py_str x0), upper (py_str x1), upper (py_str x2))
    | _ => rgb
    end in
  let? gr := py_float (dict_get_default "gain_r" (PFloat (float_of_Z_round 1)) data) in
  let? gg := py_float (dict_get_default "gain_g" (PFloat (float_of_Z_round 1)) data) in
  let? gb := py_float (dict_get_default "gain_b" (PFloat (float_of_Z_round 1)) data) in
  let? offsets := _parse_offsets (dict_get_default "target_offsets" PNone data) in
  Ok (mk order gr gg gb (Some offsets)).
End ColorCalibration.

Module CalibrationStore.

Record t := mk { _path : string; _profiles : list (string * ColorCalibration.t) }.

Definition key_for_device (device : DeviceInfo.t) : string :=
  format_04x (DeviceInfo.product_id device).

Definition _legacy_key_for_device (device : DeviceInfo.t) : string :=
  (format_04x (DeviceInfo.product_id device) ++ ":" ++ str_of_Z (DeviceInfo.bus device)
     ++ ":" ++ str_of_Z (DeviceInfo.address device))%string.

Section Methods.
Context `{Host} `{Builtins}.

Definition set_profiles (profiles : list (string * ColorCalibration.t)) : M (t * env) unit :=
  self <- get_self ;;
  set_self (mk (_path self) profiles).

(** The loop of [_load] over the persisted profiles. *)
Fixpoint _load_loop (items : list (string * pyobj))
    (loaded : list (string * ColorCalibration.t)) : res (list (string * ColorCalibration.t)) :=
  match items with
  | [] => Ok loaded
  | (key, value) :: rest =>
      match value with
      | PDict d =>
          let? calibration := ColorCalibration.from_json d in
          _load_loop rest (dict_set key calibration loaded)
      | _ => _load_loop rest loaded
      end
  end.

Definition _load : M (t * env) unit :=
  try_except
    (self <- get_self ;;
     raw <- host_read_json (_path self) ;;
     match raw with
     | FileMissing => ret tt
     | FileUnreadable => raise OSError
     | FileInvalid => raise ValueError
     | FileDoc (PDict raw_items) =>
         match dict_get_default "profiles" (PDict []) raw_items with
         | PDict profiles_raw =>
             loaded <- lift_res (_load_loop profiles_raw []) ;;
             set_profiles loaded
         | _ => ret tt
         end
     | FileDoc _ => ret tt
     end)
    (fun e =>
       if isinstance_OSError e || isinstance_ValueError e
       then Some (set_profiles [])
       else None).

(** [CalibrationStore()] for the configuration file at [path]. *)
Definition __init__ (path : string) : M (unit * env) t :=
  fun st =>
    match _load (mk path [], snd st) with
    | (Ok _, st') => (Ok (fst st'), (tt, snd st'))
    | (Raise e, st') => (Raise e, (tt, snd st'))
    end.

Definition _save : M (t * env) unit :=
  self <- get_self ;;
  let payload :=
    PDict [("profiles",
            PDict (map (fun kv => (fst kv, PDict (ColorCalibration.to_json (snd kv))))
                       (_profiles self)))] in
  host_write_json (_path self) payload.

Definition get_for_device (device : DeviceInfo.t) : M (t * env) (option ColorCalibration.t) :=
  let key := key_for_device device in
  self <- get_self ;;
  match dict_get key (_profiles self) with
  | Some direct => ret (Some direct)
  | None =>
      let legacy_key := _legacy_key_for_device device in
      match dict_get legacy_key (_profiles self) with
      | Some legacy =>
          set_profiles (dict_set key legacy (_profiles self)) ;;;
          _save ;;;
          ret (Some legacy)
      | None => ret None
      end
  end.

Definition set_for_device (device : DeviceInfo.t) (calibration : ColorCalibration.t)
    : M (t * env) unit :=
  let key := key_for_device device in
  self <- get_self ;;
  let profiles := dict_set key calibration (_profiles self) in
  let legacy_key := _legacy_key_for_device device in
  let profiles := if dict_mem legacy_key profiles then dict_del legacy_key profiles
                  else profiles in
  set_profiles profiles ;;;
  _save.

Definition reset_for_device (device : DeviceInfo.t) : M (t * env) unit :=
  let key := key_for_device device in
  let legacy_key := _legacy_key_for_device device in
  self <- get_self ;;
  let profiles := _profiles self in
  let changed := false in
  let '(profiles, changed) :=
    if dict_mem key profiles then (dict_del key profiles, true) else (profiles, changed) in
  let '(profiles, changed) :=
    if dict_mem legacy_key profiles then (dict_del legacy_key profiles, true)
    else (profiles, changed) in
  set_profiles profiles ;;;
  if changed then _save else ret tt.
End Methods.

End CalibrationStore.

End calibration.

(** ** profile_store.py *)

Module profile_store.
Import effects protocol.

Definition _clamp_rgb `{Builtins} (value : pyobj) : res Z :=
  let? parsed :=
    match py_int value with
    | Ok z => Ok z
    | Raise TypeError | Raise ValueError => Ok 255
    | Raise e => Raise e
    end in
  Ok (py_max 0 (py_min 255 parsed)).

Definition _clamp_int `{Builtins} (value : pyobj) (min_value max_value default : Z) : res Z :=
  let? parsed :=
    match py_int value with
    | Ok z => Ok z
    | Raise TypeError | Raise ValueError => Ok default
    | Raise e => Raise e
    end in
  Ok (py_max min_value (py_min max_value parsed)).

Definition _effect_mode `{Builtins} (value : pyobj) : string :=
  let mode := lower (py_str value) in
  if bool_decide (mode ∈ EFFECT_MODES) then mode else EFFECT_OFF.

Module DeviceDefaultProfile.
Record t := mk {
  enabled : bool;
  name : string;
  red : Z;
  green : Z;
  blue : Z;
  effect_enabled : bool;
  effect_mode : string;
  effect_speed : Z;
  effect_brightness : Z
}.

Definition default : t := mk false "Default" 255 255 255 false EFFECT_OFF 3 100.

Definition to_json (self : t) : list (string * pyobj) :=
  [("enabled", PBool (enabled self));
   ("name", PStr (name self));
   ("red", PInt (red self));
   ("green", PInt (green self));
   ("blue", PInt (blue self));
   ("effect_enabled", PBool (effect_enabled self));
   ("effect_mode", PStr (effect_mode self));
   ("effect_speed", PInt (effect_speed self));
   ("effect_brightness", PInt (effect_brightness self))].

Definition from_json `{Builtins} (data : list (string * pyobj)) : res t :=
  let enabled := py_bool (dict_get_default "enabled" (PBool false) data) in
  let name := py_str (dict_get_default "name" (PStr "Default") data) in
  let? red := _clamp_rgb (dict_get_default "red" (PInt 255) data) in
  let? green := _clamp_rgb (dict_get_default "green" (PInt 255) data) in
  let? blue := _clamp_rgb (dict_get_default "blue" (PInt 255) data) in
  let effect_enabled := py_bool (dict_get_default "effect_enabled" (PBool false) data) in
  let effect_mode := _effect_mode (dict_get_default "effect_mode" (PStr EFFECT_OFF) data) in
  let? effect_speed := _clamp_int (dict_get_default "effect_speed" (PInt 3) data) 1 20 3 in
  let? effect_brightness :=
    _clamp_int (dict_get_default "effect_brightness" (PInt 100) data) 5 100 100 in
  Ok (mk enabled name red green blue effect_enabled effect_mode effect_speed
        effect_brightness).
End DeviceDefaultProfile.

Module ProfileStore.

Record t := mk { _path : string; _profiles : list (string * DeviceDefaultProfile.t) }.

Definition _key (product_id : Z) : string := format_04x product_id.

Definition get (self : t) (product_id : Z) : DeviceDefaultProfile.t :=
  dict_get_default (_key product_id) DeviceDefaultProfile.default (_profiles self).

Definition get_known_products : list Z :=
  stable_sort Z.leb (dict_keys SUPPORTED_PRODUCTS).

Section Methods.
Context `{Host} `{Builtins}.

Fixpoint _load_loop (items : list (string * pyobj))
    (loaded : list (string * DeviceDefaultProfile.t))
    : res (list (string * DeviceDefaultProfile.t)) :=
  match items with
  | [] => Ok loaded
  | (key, value) :: rest =>
      match value with
      | PDict d =>
          let? profile := DeviceDefaultProfile.from_json d in
          _load_loop rest (dict_set key profile loaded)
      | _ => _load_loop rest loaded
      end
  end.

Definition _load : M (t * env) unit :=
  try_except
    (self <- get_self ;;
     raw <- host_read_json (_path self) ;;
     match raw with
     | FileMissing => ret tt
     | FileUnreadable => raise OSError
     | FileInvalid => raise ValueError
     | FileDoc (PDict raw_items) =>
         match dict_get_default "profiles" (PDict []) raw_items with
         | PDict profiles_raw =>
             loaded <- lift_res (_load_loop profiles_raw []) ;;
             set_self (mk (_path self) loaded)
         | _ => ret tt
         end
     | FileDoc _ => ret tt
     end)
    (fun e =>
       if isinstance_OSError e || isinstance_ValueError e
       then Some (self <- get_self ;; set_self (mk (_path self) []))
       else None).

Definition _save : M (t * env) unit :=
  self <- get_self ;;
  let payload :=
    PDict [("profiles",
            PDict (map (fun kv => (fst kv, PDict (DeviceDefaultProfile.to_json (snd kv))))
                       (_profiles self)))] in
  host_write_json (_path self) payload.

Definition set (product_id : Z) (profile : DeviceDefaultProfile.t) : M (t * env) unit :=
  self <- get_self ;;
  set_self (mk (_path self) (dict_set (_key product_id) profile (_profiles self))) ;;;
  _save.
End Methods.

End ProfileStore.

End profile_store.

(** ** usb_backend.py *)

Module usb_backend.
Import protocol calibration.

Record _DeviceEntry := mk_entry { info : DeviceInfo.t; device : usb_device }.

(** Order of the keys [(bus, address)]. *)
Definition bus_address_le (a b : usb_device) : bool :=
  (dev_bus a <? dev_bus b) ||
  ((dev_bus a =? dev_bus b) && (dev_address a <=? dev_address b)).

(** [for index, dev in enumerate(filtered, start=index)]. *)
Fixpoint make_entries (index : Z) (filtered : list usb_device) : res (list _DeviceEntry) :=
  match filtered with
  | [] => Ok []
  | dev :: rest =>
      let product_id := idProduct dev in
      match dict_get product_id SUPPORTED_PRODUCTS with
      | None => Raise KeyError
      | Some name =>
          let? entries := make_entries (index + 1) rest in
          Ok (mk_entry (DeviceInfo.mk index name (dev_bus dev) (dev_address dev) product_id) dev
                :: entries)
      end
  end.

Module X56UsbBackend.

Record t := mk { _entries : list _DeviceEntry }.

Definition __init__ : t := mk [].

Section Methods.
Context `{Host}.

Definition refresh : M (t * env) (list DeviceInfo.t) :=
  devices <- host_find VENDOR_ID ;;
  let filtered := filter (fun dev => dict_mem (idProduct dev) SUPPORTED_PRODUCTS) devices in
  let filtered := stable_sort bus_address_le filtered in
  entries <- lift_res (make_entries 1 filtered) ;;
  set_self (mk entries) ;;;
  ret (map info entries).

Definition _validate_rgb (red green blue : Z) : res unit :=
  if existsb (fun value => (value <? 0) || (value >? 255)) [red; green; blue]
  then Raise (BackendError "RGB values must be in range 0-255.")
  else Ok tt.

Definition _is_pipe_error (exc : usb_error) : bool :=
  match usb_errno exc with
  | Some 32 => true
  | _ => str_contains "pipe error" (lower (usb_str exc))
  end.

Definition _kernel_active {O} (device : usb_device) (iface : Z) : M (O * env) bool :=
  r <- host_kernel_active device iface ;;
  match r with
  | KActive b => ret b
  | KUsbError _ | KNotImplemented => ret false
  end.

(** [try: op / except usb.core.USBError: pass]. *)
Definition ignore_usb_error {O} (op : M (O * env) unit) : M (O * env) unit :=
  try_except op
    (fun e => match e with USBError _ => Some (ret tt) | _ => None end).

(** The text of the [BackendError] that wraps a transport error. *)
Definition transfer_failed_text (exc : usb_error) : string :=
  let details := strip (usb_str exc) in
  if String.eqb details "" then "USB transfer failed."
  else ("USB transfer failed (" ++ details ++ ").")%string.

(** [_send_rgb_with_setup], lines 172-181: configuration and claims;
    the local list [attached_ifaces] records the detached drivers. *)
Definition claim_interfaces {O} (device : usb_device) (interfaces : list Z)
    : M ((O * list Z) * env) unit :=
  ignore_usb_error (host_usb device SetConfiguration) ;;;
  for_each interfaces (fun iface =>
    active <- _kernel_active device iface ;;
    (if active then
       host_usb device (DetachKernelDriver iface) ;;;
       attached_ifaces <- get_local ;;
       set_local (attached_ifaces ++ [iface])%list
     else ret tt) ;;;
    host_usb device (ClaimInterface iface)).

Definition rgb_transfer (windex : Z) (rgb_packet : list Z) : usb_op :=
  CtrlTransfer REQUEST_TYPE_SET_REPORT REQUEST_SET_REPORT WVALUE_RGB
    windex rgb_packet USB_TIMEOUT_MS.

Definition apply_transfer (windex : Z) (apply_packet : list Z) : usb_op :=
  CtrlTransfer REQUEST_TYPE_SET_REPORT REQUEST_SET_REPORT WVALUE_APPLY
    windex apply_packet USB_TIMEOUT_MS.

(** Lines 183-204: the colour transfer, then the latch transfer whose
    pipe error is passed over. *)
Definition send_packets {O} (device : usb_device) (windex : Z)
    (rgb_packet apply_packet : list Z) : M (O * env) unit :=
  host_usb device (rgb_transfer windex rgb_packet) ;;;
  try_except
    (host_usb device (apply_transfer windex apply_packet))
    (fun e =>
       match e with
       | USBError exc => if _is_pipe_error exc then Some (ret tt) else None
       | _ => None
       end).

(** Lines 212-222: the [finally] block. *)
Definition release_interfaces {O} (device : usb_device) (interfaces : list Z)
    : M ((O * list Z) * env) unit :=
  for_each interfaces (fun iface =>
    ignore_usb_error (host_usb device (ReleaseInterface iface)) ;;;
    attached_ifaces <- get_local ;;
    if bool_decide (iface ∈ attached_ifaces)
    then ignore_usb_error (host_usb device (AttachKernelDriver iface))
    else ret tt).

Definition _send_rgb_with_setup (device : usb_device) (interfaces : list Z)
    (windex : Z) (rgb_packet apply_packet : list Z) : M (t * env) unit :=
  with_local ([] : list Z)
    (try_finally
       (try_except
          (claim_interfaces device interfaces ;;;
           send_packets device windex rgb_packet apply_packet)
          (fun e =>
             match e with
             | USBError exc => Some (raise (BackendError (transfer_failed_text exc)))
             | _ => None
             end))
       (release_interfaces device interfaces)).

Definition attempts : list (list Z * Z) :=
  [([2; 0], WINDEX_INTERFACE_2);
   ([2; 0], 2);
   ([2], WINDEX_INTERFACE_2);
   ([2], 2)].

(** The loop of [_set_rgb_single] over the attempts still to make,
    and what follows it. *)
Fixpoint _set_rgb_single_loop (device : usb_device) (rgb_packet apply_packet : list Z)
    (todo : list (list Z * Z)) (last_error : option exn) : M (t * env) unit :=
  match todo with
  | [] =>
      match last_error with
      | Some e => raise e
      | None => raise (BackendError "USB transfer failed. Unknown error.")
      end
  | (interfaces, windex) :: rest =>
      try_except
        (_send_rgb_with_setup device interfaces windex rgb_packet apply_packet)
        (fun e =>
           match e with
           | BackendError _ =>
               Some (_set_rgb_single_loop device rgb_packet apply_packet rest (Some e))
           | _ => None
           end)
  end.

Definition _set_rgb_single (device : usb_device) (rgb_packet apply_packet : list Z)
    : M (t * env) unit :=
  _set_rgb_single_loop device rgb_packet apply_packet attempts None.

(** Lines 101-105 of [set_rgb_many]: the devices a list of ids
    stands for. *)
Definition select_targets (entries : list _DeviceEntry) (device_ids : list Z)
    : list _DeviceEntry :=
  if bool_decide (0 ∈ device_ids) then entries
  else
    let wanted : gset Z := list_to_set device_ids in
    filter (fun entry => bool_decide (DeviceInfo.id (info entry) ∈ wanted)) entries.

(** The body of the [try] of the device loop of [set_rgb_many]. *)
Definition send_to_entry (entry : _DeviceEntry) (red green blue : Z)
    (calibration_map : list (Z * ColorCalibration.t))
    (calibration_target : option string) (apply_packet : list Z) : M (t * env) unit :=
  out <- lift_res
    (match dict_get (DeviceInfo.id (info entry)) calibration_map with
     | Some calibration =>
         let? target_name :=
           match calibration_target with
           | Some (String c rest) => Ok (String c rest)
           | _ => ColorCalibration.closest_target_name red green blue
           end in
         ColorCalibration.apply calibration red green blue (Some target_name)
     | None => Ok (red, green, blue)
     end) ;;
  let '(out_r, out_g, out_b) := out in
  rgb_packet <- lift_res (build_rgb_packet out_r out_g out_b) ;;
  _set_rgb_single (device entry) rgb_packet apply_packet.

Definition failure_text (entry : _DeviceEntry) (exc : string) : string :=
  ("Device " ++ str_of_Z (DeviceInfo.id (info entry)) ++ " ("
     ++ DeviceInfo.name (info entry) ++ "): " ++ exc)%string.

(** The device loop of [set_rgb_many], with its two accumulators. *)
Fixpoint device_loop (targets : list _DeviceEntry) (red green blue : Z)
    (calibration_map : list (Z * ColorCalibration.t))
    (calibration_target : option string) (apply_packet : list Z)
    (applied : Z) (failures : list string) : M (t * env) (Z * list string) :=
  match targets with
  | [] => ret (applied, failures)
  | entry :: rest =>
      acc <- try_except
        (send_to_entry entry red green blue calibration_map calibration_target apply_packet ;;;
         ret (applied + 1, failures))
        (fun e =>
           match e with
           | BackendError exc => Some (ret (applied, (failures ++ [failure_text entry exc])%list))
           | _ => None
           end) ;;
      device_loop rest red green blue calibration_map calibration_target apply_packet
        (fst acc) (snd acc)
  end.

(** Lines 93-94 of [set_rgb_many]: [if not self._entries: self.refresh()]. *)
Definition ensure_entries : M (t * env) unit :=
  self <- get_self ;;
  match _entries self with
  | [] => refresh ;;; ret tt
  | _ => ret tt
  end.

Definition set_rgb_many (device_ids : list Z) (red green blue : Z)
    (calibrations : option (list (Z * ColorCalibration.t)))
    (calibration_target : option string) : M (t * env) (Z * list string) :=
  lift_res (_validate_rgb red green blue) ;;;
  let calibration_map := match calibrations with Some d => d | None => [] end in
  ensure_entries ;;;
  self <- get_self ;;
  match _entries self with
  | [] => raise (BackendError "No compatible X-56 devices found.")
  | _ =>
      match device_ids with
      | [] => raise (BackendError "No target device selected.")
      | _ =>
          match select_targets (_entries self) device_ids with
          | [] => raise (BackendError "Selected device ids were not found.")
          | targets =>
              apply_packet <- lift_res build_apply_packet ;;
              device_loop targets red green blue calibration_map calibration_target
                apply_packet 0 []
          end
      end
  end.

Definition set_rgb (device_id red green blue : Z) : M (t * env) Z :=
  r <- set_rgb_many [device_id] red green blue None None ;;
  match snd r with
  | failure :: _ => raise (BackendError failure)
  | [] => ret (fst r)
  end.
End Methods.

End X56UsbBackend.

End usb_backend.

(** ** main_window.py: the effect scheduler and the default profiles

    The widgets, the tray and the message boxes are presentation state and
    are not part of the model. *)

Module main_window.
Import effects calibration profile_store usb_backend.

Record EffectSession := mk_session {
  key : string;
  mode : string;
  speed : Z;
  brightness : Z;
  base_rgb : Z * Z * Z;
  target_ids : list Z;
  product_id : option Z;
  phase : float
}.

(** [session.phase = value]. *)
Definition set_phase (session : EffectSession) (value : float) : EffectSession :=
  mk_session (key session) (mode session) (speed session) (brightness session)
    (base_rgb session) (target_ids session) (product_id session) value.

Module MainWindow.

Record t := mk {
  backend : X56UsbBackend.t;
  calibration_store : CalibrationStore.t;
  profile_store : ProfileStore.t;
  _devices : list DeviceInfo.t;
  _detected_keys : gset (Z * Z * Z);
  _effect_sessions : list (string * EffectSession)
}.

Definition set_backend (b : X56UsbBackend.t) (self : t) : t :=
  mk b (calibration_store self) (profile_store self) (_devices self)
     (_detected_keys self) (_effect_sessions self).

Definition set_calibration_store (c : CalibrationStore.t) (self : t) : t :=
  mk (backend self) c (profile_store self) (_devices self)
     (_detected_keys self) (_effect_sessions self).

Definition set_devices (devices : list DeviceInfo.t) (self : t) : t :=
  mk (backend self) (calibration_store self) (profile_store self) devices
     (_detected_keys self) (_effect_sessions self).

Definition set_detected_keys (keys : gset (Z * Z * Z)) (self : t) : t :=
  mk (backend self) (calibration_store self) (profile_store self) (_devices self)
     keys (_effect_sessions self).

Definition set_effect_sessions (sessions : list (string * EffectSession)) (self : t) : t :=
  mk (backend self) (calibration_store self) (profile_store self) (_devices self)
     (_detected_keys self) sessions.

Definition _resolved_target_ids (self : t) (session : EffectSession) : list Z :=
  match product_id session with
  | Some pid =>
      map DeviceInfo.id
          (filter (fun dev => DeviceInfo.product_id dev =? pid) (_devices self))
  | None =>
      let valid : gset Z := list_to_set (map DeviceInfo.id (_devices self)) in
      filter (fun device_id => bool_decide (device_id ∈ valid)) (target_ids session)
  end.

Definition device_key (dev : DeviceInfo.t) : Z * Z * Z :=
  (DeviceInfo.product_id dev, DeviceInfo.bus dev, DeviceInfo.address dev).

(** [f"profile:{product_id}"]. *)
Definition profile_session_key (product_id : Z) : string :=
  ("profile:" ++ str_of_Z product_id)%string.

(** [by_product.setdefault(device.product_id, []).append(device.id)] over
    the devices. *)
Fixpoint group_by_product (devices : list DeviceInfo.t) (by_product : list (Z * list Z))
    : list (Z * list Z) :=
  match devices with
  | [] => by_product
  | device :: rest =>
      let product_id := DeviceInfo.product_id device in
      group_by_product rest
        (dict_set product_id
           (dict_get_default product_id [] by_product ++ [DeviceInfo.id device])%list
           by_product)
  end.

(** [SUPPORTED_PRODUCTS[product_id]] inside the status texts. *)
Definition product_label (product_id : Z) : res string :=
  match dict_get product_id protocol.SUPPORTED_PRODUCTS with
  | Some name => Ok name
  | None => Raise KeyError
  end.

(** The session [_auto_apply_default_profiles] starts for a profile. *)
Definition profile_session (product_id : Z) (profile : DeviceDefaultProfile.t)
    : EffectSession :=
  mk_session (profile_session_key product_id)
    (DeviceDefaultProfile.effect_mode profile)
    (DeviceDefaultProfile.effect_speed profile)
    (DeviceDefaultProfile.effect_brightness profile)
    (DeviceDefaultProfile.red profile, DeviceDefaultProfile.green profile,
     DeviceDefaultProfile.blue profile)
    [] (Some product_id) (S754_zero false).

Section Methods.
Context `{Host} `{Builtins}.

(** The loop of [_build_calibration_map] over the devices. *)
Fixpoint _build_calibration_map_loop (devices : list DeviceInfo.t) (target_set : gset Z)
    (calibration_map : list (Z * ColorCalibration.t))
    : M (t * env) (list (Z * ColorCalibration.t)) :=
  match devices with
  | [] => ret calibration_map
  | device :: rest =>
      if negb (bool_decide (DeviceInfo.id device ∈ target_set))
      then _build_calibration_map_loop rest target_set calibration_map
      else
        calibration <- on_member calibration_store set_calibration_store
                         (CalibrationStore.get_for_device device) ;;
        match calibration with
        | Some c =>
            _build_calibration_map_loop rest target_set
              (dict_set (DeviceInfo.id device) c calibration_map)
        | None => _build_calibration_map_loop rest target_set calibration_map
        end
  end.

Definition _build_calibration_map (target_ids : list Z)
    : M (t * env) (list (Z * ColorCalibration.t)) :=
  self <- get_self ;;
  let target_set : gset Z :=
    if bool_decide (0 ∈ target_ids)
    then list_to_set (map DeviceInfo.id (_devices self))
    else list_to_set target_ids in
  _build_calibration_map_loop (_devices self) target_set [].

(** The body of the loop of [_effect_tick] for one session key. *)
Definition _effect_tick_session (session_key : string) : M (t * env) unit :=
  self <- get_self ;;
  match dict_get session_key (_effect_sessions self) with
  | None => ret tt
  | Some session =>
      if String.eqb (mode session) EFFECT_OFF then
        set_self (set_effect_sessions (dict_del session_key (_effect_sessions self)) self)
      else
        match _resolved_target_ids self session with
        | [] => ret tt
        | target_ids =>
            brightness <- lift_res (float_of_Z (brightness session)) ;;
            out_rgb <- lift_res
              (compute_effect_color (mode session) (base_rgb session) (phase session)
                 (fdiv brightness (float_of_Z_round 100))) ;;
            calibration_map <- _build_calibration_map target_ids ;;
            sent <- try_except
              (on_member backend set_backend
                 (X56UsbBackend.set_rgb_many target_ids (fst (fst out_rgb))
                    (snd (fst out_rgb)) (snd out_rgb) (Some calibration_map) None) ;;;
               ret true)
              (fun e => match e with BackendError _ => Some (ret false) | _ => None end) ;;
            if sent then
              self <- get_self ;;
              set_self
                (set_effect_sessions
                   (dict_set session_key
                      (set_phase session (next_phase (phase session) (speed session)))
                      (_effect_sessions self))
                   self)
            else ret tt
        end
  end.

Definition _effect_tick : M (t * env) unit :=
  self <- get_self ;;
  match _effect_sessions self, _devices self with
  | [], _ | _, [] => ret tt
  | _, _ =>
      let session_keys := dict_keys (_effect_sessions self) in
      for_each session_keys _effect_tick_session
  end.

Definition stop_all_effects : M (t * env) unit :=
  self <- get_self ;;
  set_self (set_effect_sessions [] self).

(** [refresh_devices], without the widgets. *)
Definition refresh_devices : M (t * env) unit :=
  refreshed <- try_except
    (devices <- on_member backend set_backend X56UsbBackend.refresh ;;
     ret (Some devices))
    (fun e => match e with BackendError _ => Some (ret None) | _ => None end) ;;
  match refreshed with
  | None => ret tt
  | Some devices =>
      self <- get_self ;;
      set_self
        (set_detected_keys (list_to_set (map device_key devices))
           (set_devices devices self))
  end.

(** The body of the loop of [_auto_apply_default_profiles] for one
    product; the widgets are left out, the lookups of the product name in
    the status texts are kept. *)
Definition _auto_apply_product (new_only : bool) (new_keys : option (gset (Z * Z * Z)))
    (product_id : Z) (device_ids : list Z) : M (t * env) unit :=
  self <- get_self ;;
  let profile := ProfileStore.get (profile_store self) product_id in
  if negb (DeviceDefaultProfile.enabled profile) then
    set_self (set_effect_sessions
                (dict_del (profile_session_key product_id) (_effect_sessions self)) self)
  else
    let target_ids :=
      if new_only then
        map DeviceInfo.id
          (filter (fun dev =>
                     (DeviceInfo.product_id dev =? product_id) &&
                     match new_keys with
                     | Some keys => bool_decide (device_key dev ∈ keys)
                     | None => false
                     end) (_devices self))
      else device_ids in
    match target_ids with
    | [] => ret tt
    | _ =>
        if DeviceDefaultProfile.effect_enabled profile
           && bool_decide (DeviceDefaultProfile.effect_mode profile ∈ EFFECT_MODES)
           && negb (String.eqb (DeviceDefaultProfile.effect_mode profile) EFFECT_OFF)
        then
          set_self (set_effect_sessions
                      (dict_set (profile_session_key product_id)
                         (profile_session product_id profile) (_effect_sessions self))
                      self) ;;;
          lift_res (product_label product_id) ;;;
          ret tt
        else
          set_self (set_effect_sessions
                      (dict_del (profile_session_key product_id) (_effect_sessions self))
                      self) ;;;
          calibration_map <- _build_calibration_map target_ids ;;
          result <- on_member backend set_backend
                      (X56UsbBackend.set_rgb_many target_ids
                         (DeviceDefaultProfile.red profile)
                         (DeviceDefaultProfile.green profile)
                         (DeviceDefaultProfile.blue profile)
                         (Some calibration_map) None) ;;
          (match snd result with
           | [] => ret tt
           | _ => lift_res (product_label product_id) ;;; ret tt
           end) ;;;
          (if fst result =? 0 then ret tt
           else lift_res (product_label product_id) ;;; ret tt)
    end.

Definition _auto_apply_default_profiles (new_only : bool)
    (new_keys : option (gset (Z * Z * Z))) : M (t * env) unit :=
  self <- get_self ;;
  match _devices self with
  | [] => ret tt
  | devices =>
      for_each (group_by_product devices [])
        (fun item => _auto_apply_product new_only new_keys (fst item) (snd item))
  end.

Definition _poll_devices : M (t * env) unit :=
  self <- get_self ;;
  let previous := _detected_keys self in
  refresh_devices ;;;
  self <- get_self ;;
  let current := _detected_keys self in
  let newly_detected := current ∖ previous in
  if bool_decide (newly_detected = ∅) then ret tt
  else _auto_apply_default_profiles true (Some newly_detected).
End Methods.

End MainWindow.

End main_window.

(** ** A scripted host and a minimal runtime, for concrete runs

    The world of [scripted_host] is a script: the devices on the bus, the
    reply of every device operation, and the files. *)

Record script := mk_script {
  s_devices : res (list usb_device);
  s_usb : usb_device -> usb_op -> option usb_error;
  s_kernel : usb_device -> Z -> kernel_reply;
  s_writable : bool;
  s_files : list (string * pyobj)
}.

Definition scripted_host : Host := {|
  World := script;
  usb_find := fun _ w => s_devices w;
  usb_call := fun dev op w => (s_usb w dev op, w);
  usb_kernel_active := fun dev iface w => (s_kernel w dev iface, w);
  fs_write_json := fun path doc w =>
    if s_writable w
    then (true, mk_script (s_devices w) (s_usb w) (s_kernel w) true
                  (dict_set path doc (s_files w)))
    else (false, w);
  fs_read_json := fun path w =>
    match dict_get path (s_files w) with
    | Some doc => FileDoc doc
    | None => FileMissing
    end
|}.

(** A runtime that parses no string as a number. *)
Definition plain_builtins : Builtins := {|
  int_of_str := fun _ => None;
  float_of_str := fun _ => None;
  repr_other := fun _ => "<object>"
|}.

Definition joystick : usb_device := Build_usb_device 1 0x2221 1 4.
Definition throttle : usb_device := Build_usb_device 2 0xA221 1 5.

Definition pipe_error : usb_error := Build_usb_error (Some 32) "[Errno 32] Pipe error".
Definition io_error : usb_error := Build_usb_error (Some 5) "[Errno 5] Input/Output Error".

Definition is_ctrl_transfer (op : usb_op) : bool :=
  match op with CtrlTransfer _ _ _ _ _ _ => true | _ => false end.

(** Two devices; every control transfer to the throttle fails. *)
Definition throttle_fails : script :=
  mk_script (Ok [throttle; joystick])
    (fun dev op =>
       if (dev_handle dev =? 2)%nat && is_ctrl_transfer op then Some io_error else None)
    (fun _ _ => KActive false) true [].

(** One device; the latch transfer stalls with a pipe error. *)
Definition latch_stalls : script :=
  mk_script (Ok [joystick])
    (fun dev op =>
       match op with
       | CtrlTransfer _ _ wValue _ _ _ =>
           if wValue =? protocol.WVALUE_APPLY then Some pipe_error else None
       | _ => None
       end)
    (fun _ _ => KActive true) true [].

(** One device; the colour transfer stalls with a pipe error. *)
Definition colour_stalls : script :=
  mk_script (Ok [joystick])
    (fun dev op =>
       match op with
       | CtrlTransfer _ _ wValue _ _ _ =>
           if wValue =? protocol.WVALUE_RGB then Some pipe_error else None
       | _ => None
       end)
    (fun _ _ => KNotImplemented) true [].

Definition joystick_info : DeviceInfo.t := DeviceInfo.mk 1 "X-56 Joystick" 1 4 0x2221.
Definition throttle_info : DeviceInfo.t := DeviceInfo.mk 2 "X-56 Throttle" 1 5 0xA221.

(** A calibration with the channels reordered and two offsets. *)
Definition demo_calibration : calibration.ColorCalibration.t :=
  calibration.ColorCalibration.mk ("B", "G", "R")
    (float_lit 11 10) (float_of_Z_round 1) (float_lit 9 10)
    (Some [("Red", calibration.ColorOffset.mk 5 0 (-3));
           ("Pink", calibration.ColorOffset.mk (-300) 7 0)]).

(** A store that holds a calibration under the legacy key of the joystick
    only. *)
Definition legacy_store : calibration.CalibrationStore.t :=
  calibration.CalibrationStore.mk "calibration.json" [("2221:1:4", demo_calibration)].

(** The entries of the two devices, as [refresh] numbers them. *)
Definition demo_entries : list usb_backend._DeviceEntry :=
  [usb_backend.mk_entry joystick_info joystick; usb_backend.mk_entry throttle_info throttle].

(** A fresh backend on a scripted world. *)
Definition backend_on (w : script)
    : usb_backend.X56UsbBackend.t * @env scripted_host :=
  (usb_backend.X56UsbBackend.__init__, @mk_env scripted_host w []).

(** The default rainbow session of the throttle. *)
Definition throttle_rainbow : main_window.EffectSession :=
  main_window.mk_session "profile:41505" "rainbow" 3 100 (255, 255, 255) []
    (Some 0xA221) (S754_zero false).

(** A window that knows both devices and runs [throttle_rainbow]. *)
Definition window_on (w : script)
    : main_window.MainWindow.t * @env scripted_host :=
  (main_window.MainWindow.mk usb_backend.X56UsbBackend.__init__
     (calibration.CalibrationStore.mk "calibration.json" [])
     (profile_store.ProfileStore.mk "profiles.json" [])
     [joystick_info; throttle_info] ∅ [("profile:41505", throttle_rainbow)],
   @mk_env scripted_host w []).

(** One device; the colour transfer passes and the latch transfer fails
    with an error that is no pipe error and whose text is padded. *)
Definition latch_breaks : script :=
  mk_script (Ok [joystick])
    (fun dev op =>
       match op with
       | CtrlTransfer _ _ wValue _ _ _ =>
           if wValue =? protocol.WVALUE_APPLY
           then Some (Build_usb_error (Some 5) "  [Errno 5] Input/Output Error ")
           else None
       | _ => None
       end)
    (fun _ _ => KActive false) true [].



(** A calibration file whose one profile has a null gain. *)
Definition null_gain_file : script :=
  mk_script (Ok []) (fun _ _ => None) (fun _ _ => KActive false) true
    [("calibration.json",
      PDict [("profiles", PDict [("2221", PDict [("gain_r", PNone)])])])].

(** ** Definitions used to state and prove the properties *)

(** An order-preserving integer code of the non-negative finite floats with
    a mantissa below [2^53]: the exponent, then the mantissa. *)
Definition float_code (f : float) : option Z :=
  match f with
  | S754_zero false => Some 0
  | S754_finite false m e =>
      if (Zpos m <? 2 ^ 53) && (-2000 <? e) then Some ((e + 2000) * 2 ^ 53 + Zpos m)
      else None
  | _ => None
  end.

Definition sqrt_code (z : Z) : option Z :=
  match math_sqrt z with
  | Ok f => float_code f
  | Raise _ => None
  end.

Definition sqrt_rank (z : Z) : Z :=
  match sqrt_code z with Some c => c | None => -1 end.

(** The largest squared distance between two colours with channels in
    [0, 255]. *)
Definition max_sqdist : Z := 3 * 255 * 255.

(** [sqrt_table_ok n k prev]: the square roots of [k+1 .. k+n] are coded
    and their codes increase strictly from [prev]. *)
Fixpoint sqrt_table_ok (n : nat) (k prev : Z) : bool :=
  match n with
  | O => true
  | S n' =>
      match sqrt_code (k + 1) with
      | Some c => (prev <? c) && sqrt_table_ok n' (k + 1) c
      | None => false
      end
  end.

Definition in_byte_range (v : Z) : Prop := 0 <= v <= 255.

Definition rgb_in_range (rgb : Z * Z * Z) : Prop :=
  in_byte_range (fst (fst rgb)) /\ in_byte_range (snd (fst rgb)) /\ in_byte_range (snd rgb).

(** The squared Euclidean distance of [(r, g, b)] to a palette colour. *)
Definition sqdist (r g b : Z) (c : Z * Z * Z) : Z :=
  (r - fst (fst c)) ^ 2 + (g - snd (fst c)) ^ 2 + (b - snd c) ^ 2.

(** The loop of [closest_target_name] on exact squared distances; [None]
    stands for the infinite starting distance. *)
Fixpoint nearest_loop (items : list (string * (Z * Z * Z))) (r g b : Z)
    (best_name : string) (best : option Z) : string :=
  match items with
  | [] => best_name
  | (name, c) :: rest =>
      let d := sqdist r g b c in
      if match best with Some d0 => d <? d0 | None => true end
      then nearest_loop rest r g b name (Some d)
      else nearest_loop rest r g b best_name best
  end.

(** [raises_only P m]: whatever [m] raises satisfies [P]. *)
Definition raises_only {S A} (P : exn -> Prop) (m : M S A) : Prop :=
  forall s, match fst (m s) with Ok _ => True | Raise e => P e end.

Definition is_USBError (e : exn) : Prop := exists err, e = USBError err.
Definition is_BackendError (e : exn) : Prop := exists msg, e = BackendError msg.
Definition no_exception (e : exn) : Prop := False.

(** The [wIndex] of the control transfers of a trace, in order. *)
Definition ctrl_windexes (events : list event) : list Z :=
  omap (fun ev =>
          match ev with
          | EvUsb _ (CtrlTransfer _ _ _ wIndex _ _) => Some wIndex
          | _ => None
          end) events.

(** Whether an event is an operation on a device. *)
Definition is_device_event (ev : event) : bool :=
  match ev with
  | EvUsb _ _ | EvKernelActive _ _ => true
  | EvFind | EvWrite _ _ => false
  end.

(** The retry table as the specification words it:
    [(interface << 8) | 2] for the first and the third attempt. *)
Definition attempts_of_the_spec : list (list Z * Z) :=
  [([2; 0], Z.lor (Z.shiftl 2 8) 2);
   ([2; 0], 2);
   ([2], Z.lor (Z.shiftl 2 8) 2);
   ([2], 2)].

(** "Try each combination in order, return on the first success, else
    raise the error of the last attempt", as a relation between the state
    before and the outcome. *)
Inductive attempts_outcome `{Host} (device : usb_device) (rgb_packet apply_packet : list Z)
    : list (list Z * Z) -> usb_backend.X56UsbBackend.t * env -> res unit * (usb_backend.X56UsbBackend.t * env) -> Prop :=
| attempt_succeeds interfaces windex rest st st' :
    usb_backend.X56UsbBackend._send_rgb_with_setup device interfaces windex rgb_packet apply_packet st
      = (Ok tt, st') ->
    attempts_outcome device rgb_packet apply_packet ((interfaces, windex) :: rest) st (Ok tt, st')
| attempt_fails_next interfaces windex next rest st msg st' r :
    usb_backend.X56UsbBackend._send_rgb_with_setup device interfaces windex rgb_packet apply_packet st
      = (Raise (BackendError msg), st') ->
    attempts_outcome device rgb_packet apply_packet (next :: rest) st' r ->
    attempts_outcome device rgb_packet apply_packet ((interfaces, windex) :: next :: rest) st r
| last_attempt_fails interfaces windex st msg st' :
    usb_backend.X56UsbBackend._send_rgb_with_setup device interfaces windex rgb_packet apply_packet st
      = (Raise (BackendError msg), st') ->
    attempts_outcome device rgb_packet apply_packet [(interfaces, windex)] st
      (Raise (BackendError msg), st').

(** The packet of [build_apply_packet]. *)
Definition apply_packet_bytes : list Z :=
  match protocol.build_apply_packet with Ok packet => packet | Raise _ => [] end.

(** What happens to each target device in turn: the outcome of
    [send_to_entry] on it, from the state the devices before it left. *)
Fixpoint device_outcomes `{Host} (targets : list usb_backend._DeviceEntry) (red green blue : Z)
    (calibration_map : list (Z * calibration.ColorCalibration.t))
    (calibration_target : option string) (apply_packet : list Z)
    (st : usb_backend.X56UsbBackend.t * env)
    : list (res unit) * (usb_backend.X56UsbBackend.t * env) :=
  match targets with
  | [] => ([], st)
  | entry :: rest =>
      let r := usb_backend.X56UsbBackend.send_to_entry entry red green blue calibration_map
                 calibration_target apply_packet st in
      let rs := device_outcomes rest red green blue calibration_map calibration_target
                  apply_packet (snd r) in
      (fst r :: fst rs, snd rs)
  end.

Definition succeeded (outcome : res unit) : bool :=
  match outcome with Ok _ => true | Raise _ => false end.

(** The failure line of a device whose transfer raised [BackendError]. *)
Definition failure_line `{Host} (entry_outcome : usb_backend._DeviceEntry * res unit)
    : option string :=
  match snd entry_outcome with
  | Raise (BackendError detail) =>
      Some (usb_backend.X56UsbBackend.failure_text (fst entry_outcome) detail)
  | _ => None
  end.

(** A calibration as the data model has it: the order is a permutation of
    the three channels and the offsets are a dictionary keyed by palette
    names. *)
Definition valid_calibration (c : calibration.ColorCalibration.t) : Prop :=
  (let '(o0, o1, o2) := calibration.ColorCalibration.order c in [o0; o1; o2] ≡ₚ calibration.CHANNELS) /\
  exists offsets,
    calibration.ColorCalibration.target_offsets c = Some offsets /\
    NoDup (dict_keys offsets) /\
    Forall (fun kv => fst kv ∈ dict_keys calibration.CALIBRATION_COLORS) offsets.

(** The invariant of a default profile. *)
Definition profile_in_bounds (p : profile_store.DeviceDefaultProfile.t) : Prop :=
  in_byte_range (profile_store.DeviceDefaultProfile.red p) /\
  in_byte_range (profile_store.DeviceDefaultProfile.green p) /\
  in_byte_range (profile_store.DeviceDefaultProfile.blue p) /\
  1 <= profile_store.DeviceDefaultProfile.effect_speed p <= 20 /\
  5 <= profile_store.DeviceDefaultProfile.effect_brightness p <= 100 /\
  profile_store.DeviceDefaultProfile.effect_mode p ∈ effects.EFFECT_MODES.

(** A device that [refresh] keeps. *)
Definition supported (dev : usb_device) : bool :=
  dict_mem (idProduct dev) protocol.SUPPORTED_PRODUCTS.

(** The interface an event releases, detaches the driver of, or attaches
    the driver of. *)
Definition released_interface (ev : event) : option Z :=
  match ev with
  | EvUsb _ (ReleaseInterface iface) => Some iface
  | _ => None
  end.

Definition detached_interface (ev : event) : option Z :=
  match ev with
  | EvUsb _ (DetachKernelDriver iface) => Some iface
  | _ => None
  end.

Definition attached_interface (ev : event) : option Z :=
  match ev with
  | EvUsb _ (AttachKernelDriver iface) => Some iface
  | _ => None
  end.

(** What the [try] block of [_send_rgb_with_setup] does to the trace and
    to [attached_ifaces]: nothing is released or attached, and an
    interface is recorded only after its detach call. *)
Definition setup_events (before : list Z) (evs : list event) (after : list Z) : Prop :=
  omap released_interface evs = [] /\
  omap attached_interface evs = [] /\
  after ⊆ (before ++ omap detached_interface evs)%list.

(** [m] appends events to the trace, relates them and the local list
    before and after by [P], and leaves the object alone. *)
Definition tracks `{Host} {O A} (P : list Z -> list event -> list Z -> Prop)
    (m : M ((O * list Z) * env) A) : Prop :=
  forall st, exists evs,
    trace (snd (snd (m st))) = (trace (snd st) ++ evs)%list /\
    P (snd (fst st)) evs (snd (fst (snd (m st)))) /\
    fst (fst (snd (m st))) = fst (fst st).

(** The session after a successful dispatch. *)
Definition advanced_session (session : main_window.EffectSession) : main_window.EffectSession :=
  main_window.set_phase session
    (effects.next_phase (main_window.phase session) (main_window.speed session)).

(** What a tick may do to the entry of one key. *)
Definition session_after_tick (before after : option main_window.EffectSession) : Prop :=
  match before with
  | None => after = None
  | Some session =>
      if String.eqb (main_window.mode session) effects.EFFECT_OFF
      then after = None \/ after = Some session
      else after = Some session \/ after = Some (advanced_session session)
  end.

(** A session as [_auto_apply_default_profiles] makes them: keyed by its
    product, without an id list, in a mode that runs. *)
Definition default_session (entry : string * main_window.EffectSession) : Prop :=
  exists pid,
    fst entry = main_window.MainWindow.profile_session_key pid /\
    main_window.key (snd entry) = fst entry /\
    main_window.product_id (snd entry) = Some pid /\
    main_window.target_ids (snd entry) = [] /\
    main_window.mode (snd entry) ∈ effects.EFFECT_MODES /\
    main_window.mode (snd entry) <> effects.EFFECT_OFF.

(** The device an event is an operation on. *)
Definition event_device (ev : event) : option usb_device :=
  match ev with
  | EvUsb dev _ | EvKernelActive dev _ => Some dev
  | EvFind | EvWrite _ _ => None
  end.

(** [m] appends to the trace a list of events that satisfies [P]. *)
Definition emits `{Host} {X A} (P : list event -> Prop) (m : M (X * env) A) : Prop :=
  forall st, exists evs,
    trace (snd (snd (m st))) = (trace (snd st) ++ evs)%list /\ P evs.

(** Events of one device only; and at least one of them. *)
Definition only_of (dev : usb_device) (evs : list event) : Prop :=
  Forall (fun ev => event_device ev = Some dev) evs.

Definition some_of (dev : usb_device) (evs : list event) : Prop :=
  evs <> [] /\ only_of dev evs.



Section TickSpec.
Import effects calibration usb_backend main_window.
Context `{Host}.




End TickSpec.

(* ===================================================================== *)
(** * Part II: properties                                                  *)
(* ===================================================================== *)

Import protocol effects calibration profile_store usb_backend main_window.

(** ** Floats: comparing square roots of small integers *)

Lemma float_code_finite m e c :
  float_code (S754_finite false m e) = Some c ->
  c = (e + 2000) * 2 ^ 53 + Zpos m /\ Zpos m < 2 ^ 53 /\ -2000 < e.
Proof.
  unfold float_code. destruct (_ && _) eqn:E; [|discriminate].
  apply andb_prop in E as [Em Ee]. apply Z.ltb_lt in Em, Ee.
  intros Hc. inversion Hc. auto.
Qed.

Lemma float_code_flt x y cx cy :
  float_code x = Some cx -> float_code y = Some cy -> flt x y = (cx <? cy).
Proof.
  destruct x as [[|]|[|]| |[|] mx ex]; try discriminate;
  destruct y as [[|]|[|]| |[|] my ey]; try discriminate.
  - intros Hx Hy. inversion Hx. inversion Hy. reflexivity.
  - intros Hx Hy. inversion Hx. apply float_code_finite in Hy as (-> & Hm & He).
    symmetry. apply Z.ltb_lt. lia.
  - intros Hx Hy. inversion Hy. apply float_code_finite in Hx as (-> & Hm & He).
    symmetry. apply Z.ltb_ge. lia.
  - intros Hx Hy.
    apply float_code_finite in Hx as (-> & Hm1 & He1).
    apply float_code_finite in Hy as (-> & Hm2 & He2).
    unfold flt, SFltb, SFcompare.
    rewrite Pos.compare_cont_spec. simpl Pos.switch_Eq.
    destruct (Z.compare_spec ex ey) as [->|Hlt|Hgt].
    + destruct (Pos.compare_spec mx my) as [->|Hm|Hm]; symmetry.
      * apply Z.ltb_irrefl.
      * apply Z.ltb_lt. lia.
      * apply Z.ltb_ge. lia.
    + symmetry. apply Z.ltb_lt. nia.
    + symmetry. apply Z.ltb_ge. nia.
Qed.

Lemma float_code_lt_inf x c : float_code x = Some c -> flt x f_inf = true.
Proof.
  unfold float_code. destruct x as [[|]|[|]| |[|] mx ex]; try discriminate; reflexivity.
Qed.

(** The square roots of the integers up to [max_sqdist] are coded and their
    codes increase strictly; checked by evaluation. *)
Lemma sqrt_table :
  sqrt_code 0 = Some 0 /\ sqrt_table_ok (Z.to_nat max_sqdist) 0 0 = true.
Proof. vm_cast_no_check (conj (eq_refl (Some 0)) (eq_refl true)). Qed.

Lemma sqrt_table_ok_spec n : forall k prev,
  sqrt_table_ok n k prev = true -> sqrt_code k = Some prev ->
  forall j, k <= j <= k + Z.of_nat n ->
    sqrt_code j = Some (sqrt_rank j) /\
    (j < k + Z.of_nat n -> sqrt_rank j < sqrt_rank (j + 1)).
Proof.
  induction n as [|n IH]; intros k prev Hok Hk j Hj.
  - assert (j = k) as -> by lia. split; [|lia].
    unfold sqrt_rank. rewrite Hk. reflexivity.
  - simpl in Hok. destruct (sqrt_code (k + 1)) as [c|] eqn:Hc; [|discriminate].
    apply andb_prop in Hok as [Hlt Hok]. apply Z.ltb_lt in Hlt.
    destruct (Z.eq_dec j k) as [->|Hne].
    + split.
      * unfold sqrt_rank. rewrite Hk. reflexivity.
      * intros _. unfold sqrt_rank. rewrite Hk, Hc. exact Hlt.
    + destruct (IH (k + 1) c Hok Hc j ltac:(lia)) as [H1 H2].
      split; [exact H1|]. intros Hj'. apply H2. lia.
Qed.

Lemma sqrt_code_some j :
  0 <= j <= max_sqdist -> sqrt_code j = Some (sqrt_rank j).
Proof.
  intros Hj. destruct sqrt_table as [H0 Hok].
  apply (sqrt_table_ok_spec _ 0 0 Hok H0 j).
  rewrite Z2Nat.id by (unfold max_sqdist; lia). lia.
Qed.

Lemma sqrt_rank_succ j :
  0 <= j < max_sqdist -> sqrt_rank j < sqrt_rank (j + 1).
Proof.
  intros Hj. destruct sqrt_table as [H0 Hok].
  apply (sqrt_table_ok_spec _ 0 0 Hok H0 j);
    rewrite Z2Nat.id by (unfold max_sqdist; lia); lia.
Qed.

Lemma sqrt_rank_mono a b :
  0 <= a -> a < b -> b <= max_sqdist -> sqrt_rank a < sqrt_rank b.
Proof.
  intros Ha Hab Hb.
  assert (forall n : nat, a + 1 + Z.of_nat n <= max_sqdist ->
            sqrt_rank a < sqrt_rank (a + 1 + Z.of_nat n)) as Hn.
  { induction n as [|n IH]; intros Hle.
    - rewrite Z.add_0_r. apply sqrt_rank_succ. lia.
    - assert (sqrt_rank a < sqrt_rank (a + 1 + Z.of_nat n)) by (apply IH; lia).
      assert (sqrt_rank (a + 1 + Z.of_nat n) < sqrt_rank (a + 1 + Z.of_nat n + 1))
        by (apply sqrt_rank_succ; lia).
      replace (a + 1 + Z.of_nat (S n)) with (a + 1 + Z.of_nat n + 1) by lia. lia. }
  specialize (Hn (Z.to_nat (b - a - 1))).
  rewrite Z2Nat.id in Hn by lia.
  replace (a + 1 + (b - a - 1)) with b in Hn by lia. apply Hn. lia.
Qed.

(** On small integers, comparing square roots is comparing the integers. *)
Lemma math_sqrt_small z :
  0 <= z <= max_sqdist ->
  exists f, math_sqrt z = Ok f /\ float_code f = Some (sqrt_rank z).
Proof.
  intros Hz. pose proof (sqrt_code_some z Hz) as H.
  unfold sqrt_code in H. destruct (math_sqrt z) as [f|e]; [|discriminate].
  eauto.
Qed.

Lemma math_sqrt_flt a b fa fb :
  0 <= a <= max_sqdist -> 0 <= b <= max_sqdist ->
  math_sqrt a = Ok fa -> math_sqrt b = Ok fb ->
  flt fa fb = (a <? b).
Proof.
  intros Ha Hb Hfa Hfb.
  destruct (math_sqrt_small a Ha) as (fa' & Hfa' & Hca).
  destruct (math_sqrt_small b Hb) as (fb' & Hfb' & Hcb).
  rewrite Hfa in Hfa'. rewrite Hfb in Hfb'. inversion Hfa'. inversion Hfb'. subst fa' fb'.
  rewrite (float_code_flt _ _ _ _ Hca Hcb).
  destruct (Z.ltb_spec a b) as [Hlt|Hge].
  - apply Z.ltb_lt. apply sqrt_rank_mono; lia.
  - apply Z.ltb_ge. destruct (Z.eq_dec a b) as [->|Hne]; [lia|].
    assert (sqrt_rank b < sqrt_rank a) by (apply sqrt_rank_mono; lia). lia.
Qed.

(** ** calibration.py: the nearest palette colour *)

Lemma square_bound x : -255 <= x <= 255 -> 0 <= x * x <= 255 * 255.
Proof.
  intros Hx. split; [apply Z.square_nonneg|].
  assert (0 <= (x + 255) * (255 - x)) as H by (apply Z.mul_nonneg_nonneg; lia).
  replace ((x + 255) * (255 - x)) with (255 * 255 - x * x) in H by ring. lia.
Qed.

Lemma sqdist_bound r g b c :
  in_byte_range r -> in_byte_range g -> in_byte_range b -> rgb_in_range c ->
  0 <= sqdist r g b c <= max_sqdist.
Proof.
  unfold rgb_in_range, in_byte_range, sqdist, max_sqdist.
  destruct c as [[r0 g0] b0]. cbn [fst snd]. intros Hr Hg Hb (Hr0 & Hg0 & Hb0).
  rewrite !Z.pow_2_r.
  pose proof (square_bound (r - r0) ltac:(lia)).
  pose proof (square_bound (g - g0) ltac:(lia)).
  pose proof (square_bound (b - b0) ltac:(lia)).
  lia.
Qed.

Lemma palette_in_range :
  Forall (fun item => rgb_in_range (snd item)) CALIBRATION_COLORS.
Proof.
  unfold CALIBRATION_COLORS, rgb_in_range, in_byte_range.
  repeat constructor; simpl; lia.
Qed.

(** The loop on floating-point distances takes the branches of the loop
    on exact squared distances. *)
Lemma closest_loop_exact items : forall r g b best_name best_distance best,
  in_byte_range r -> in_byte_range g -> in_byte_range b ->
  Forall (fun item => rgb_in_range (snd item)) items ->
  match best with
  | None => best_distance = f_inf
  | Some d => 0 <= d <= max_sqdist /\ math_sqrt d = Ok best_distance
  end ->
  ColorCalibration.closest_loop items r g b best_name best_distance
  = Ok (nearest_loop items r g b best_name best).
Proof.
  induction items as [|[name [[r0 g0] b0]] rest IH];
    intros r g b best_name best_distance best Hr Hg Hb Hitems Hbest.
  - reflexivity.
  - inversion Hitems as [|? ? Hc Hrest]; subst.
    pose proof (sqdist_bound r g b (r0, g0, b0) Hr Hg Hb Hc) as Hd.
    destruct (math_sqrt_small _ Hd) as (f & Hf & Hcode).
    cbn [ColorCalibration.closest_loop nearest_loop].
    change ((r - r0) ^ 2 + (g - g0) ^ 2 + (b - b0) ^ 2) with (sqdist r g b (r0, g0, b0)).
    rewrite Hf. cbn [rbind].
    destruct best as [d0|].
    + destruct Hbest as [Hd0 Hf0].
      rewrite (math_sqrt_flt _ _ _ _ Hd Hd0 Hf Hf0).
      destruct (sqdist r g b (r0, g0, b0) <? d0).
      * apply IH; auto.
      * apply IH; auto.
    + subst best_distance. rewrite (float_code_lt_inf _ _ Hcode).
      apply IH; auto.
Qed.

(** The loop on exact distances returns the first entry at minimal distance. *)
Lemma nearest_loop_first_min items : forall r g b best_name best,
  (nearest_loop items r g b best_name best = best_name /\
   match best with
   | Some d => Forall (fun item => d <= sqdist r g b (snd item)) items
   | None => items = []
   end)
  \/
  (exists pre c post,
     items = (pre ++ (nearest_loop items r g b best_name best, c) :: post)%list /\
     Forall (fun item => sqdist r g b c < sqdist r g b (snd item)) pre /\
     Forall (fun item => sqdist r g b c <= sqdist r g b (snd item)) post /\
     match best with Some d => sqdist r g b c < d | None => True end).
Proof.
  induction items as [|[n c0] rest IH]; intros r g b best_name best.
  - left. split; [reflexivity|]. destruct best; auto.
  - cbn [nearest_loop].
    destruct (match best with Some d0 => sqdist r g b c0 <? d0 | None => true end) eqn:Htake.
    + right.
      destruct (IH r g b n (Some (sqdist r g b c0)))
        as [[Hn Hall]|(pre & c & post & Hsplit & Hpre & Hpost & Hlt)].
      * exists [], c0, rest. rewrite Hn. repeat split; auto.
        destruct best as [d0|]; [apply Z.ltb_lt in Htake; lia|exact I].
      * exists ((n, c0) :: pre), c, post. rewrite Hsplit at 1. repeat split; auto.
        destruct best as [d0|]; [apply Z.ltb_lt in Htake; lia|exact I].
    + destruct best as [d0|]; [|discriminate]. apply Z.ltb_ge in Htake.
      destruct (IH r g b best_name (Some d0))
        as [[Hn Hall]|(pre & c & post & Hsplit & Hpre & Hpost & Hlt)].
      * left. split; [exact Hn|]. constructor; auto.
      * right. exists ((n, c0) :: pre), c, post. rewrite Hsplit at 1. repeat split; auto.
        constructor; auto. cbn [snd]. lia.
Qed.

(** C8.  For a colour with channels in [0, 255], [closest_target_name]
    returns the name of a palette entry at minimal Euclidean distance (the
    squared distances are compared here, which orders them the same way);
    every entry before it in the palette is strictly farther, so the first
    minimal entry wins; and an exact palette colour gets its own name. *)
Theorem closest_target_name_first_nearest r g b :
  in_byte_range r -> in_byte_range g -> in_byte_range b ->
  (exists name pre c post,
     ColorCalibration.closest_target_name r g b = Ok name /\
     CALIBRATION_COLORS = (pre ++ (name, c) :: post)%list /\
     Forall (fun item => sqdist r g b c < sqdist r g b (snd item)) pre /\
     Forall (fun item => sqdist r g b c <= sqdist r g b (snd item)) post) /\
  (forall name c, In (name, c) CALIBRATION_COLORS ->
     ColorCalibration.closest_target_name (fst (fst c)) (snd (fst c)) (snd c) = Ok name).
Proof.
  intros Hr Hg Hb. split.
  - unfold ColorCalibration.closest_target_name.
    rewrite (closest_loop_exact CALIBRATION_COLORS r g b "White" f_inf None Hr Hg Hb
               palette_in_range eq_refl).
    destruct (nearest_loop_first_min CALIBRATION_COLORS r g b "White" None)
      as [[_ Hnil]|(pre & c & post & Hsplit & Hpre & Hpost & _)].
    + discriminate Hnil.
    + eauto 10.
  - intros name c Hin. simpl in Hin.
    repeat (destruct Hin as [Hin|Hin]; [inversion Hin; subst; vm_compute; reflexivity|]).
    destruct Hin.
Qed.

(** ** calibration.py: applying a calibration *)

Lemma closest_target_name_total r g b :
  in_byte_range r -> in_byte_range g -> in_byte_range b ->
  exists name, ColorCalibration.closest_target_name r g b = Ok name.
Proof.
  intros Hr Hg Hb. unfold ColorCalibration.closest_target_name.
  rewrite (closest_loop_exact CALIBRATION_COLORS r g b "White" f_inf None Hr Hg Hb
             palette_in_range eq_refl).
  eauto.
Qed.

Lemma clamp_in_byte_range x : in_byte_range (py_max 0 (py_min 255 x)).
Proof.
  unfold in_byte_range, py_max, py_min.
  destruct (x <? 255) eqn:E1.
  - destruct (0 <? x) eqn:E2.
    + apply Z.ltb_lt in E1, E2. lia.
    + lia.
  - simpl. lia.
Qed.

(** With channels in [0, 255], [apply] returns the input or the clamped
    sum of the input and an offset. *)
Lemma apply_returns (c : ColorCalibration.t) r g b (target_name : option string) :
  in_byte_range r -> in_byte_range g -> in_byte_range b ->
  exists out,
    ColorCalibration.apply c r g b target_name = Ok out /\
    (out = (r, g, b) \/
     exists offset,
       out = (py_max 0 (py_min 255 (r + ColorOffset.red offset)),
              py_max 0 (py_min 255 (g + ColorOffset.green offset)),
              py_max 0 (py_min 255 (b + ColorOffset.blue offset)))).
Proof.
  intros Hr Hg Hb. unfold ColorCalibration.apply.
  destruct (ColorCalibration.offsets_or_empty c) as [|kv offsets] eqn:Hoff.
  - exists (r, g, b). split; [reflexivity|]. left. reflexivity.
  - assert (exists selected,
              match target_name with
              | Some (String ch rest) => Ok (String ch rest)
              | _ => ColorCalibration.closest_target_name r g b
              end = Ok selected) as [selected Hsel].
    { destruct target_name as [[|ch rest]|]; eauto using closest_target_name_total. }
    rewrite Hsel. cbn [rbind].
    destruct (dict_get selected (kv :: offsets)) as [offset|].
    + eexists. split; [reflexivity|]. right. exists offset. reflexivity.
    + exists (r, g, b). split; [reflexivity|]. left. reflexivity.
Qed.

(** C3, as amended.  For channels in [0, 255], every calibration and every
    optional target name, [apply] returns a triple with every component in
    [0, 255]. *)
Theorem apply_in_range_on_bytes (c : ColorCalibration.t) r g b (target_name : option string) :
  in_byte_range r -> in_byte_range g -> in_byte_range b ->
  exists out, ColorCalibration.apply c r g b target_name = Ok out /\ rgb_in_range out.
Proof.
  intros Hr Hg Hb.
  destruct (apply_returns c r g b target_name Hr Hg Hb) as (out & Hout & Hcases).
  exists out. split; [exact Hout|].
  destruct Hcases as [->|[offset ->]]; unfold rgb_in_range; cbn [fst snd].
  - auto.
  - auto using clamp_in_byte_range.
Qed.

(** C3, as stated, fails: without offsets the input comes back unchanged. *)
Lemma apply_out_of_range_unchanged :
  ~ (forall (c : ColorCalibration.t) (r g b : Z) (target_name : option string),
       exists out, ColorCalibration.apply c r g b target_name = Ok out /\ rgb_in_range out).
Proof.
  intros H. destruct (H ColorCalibration.default 300 0 0 None) as (out & Hout & Hrange).
  vm_compute in Hout. inversion Hout. subst out.
  destruct Hrange as [Hr _]. unfold in_byte_range in Hr. simpl in Hr. lia.
Qed.

(** ** The monad *)

Lemma bind_ok {S A B} (m : M S A) (k : A -> M S B) s a s' :
  m s = (Ok a, s') -> bind m k s = k a s'.
Proof. intros H. unfold bind. rewrite H. reflexivity. Qed.

Lemma bind_raise {S A B} (m : M S A) (k : A -> M S B) s e s' :
  m s = (Raise e, s') -> bind m k s = (Raise e, s').
Proof. intros H. unfold bind. rewrite H. reflexivity. Qed.

Lemma raises_only_weaken {S A} (P Q : exn -> Prop) (m : M S A) :
  (forall e, P e -> Q e) -> raises_only P m -> raises_only Q m.
Proof.
  intros HPQ Hm s. specialize (Hm s). destruct (fst (m s)); auto.
Qed.

Lemma raises_only_ret {S A} (P : exn -> Prop) (a : A) : raises_only P (ret a : M S A).
Proof. intros s. exact I. Qed.

Lemma raises_only_raise {S A} (P : exn -> Prop) e : P e -> raises_only P (raise e : M S A).
Proof. intros He s. exact He. Qed.

Lemma raises_only_bind {S A B} (P : exn -> Prop) (m : M S A) (k : A -> M S B) :
  raises_only P m -> (forall a, raises_only P (k a)) -> raises_only P (bind m k).
Proof.
  intros Hm Hk s. unfold bind. specialize (Hm s).
  destruct (m s) as [[a|e] s']; simpl in *.
  - apply Hk.
  - exact Hm.
Qed.

Lemma raises_only_for_each {S A} (P : exn -> Prop) (l : list A) (body : A -> M S unit) :
  (forall x, raises_only P (body x)) -> raises_only P (for_each l body).
Proof.
  intros Hbody. induction l as [|x l IH]; simpl.
  - apply raises_only_ret.
  - apply raises_only_bind; auto.
Qed.

Lemma raises_only_try_except {S A} (P Q : exn -> Prop) (body : M S A)
    (handler : exn -> option (M S A)) :
  raises_only P body ->
  (forall e, P e ->
     match handler e with
     | Some h => raises_only Q h
     | None => Q e
     end) ->
  raises_only Q (try_except body handler).
Proof.
  intros Hbody Hh s. unfold try_except. specialize (Hbody s).
  destruct (body s) as [[a|e] s']; simpl in *; [exact I|].
  specialize (Hh e Hbody). destruct (handler e) as [h|]; [apply Hh|exact Hh].
Qed.

Lemma raises_only_try_finally {S A} (P : exn -> Prop) (body : M S A) (fin : M S unit) :
  raises_only P body -> raises_only P fin -> raises_only P (try_finally body fin).
Proof.
  intros Hbody Hfin s. unfold try_finally. specialize (Hbody s).
  destruct (body s) as [r s']. specialize (Hfin s').
  destruct (fin s') as [[[]|e] s'']; simpl in *; assumption.
Qed.

Lemma try_finally_quiet {S A} (body : M S A) (fin : M S unit) s r s' :
  raises_only no_exception fin -> body s = (r, s') ->
  exists s'', fin s' = (Ok tt, s'') /\ try_finally body fin s = (r, s'').
Proof.
  intros Hfin Hbody. unfold try_finally. rewrite Hbody. specialize (Hfin s').
  destruct (fin s') as [[[]|e] s'']; simpl in Hfin; [eauto|destruct Hfin].
Qed.

Section Usb.
Context `{Host}.

Lemma raises_only_with_local {O L A} (P : exn -> Prop) (init : L)
    (m : M ((O * L) * env) A) :
  raises_only P m -> raises_only P (with_local init m).
Proof.
  intros Hm s. unfold with_local. specialize (Hm ((fst s, init), snd s)).
  destruct (m _) as [r s']. exact Hm.
Qed.

Lemma raises_only_on_member {O Q A} (P : exn -> Prop) (proj : O -> Q) (upd : Q -> O -> O)
    (m : M (Q * env) A) :
  raises_only P m -> raises_only P (on_member proj upd m).
Proof.
  intros Hm s. unfold on_member. specialize (Hm (proj (fst s), snd s)).
  destruct (m _) as [r s']. exact Hm.
Qed.

Lemma host_usb_raises {O} dev op : raises_only is_USBError (@host_usb _ O dev op).
Proof.
  intros s. unfold host_usb. destruct (fst (usb_call dev op (world (snd s)))); simpl.
  - eexists. reflexivity.
  - exact I.
Qed.

Lemma get_local_quiet {O L} : raises_only no_exception (@get_local O L _).
Proof. intros s. exact I. Qed.

Lemma set_local_quiet {O L} l : raises_only no_exception (@set_local O L _ l).
Proof. intros s. exact I. Qed.

Lemma kernel_active_quiet {O} dev iface (P : exn -> Prop) :
  raises_only P (@X56UsbBackend._kernel_active _ O dev iface).
Proof.
  intros s. unfold X56UsbBackend._kernel_active, bind, host_kernel_active. simpl.
  destruct (fst (usb_kernel_active dev iface (world (snd s)))); exact I.
Qed.

Lemma ignore_usb_error_quiet {O} (op : M (O * env) unit) (P : exn -> Prop) :
  raises_only is_USBError op -> raises_only P (X56UsbBackend.ignore_usb_error op).
Proof.
  intros Hop. unfold X56UsbBackend.ignore_usb_error.
  apply (raises_only_try_except is_USBError); [exact Hop|].
  intros e [err ->]. apply raises_only_ret.
Qed.

Lemma release_interfaces_quiet {O} dev interfaces (P : exn -> Prop) :
  raises_only P (@X56UsbBackend.release_interfaces _ O dev interfaces).
Proof.
  unfold X56UsbBackend.release_interfaces. apply raises_only_for_each. intros iface.
  apply raises_only_bind; [apply ignore_usb_error_quiet, host_usb_raises|]. intros _.
  apply raises_only_bind; [intros s; exact I|]. intros attached.
  destruct (bool_decide _).
  - apply ignore_usb_error_quiet, host_usb_raises.
  - apply raises_only_ret.
Qed.

Lemma claim_interfaces_raises {O} dev interfaces :
  raises_only is_USBError (@X56UsbBackend.claim_interfaces _ O dev interfaces).
Proof.
  unfold X56UsbBackend.claim_interfaces.
  apply raises_only_bind; [apply ignore_usb_error_quiet, host_usb_raises|]. intros _.
  apply raises_only_for_each. intros iface.
  apply raises_only_bind; [apply kernel_active_quiet|]. intros active.
  apply raises_only_bind; [|intros _; apply host_usb_raises].
  destruct active; [|apply raises_only_ret].
  apply raises_only_bind; [apply host_usb_raises|]. intros _.
  apply raises_only_bind; [intros s; exact I|]. intros l s. exact I.
Qed.

Lemma send_packets_raises {O} dev windex rgb ap :
  raises_only is_USBError (@X56UsbBackend.send_packets _ O dev windex rgb ap).
Proof.
  unfold X56UsbBackend.send_packets.
  apply raises_only_bind; [apply host_usb_raises|]. intros _.
  apply (raises_only_try_except is_USBError); [apply host_usb_raises|].
  intros e [err ->]. destruct (X56UsbBackend._is_pipe_error err).
  - apply raises_only_ret.
  - eexists. reflexivity.
Qed.

(** An attempt either succeeds or raises [BackendError]. *)
Lemma send_rgb_with_setup_raises dev interfaces windex rgb ap :
  raises_only is_BackendError
    (X56UsbBackend._send_rgb_with_setup dev interfaces windex rgb ap).
Proof.
  unfold X56UsbBackend._send_rgb_with_setup.
  apply raises_only_with_local, raises_only_try_finally;
    [|apply release_interfaces_quiet].
  apply (raises_only_try_except is_USBError).
  - apply raises_only_bind; [apply claim_interfaces_raises|].
    intros _. apply send_packets_raises.
  - intros e [err ->]. apply raises_only_raise. eexists. reflexivity.
Qed.

(** ** usb_backend.py: the retry table of [_set_rgb_single] *)

Lemma set_rgb_single_loop_outcome dev rgb ap todo :
  todo <> [] ->
  forall last st,
    attempts_outcome dev rgb ap todo st
      (X56UsbBackend._set_rgb_single_loop dev rgb ap todo last st).
Proof.
  induction todo as [|[interfaces windex] rest IH]; [congruence|].
  intros _ last st. cbn [X56UsbBackend._set_rgb_single_loop]. unfold try_except.
  pose proof (send_rgb_with_setup_raises dev interfaces windex rgb ap st) as Hraise.
  destruct (X56UsbBackend._send_rgb_with_setup dev interfaces windex rgb ap st)
    as [[[]|e] st'] eqn:Hsend; simpl in Hraise.
  - apply attempt_succeeds. exact Hsend.
  - destruct Hraise as [msg ->].
    destruct rest as [|next rest].
    + cbn [X56UsbBackend._set_rgb_single_loop]. unfold raise.
      apply last_attempt_fails. exact Hsend.
    + eapply attempt_fails_next; [exact Hsend|]. apply IH. congruence.
Qed.

(** C1, as amended.  The four combinations are ([2,0], 2<<8), ([2,0], 2),
    ([2], 2<<8), ([2], 2), with 2<<8 = 0x0200; they are tried in this
    order, each one fully; the first success returns; when all four fail,
    the error of the fourth is raised. *)
Theorem set_rgb_single_tries_attempts_in_order dev rgb ap st :
  X56UsbBackend.attempts = [([2; 0], 0x0200); ([2; 0], 2); ([2], 0x0200); ([2], 2)] /\
  attempts_outcome dev rgb ap X56UsbBackend.attempts st
    (X56UsbBackend._set_rgb_single dev rgb ap st).
Proof.
  split; [reflexivity|].
  unfold X56UsbBackend._set_rgb_single. apply set_rgb_single_loop_outcome. discriminate.
Qed.

(** ** usb_backend.py: one attempt *)

Lemma is_pipe_error_spec err :
  X56UsbBackend._is_pipe_error err = true <->
  usb_errno err = Some 32 \/ str_contains "pipe error" (lower (usb_str err)) = true.
Proof.
  unfold X56UsbBackend._is_pipe_error.
  destruct (usb_errno err) as [n|]; [|split; [auto|intros [?|?]; [discriminate|auto]]].
  destruct (Z.eq_dec n 32) as [->|Hn].
  - split; auto.
  - assert (match n with 32 => true | _ => str_contains "pipe error" (lower (usb_str err)) end
            = str_contains "pipe error" (lower (usb_str err))) as ->.
    { destruct n as [|p|p]; try reflexivity.
      do 6 (destruct p as [p|p|]; try reflexivity). congruence. }
    split; [auto|]. intros [Heq|?]; [congruence|auto].
Qed.

Lemma starts_with_append (p s : string) : starts_with p (p ++ s) = true.
Proof.
  induction p as [|c p IH]; simpl; [reflexivity|]. rewrite Ascii.eqb_refl. exact IH.
Qed.

Lemma str_contains_infix (a p b : string) : str_contains p (a ++ p ++ b) = true.
Proof.
  induction a as [|c a IH]; simpl.
  - pose proof (starts_with_append p b) as Hstart.
    destruct (p ++ b)%string; simpl; rewrite Hstart; reflexivity.
  - rewrite IH. apply orb_true_r.
Qed.

(** C5.  Once the interfaces are claimed: an error of the colour transfer,
    a pipe error included, fails the attempt with a [BackendError] whose
    message is "USB transfer failed (<detail>)." where the detail is the
    stripped text of the transport error, so the message contains it
    ("USB transfer failed." when the text is blank); so does an error of
    the latch transfer that is not a pipe error; a pipe error of the
    latch transfer (errno 32, or "pipe error" in the text) is passed over
    and the attempt succeeds. *)
Theorem pipe_error_passes_only_on_latch dev interfaces windex rgb ap
    (st : X56UsbBackend.t * env) s1 :
  X56UsbBackend.claim_interfaces dev interfaces ((fst st, []), snd st) = (Ok tt, s1) ->
  let outcome := fst (X56UsbBackend._send_rgb_with_setup dev interfaces windex rgb ap st) in
  let message (err : usb_error) : string :=
    if String.eqb (strip (usb_str err)) "" then "USB transfer failed."
    else ("USB transfer failed (" ++ strip (usb_str err) ++ ").")%string in
  match usb_call dev (X56UsbBackend.rgb_transfer windex rgb) (world (snd s1)) with
  | (Some err, _) =>
      outcome = Raise (BackendError (message err)) /\
      str_contains (strip (usb_str err)) (message err) = true
  | (None, w2) =>
      match usb_call dev (X56UsbBackend.apply_transfer windex ap) w2 with
      | (Some err, _) =>
          (usb_errno err = Some 32 \/
           str_contains "pipe error" (lower (usb_str err)) = true ->
           outcome = Ok tt) /\
          (usb_errno err <> Some 32 ->
           str_contains "pipe error" (lower (usb_str err)) = false ->
           outcome = Raise (BackendError (message err)) /\
           str_contains (strip (usb_str err)) (message err) = true)
      | (None, _) => outcome = Ok tt
      end
  end.
Proof.
  intros Hclaim outcome message. subst outcome.
  assert (forall err, X56UsbBackend.transfer_failed_text err = message err) as Htext
    by reflexivity.
  assert (forall err, str_contains (strip (usb_str err)) (message err) = true) as Hwraps.
  { intros err. unfold message.
    destruct (String.eqb (strip (usb_str err)) "") eqn:Hempty.
    - apply String.eqb_eq in Hempty. rewrite Hempty. reflexivity.
    - apply (str_contains_infix "USB transfer failed (" (strip (usb_str err)) ")."). }
  unfold X56UsbBackend._send_rgb_with_setup, with_local.
  set (body := try_except _ _).
  assert (forall r s',
            body ((fst st, []), snd st) = (r, s') ->
            fst (let (r0, st') := try_finally body
                    (X56UsbBackend.release_interfaces dev interfaces)
                    ((fst st, []), snd st) in (r0, (fst (fst st'), snd st'))) = r) as Hfin.
  { intros r s' Hbody.
    destruct (try_finally_quiet body _ _ r s'
                (release_interfaces_quiet dev interfaces no_exception) Hbody)
      as (s'' & _ & ->). reflexivity. }
  subst body. unfold try_except at 1 in Hfin.
  rewrite (bind_ok _ _ _ _ _ Hclaim) in Hfin.
  unfold X56UsbBackend.send_packets, bind, host_usb, try_except in Hfin. simpl in Hfin.
  destruct (usb_call dev (X56UsbBackend.rgb_transfer windex rgb) (world (snd s1)))
    as [[err|] w2]; simpl in Hfin.
  - split; [|apply Hwraps]. rewrite <- Htext. eapply Hfin. reflexivity.
  - destruct (usb_call dev (X56UsbBackend.apply_transfer windex ap) w2)
      as [[err|] w3]; simpl in Hfin.
    + split.
      * intros Hpipe. apply is_pipe_error_spec in Hpipe. rewrite Hpipe in Hfin.
        eapply Hfin. reflexivity.
      * intros Hno Hstr. split; [|apply Hwraps]. rewrite <- Htext.
        destruct (X56UsbBackend._is_pipe_error err) eqn:Hp.
        { apply is_pipe_error_spec in Hp as [?|?]; congruence. }
        eapply Hfin. reflexivity.
    + eapply Hfin. reflexivity.
Qed.

Lemma bind_ext {S A B} (m : M S A) (k1 k2 : A -> M S B) s :
  (forall a s', k1 a s' = k2 a s') -> bind m k1 s = bind m k2 s.
Proof. intros Hk. unfold bind. destruct (m s) as [[a|e] s']; auto. Qed.

(** ** usb_backend.py: the batch dispatch *)

Lemma validate_rgb_ok r g b :
  in_byte_range r -> in_byte_range g -> in_byte_range b ->
  X56UsbBackend._validate_rgb r g b = Ok tt.
Proof.
  unfold in_byte_range, X56UsbBackend._validate_rgb. intros Hr Hg Hb. simpl.
  destruct (Z.ltb_spec r 0); [lia|]. destruct (Z.gtb_spec r 255); [lia|].
  destruct (Z.ltb_spec g 0); [lia|]. destruct (Z.gtb_spec g 255); [lia|].
  destruct (Z.ltb_spec b 0); [lia|]. destruct (Z.gtb_spec b 255); [lia|].
  reflexivity.
Qed.

Lemma validate_rgb_fails r g b :
  ~ (in_byte_range r /\ in_byte_range g /\ in_byte_range b) ->
  X56UsbBackend._validate_rgb r g b
  = Raise (BackendError "RGB values must be in range 0-255.").
Proof.
  unfold in_byte_range, X56UsbBackend._validate_rgb. intros Hbad. simpl.
  destruct (Z.ltb_spec r 0); [reflexivity|]. destruct (Z.gtb_spec r 255); [reflexivity|].
  destruct (Z.ltb_spec g 0); [reflexivity|]. destruct (Z.gtb_spec g 255); [reflexivity|].
  destruct (Z.ltb_spec b 0); [reflexivity|]. destruct (Z.gtb_spec b 255); [reflexivity|].
  exfalso. apply Hbad. lia.
Qed.

Lemma build_rgb_packet_ok r g b :
  in_byte_range r -> in_byte_range g -> in_byte_range b ->
  build_rgb_packet r g b = Ok ([9; 0; 3; r; g; b] ++ repeat 0 58)%list.
Proof.
  unfold in_byte_range. intros Hr Hg Hb.
  unfold build_rgb_packet, bytearray_set. cbn [rbind negb andb Z.leb Z.ltb Z.compare].
  simpl.
  destruct (Z.leb_spec 0 r); [|lia]. destruct (Z.ltb_spec r 256); [|lia].
  destruct (Z.leb_spec 0 g); [|lia]. destruct (Z.ltb_spec g 256); [|lia].
  destruct (Z.leb_spec 0 b); [|lia]. destruct (Z.ltb_spec b 256); [|lia].
  reflexivity.
Qed.

Lemma set_rgb_single_loop_raises dev rgb ap todo : forall last,
  (forall e, last = Some e -> is_BackendError e) ->
  raises_only is_BackendError (X56UsbBackend._set_rgb_single_loop dev rgb ap todo last).
Proof.
  induction todo as [|[interfaces windex] rest IH]; intros last Hlast.
  - cbn [X56UsbBackend._set_rgb_single_loop]. destruct last as [e|].
    + apply raises_only_raise. auto.
    + apply raises_only_raise. eexists. reflexivity.
  - cbn [X56UsbBackend._set_rgb_single_loop].
    apply (raises_only_try_except is_BackendError).
    + apply send_rgb_with_setup_raises.
    + intros e [msg ->]. apply IH. intros e' [= <-]. eexists. reflexivity.
Qed.

Lemma set_rgb_single_raises dev rgb ap :
  raises_only is_BackendError (X56UsbBackend._set_rgb_single dev rgb ap).
Proof.
  apply set_rgb_single_loop_raises. discriminate.
Qed.

Lemma raises_only_lift_res {S A} (P : exn -> Prop) (r : res A) :
  match r with Ok _ => True | Raise e => P e end -> raises_only P (lift_res r : M S A).
Proof. intros Hr s. exact Hr. Qed.

(** With channels in [0, 255], sending to one device raises nothing but
    [BackendError]. *)
Lemma send_to_entry_raises entry r g b cmap ctarget ap :
  in_byte_range r -> in_byte_range g -> in_byte_range b ->
  raises_only is_BackendError (X56UsbBackend.send_to_entry entry r g b cmap ctarget ap).
Proof.
  intros Hr Hg Hb. unfold X56UsbBackend.send_to_entry.
  assert (exists out,
            match dict_get (DeviceInfo.id (info entry)) cmap with
            | Some calibration =>
                let? target_name :=
                  match ctarget with
                  | Some (String c rest) => Ok (String c rest)
                  | _ => ColorCalibration.closest_target_name r g b
                  end in
                ColorCalibration.apply calibration r g b (Some target_name)
            | None => Ok (r, g, b)
            end = Ok out /\ rgb_in_range out) as (out & -> & Hout).
  { destruct (dict_get _ cmap) as [calibration|].
    - assert (exists target_name,
                match ctarget with
                | Some (String c rest) => Ok (String c rest)
                | _ => ColorCalibration.closest_target_name r g b
                end = Ok target_name) as [target_name ->].
      { destruct ctarget as [[|c rest]|]; eauto using closest_target_name_total. }
      cbn [rbind].
  destruct (apply_returns calibration r g b (Some target_name) Hr Hg Hb)
    as (out & Hout & Hcases).
  exists out. split; [exact Hout|].
  destruct Hcases as [->|[offset ->]]; unfold rgb_in_range; cbn [fst snd];
    auto using clamp_in_byte_range.
    - exists (r, g, b). split; [reflexivity|]. unfold rgb_in_range; cbn [fst snd]; auto. }
  destruct out as [[out_r out_g] out_b]. destruct Hout as (Hor & Hog & Hob).
  cbn [fst snd] in Hor, Hog, Hob.
  intros s. unfold bind at 1, lift_res at 1.
  unfold bind at 1. rewrite (build_rgb_packet_ok _ _ _ Hor Hog Hob). unfold lift_res at 1.
  apply set_rgb_single_raises.
Qed.

Lemma device_loop_outcomes targets r g b cmap ctarget ap :
  in_byte_range r -> in_byte_range g -> in_byte_range b ->
  forall applied failures st,
    let outcomes := fst (device_outcomes targets r g b cmap ctarget ap st) in
    length outcomes = length targets /\
    Forall (fun o => o = Ok tt \/ exists detail, o = Raise (BackendError detail)) outcomes /\
    X56UsbBackend.device_loop targets r g b cmap ctarget ap applied failures st
    = (Ok (applied + Z.of_nat (length (filter succeeded outcomes)),
           (failures ++ omap failure_line (zip targets outcomes))%list),
       snd (device_outcomes targets r g b cmap ctarget ap st)).
Proof.
  intros Hr Hg Hb. induction targets as [|entry rest IH]; intros applied failures st.
  - simpl. rewrite Z.add_0_r, app_nil_r. unfold ret. auto.
  - cbn [device_outcomes X56UsbBackend.device_loop fst snd].
    pose proof (send_to_entry_raises entry r g b cmap ctarget ap Hr Hg Hb st) as Hraise.
    unfold bind at 1. unfold try_except, bind at 1.
    destruct (X56UsbBackend.send_to_entry entry r g b cmap ctarget ap st)
      as [[[]|e] st'] eqn:Hsend; cbn [fst snd] in *.
    + unfold ret at 1.
      destruct (IH (applied + 1) failures st') as (Hlen & Hall & Hloop).
      cbn [fst snd]. rewrite Hloop. repeat split.
      * simpl. rewrite Hlen. reflexivity.
      * constructor; [left; reflexivity|exact Hall].
      * f_equal. f_equal. cbn [filter succeeded]. simpl.
        rewrite Nat2Z.inj_succ. f_equal. lia.
    + destruct Hraise as [detail ->]. unfold ret at 1.
      destruct (IH applied (failures ++ [X56UsbBackend.failure_text entry detail])%list st')
        as (Hlen & Hall & Hloop).
      cbn [fst snd]. rewrite Hloop. repeat split.
      * simpl. rewrite Hlen. reflexivity.
      * constructor; [right; eauto|exact Hall].
      * f_equal. f_equal. simpl. rewrite <- app_assoc. reflexivity.
Qed.

Lemma select_targets_nil_entries ids : X56UsbBackend.select_targets [] ids = [].
Proof. unfold X56UsbBackend.select_targets. destruct (bool_decide _); reflexivity. Qed.

Lemma select_targets_nil_ids entries : X56UsbBackend.select_targets entries [] = [].
Proof.
  unfold X56UsbBackend.select_targets.
  rewrite bool_decide_eq_false_2 by (apply not_elem_of_nil).
  induction entries as [|entry rest IH]; [reflexivity|].
  simpl. rewrite filter_cons.
  rewrite decide_False. { exact IH. }
  intros Hin. apply Is_true_true in Hin. apply bool_decide_eq_true in Hin.
  apply not_elem_of_empty in Hin. exact Hin.
Qed.

Lemma failure_lines_length targets : forall outcomes,
  Forall (fun o => o = Ok tt \/ exists detail, o = Raise (BackendError detail)) outcomes ->
  length (omap failure_line (zip targets outcomes))
  = length (filter (fun o => negb (succeeded o)) (take (length targets) outcomes)).
Proof.
  induction targets as [|entry rest IH]; intros outcomes Hall; [reflexivity|].
  destruct outcomes as [|o outcomes]; [reflexivity|].
  inversion Hall as [|? ? Ho Hrest]; subst.
  cbn [zip zip_with omap list_omap take length]. unfold failure_line at 1. cbn [fst snd].
  destruct Ho as [->|[detail ->]].
  - rewrite filter_cons. cbn [succeeded negb]. rewrite decide_False by (intros []).
    apply IH. exact Hrest.
  - rewrite filter_cons. cbn [succeeded negb]. rewrite decide_True by exact I.
    cbn [length]. f_equal. apply IH. exact Hrest.
Qed.

Lemma succeeded_or_failed (outcomes : list (res unit)) :
  (length (filter succeeded outcomes)
   + length (filter (fun o => negb (succeeded o)) outcomes))%nat = length outcomes.
Proof.
  induction outcomes as [|o rest IH]; [reflexivity|].
  rewrite !filter_cons. destruct o as [[]|e]; cbn [succeeded negb].
  - rewrite decide_True by exact I. rewrite decide_False by (intros []). simpl. lia.
  - rewrite decide_False by (intros []). rewrite decide_True by exact I. simpl. lia.
Qed.

Lemma set_rgb_many_dispatch ids r g b cals ctarget (st st1 : X56UsbBackend.t * env) t0 ts :
  in_byte_range r -> in_byte_range g -> in_byte_range b ->
  X56UsbBackend.ensure_entries st = (Ok tt, st1) ->
  X56UsbBackend.select_targets (X56UsbBackend._entries (fst st1)) ids = t0 :: ts ->
  X56UsbBackend.set_rgb_many ids r g b cals ctarget st
  = X56UsbBackend.device_loop (t0 :: ts) r g b (match cals with Some d => d | None => [] end)
      ctarget apply_packet_bytes 0 [] st1.
Proof.
  intros Hr Hg Hb Hensure Hsel.
  unfold X56UsbBackend.set_rgb_many.
  rewrite (bind_ok _ _ st tt st) by (unfold lift_res; rewrite validate_rgb_ok; auto).
  rewrite (bind_ok _ _ _ _ _ Hensure).
  unfold bind at 1, get_self at 1. cbn [fst snd].
  destruct (X56UsbBackend._entries (fst st1)) as [|e0 entries].
  { rewrite select_targets_nil_entries in Hsel. discriminate. }
  destruct ids as [|i0 ids].
  { rewrite select_targets_nil_ids in Hsel. discriminate. }
  rewrite Hsel. reflexivity.
Qed.


(** Looking for devices touches no device: the only event is the bus scan. *)
Lemma ensure_entries_io (st : X56UsbBackend.t * env) :
  world (snd (snd (X56UsbBackend.ensure_entries st))) = world (snd st) /\
  exists evs,
    trace (snd (snd (X56UsbBackend.ensure_entries st))) = (trace (snd st) ++ evs)%list /\
    Forall (fun ev => is_device_event ev = false) evs.
Proof.
  unfold X56UsbBackend.ensure_entries, bind, get_self. cbn [fst snd].
  destruct (X56UsbBackend._entries (fst st)).
  - unfold X56UsbBackend.refresh, bind, host_find, lift_res, set_self, ret. cbn [fst snd].
    destruct (usb_find VENDOR_ID (world (snd st))) as [devices|e]; cbn [fst snd].
    + destruct (make_entries 1 _) as [entries|e]; cbn [fst snd];
        (split; [reflexivity|]); exists [EvFind]; (split; [reflexivity|]);
        repeat constructor.
    + split; [reflexivity|]. exists [EvFind]. split; [reflexivity|]. repeat constructor.
  - unfold ret. cbn [fst snd]. split; [reflexivity|]. exists [].
    rewrite app_nil_r. split; [reflexivity|]. constructor.
Qed.

(** C6.  When a channel is outside [0, 255], or the selector is empty, or
    it matches no known device, the call raises and no operation was
    issued to any device: the world is unchanged and the trace grew by
    nothing but the bus scan. *)
Theorem set_rgb_many_fails_before_device_io ids r g b cals ctarget
    (st : X56UsbBackend.t * env) :
  ~ (in_byte_range r /\ in_byte_range g /\ in_byte_range b) \/
  ids = [] \/
  X56UsbBackend.select_targets
    (X56UsbBackend._entries (fst (snd (X56UsbBackend.ensure_entries st)))) ids = [] ->
  exists e st',
    X56UsbBackend.set_rgb_many ids r g b cals ctarget st = (Raise e, st') /\
    world (snd st') = world (snd st) /\
    exists evs,
      trace (snd st') = (trace (snd st) ++ evs)%list /\
      Forall (fun ev => is_device_event ev = false) evs.
Proof.
  intros Hpre.
  assert (exists evs0 : list event,
            trace (snd st) = (trace (snd st) ++ evs0)%list /\
            Forall (fun ev => is_device_event ev = false) evs0) as Hsame.
  { exists []. rewrite app_nil_r. split; [reflexivity|constructor]. }
  destruct (decide (in_byte_range r /\ in_byte_range g /\ in_byte_range b))
    as [(Hr & Hg & Hb)|Hbad].
  2: { exists (BackendError "RGB values must be in range 0-255."), st.
       split; [|split; [reflexivity|exact Hsame]].
       unfold X56UsbBackend.set_rgb_many, bind, lift_res.
       rewrite (validate_rgb_fails _ _ _ Hbad). reflexivity. }
  assert (ids = [] \/
          X56UsbBackend.select_targets
            (X56UsbBackend._entries (fst (snd (X56UsbBackend.ensure_entries st)))) ids = [])
    as Hsel by (destruct Hpre as [Hbad|Hpre]; [exfalso; auto|exact Hpre]).
  clear Hpre.
  pose proof (ensure_entries_io st) as (Hworld & Htrace).
  unfold X56UsbBackend.set_rgb_many.
  rewrite (bind_ok _ _ st tt st) by (unfold lift_res; rewrite validate_rgb_ok; auto).
  unfold bind at 1.
  destruct (X56UsbBackend.ensure_entries st) as [[[]|e] st1]; cbn [fst snd] in *.
  2: { exists e, st1. auto. }
  unfold bind at 1, get_self at 1. cbn [fst snd].
  destruct (X56UsbBackend._entries (fst st1)) as [|e0 entries].
  { eexists _, st1. split; [reflexivity|auto]. }
  destruct ids as [|i0 ids].
  { eexists _, st1. split; [reflexivity|auto]. }
  destruct Hsel as [Hnil|Hsel]; [discriminate|]. rewrite Hsel.
  eexists _, st1. split; [reflexivity|auto].
Qed.

(** ** usb_backend.py: the devices a call operates on *)

Lemma only_of_app dev a b : only_of dev a -> only_of dev b -> only_of dev (a ++ b).
Proof. apply Forall_app_2. Qed.

Lemma some_of_app dev a b : some_of dev a -> only_of dev b -> some_of dev (a ++ b).
Proof.
  intros [Hne Ha] Hb. split; [|apply only_of_app; assumption].
  destruct a; [congruence|discriminate].
Qed.

Lemma some_of_only dev a : some_of dev a -> only_of dev a.
Proof. intros [_ Ha]. exact Ha. Qed.

Lemma emits_weaken {X A} (P Q : list event -> Prop) (m : M (X * env) A) :
  (forall evs, P evs -> Q evs) -> emits P m -> emits Q m.
Proof. intros HPQ Hm st. destruct (Hm st) as (evs & Ht & HP). eauto. Qed.

Lemma emits_nothing {X A} (P : list event -> Prop) (m : M (X * env) A) :
  P [] -> (forall st, snd (snd (m st)) = snd st) -> emits P m.
Proof.
  intros HP Hm st. exists []. rewrite Hm, app_nil_r. auto.
Qed.

Lemma emits_bind {X A B} (P1 P2 Q : list event -> Prop)
    (m : M (X * env) A) (k : A -> M (X * env) B) :
  emits P1 m -> (forall x, emits P2 (k x)) ->
  (forall a, P1 a -> Q a) -> (forall a b, P1 a -> P2 b -> Q (a ++ b)%list) ->
  emits Q (bind m k).
Proof.
  intros Hm Hk Hstop Hboth st. unfold bind. destruct (Hm st) as (evs1 & Ht1 & H1).
  destruct (m st) as [[x|e] st1]; cbn [fst snd] in *.
  - destruct (Hk x st1) as (evs2 & Ht2 & H2). exists (evs1 ++ evs2)%list.
    rewrite Ht2, Ht1, app_assoc. auto.
  - exists evs1. auto.
Qed.

Lemma emits_try_except {X A} (P1 P2 Q : list event -> Prop)
    (m : M (X * env) A) handler :
  emits P1 m -> (forall e h, handler e = Some h -> emits P2 h) ->
  (forall a, P1 a -> Q a) -> (forall a b, P1 a -> P2 b -> Q (a ++ b)%list) ->
  emits Q (try_except m handler).
Proof.
  intros Hm Hh Hstop Hboth st. unfold try_except. destruct (Hm st) as (evs1 & Ht1 & H1).
  destruct (m st) as [[x|e] st1]; cbn [fst snd] in *; [exists evs1; auto|].
  destruct (handler e) as [h|] eqn:Hhandler; [|exists evs1; auto].
  destruct (Hh e h Hhandler st1) as (evs2 & Ht2 & H2). exists (evs1 ++ evs2)%list.
  rewrite Ht2, Ht1, app_assoc. auto.
Qed.

Lemma emits_try_finally {X A} (P1 P2 Q : list event -> Prop)
    (m : M (X * env) A) (fin : M (X * env) unit) :
  emits P1 m -> emits P2 fin ->
  (forall a b, P1 a -> P2 b -> Q (a ++ b)%list) ->
  emits Q (try_finally m fin).
Proof.
  intros Hm Hfin Hboth st. unfold try_finally. destruct (Hm st) as (evs1 & Ht1 & H1).
  destruct (m st) as [r st1]. cbn [fst snd] in *.
  destruct (Hfin st1) as (evs2 & Ht2 & H2).
  destruct (fin st1) as [[[]|e] st2]; cbn [fst snd] in *;
    exists (evs1 ++ evs2)%list; rewrite Ht2, Ht1, app_assoc; auto.
Qed.

Lemma emits_for_each {X A} (P : list event -> Prop) (l : list A)
    (body : A -> M (X * env) unit) :
  P [] -> (forall a b, P a -> P b -> P (a ++ b)%list) ->
  (forall x, emits P (body x)) -> emits P (for_each l body).
Proof.
  intros Hnil Happ Hbody. induction l as [|x l IH]; simpl.
  - apply emits_nothing; [exact Hnil|reflexivity].
  - apply (emits_bind P P P); auto.
Qed.

Lemma emits_with_local {O L A} (P : list event -> Prop) (init : L)
    (m : M ((O * L) * env) A) :
  emits P m -> emits P (with_local init m).
Proof.
  intros Hm st. unfold with_local. destruct (Hm ((fst st, init), snd st)) as (evs & Ht & HP).
  destruct (m _) as [r st']. cbn [fst snd] in *. eauto.
Qed.

Lemma emits_host_usb {X} dev op :
  emits (fun evs => evs = [EvUsb dev op]) (@host_usb _ X dev op).
Proof.
  intros st. exists [EvUsb dev op]. unfold host_usb. cbn [fst snd].
  destruct (fst (usb_call dev op _)); auto.
Qed.

Lemma emits_kernel_active {X} dev iface :
  emits (fun evs => evs = [EvKernelActive dev iface])
    (@X56UsbBackend._kernel_active _ X dev iface).
Proof.
  intros st. exists [EvKernelActive dev iface].
  unfold X56UsbBackend._kernel_active, bind, host_kernel_active, ret. cbn [fst snd].
  destruct (fst (usb_kernel_active dev iface _)) as [b| |]; auto.
Qed.

Lemma only_of_usb dev op : only_of dev [EvUsb dev op].
Proof. repeat constructor. Qed.

Lemma some_of_usb dev op : some_of dev [EvUsb dev op].
Proof. split; [discriminate|apply only_of_usb]. Qed.

Lemma emits_usb_only {X} dev op : emits (only_of dev) (@host_usb _ X dev op).
Proof.
  apply (emits_weaken (fun evs => evs = [EvUsb dev op])); [|apply emits_host_usb].
  intros evs ->. apply only_of_usb.
Qed.

Lemma emits_ignored_usb_only {X} dev op :
  emits (only_of dev) (X56UsbBackend.ignore_usb_error (@host_usb _ X dev op)).
Proof.
  apply (emits_try_except (only_of dev) (only_of dev)); auto using only_of_app.
  - apply emits_usb_only.
  - intros [] h Hh; try discriminate. inversion Hh.
    apply emits_nothing; [constructor|reflexivity].
Qed.

Lemma emits_ignored_usb_some {X} dev op :
  emits (some_of dev) (X56UsbBackend.ignore_usb_error (@host_usb _ X dev op)).
Proof.
  apply (emits_try_except (some_of dev) (only_of dev)); auto using some_of_app.
  - apply (emits_weaken (fun evs => evs = [EvUsb dev op])); [|apply emits_host_usb].
    intros evs ->. apply some_of_usb.
  - intros [] h Hh; try discriminate. inversion Hh.
    apply emits_nothing; [constructor|reflexivity].
Qed.

Lemma emits_claim_interfaces {O} dev interfaces :
  emits (some_of dev) (@X56UsbBackend.claim_interfaces _ O dev interfaces).
Proof.
  unfold X56UsbBackend.claim_interfaces.
  apply (emits_bind (some_of dev) (only_of dev)); auto using some_of_app;
    [apply emits_ignored_usb_some|]. intros _.
  apply emits_for_each; [constructor|apply only_of_app|]. intros iface.
  apply (emits_bind (only_of dev) (only_of dev)); auto using only_of_app.
  { apply (emits_weaken (fun evs => evs = [EvKernelActive dev iface]));
      [|apply emits_kernel_active]. intros evs ->. repeat constructor. }
  intros active.
  apply (emits_bind (only_of dev) (only_of dev)); auto using only_of_app;
    [|intros _; apply emits_usb_only].
  destruct active; [|apply emits_nothing; [constructor|reflexivity]].
  apply (emits_bind (only_of dev) (only_of dev)); auto using only_of_app;
    [apply emits_usb_only|]. intros _.
  apply emits_nothing; [constructor|reflexivity].
Qed.

Lemma emits_send_packets {X} dev windex rgb ap :
  emits (only_of dev) (@X56UsbBackend.send_packets _ X dev windex rgb ap).
Proof.
  unfold X56UsbBackend.send_packets.
  apply (emits_bind (only_of dev) (only_of dev)); auto using only_of_app;
    [apply emits_usb_only|]. intros _.
  apply (emits_try_except (only_of dev) (only_of dev)); auto using only_of_app;
    [apply emits_usb_only|].
  intros [] h Hh; try discriminate.
  destruct (X56UsbBackend._is_pipe_error _); inversion Hh.
  apply emits_nothing; [constructor|reflexivity].
Qed.

Lemma emits_release_interfaces {O} dev interfaces :
  emits (only_of dev) (@X56UsbBackend.release_interfaces _ O dev interfaces).
Proof.
  unfold X56UsbBackend.release_interfaces.
  apply emits_for_each; [constructor|apply only_of_app|]. intros iface.
  apply (emits_bind (only_of dev) (only_of dev)); auto using only_of_app;
    [apply emits_ignored_usb_only|]. intros _.
  apply (emits_bind (only_of dev) (only_of dev)); auto using only_of_app;
    [apply emits_nothing; [constructor|reflexivity]|]. intros attached.
  destruct (bool_decide _); [apply emits_ignored_usb_only|].
  apply emits_nothing; [constructor|reflexivity].
Qed.

Lemma emits_send_rgb_with_setup dev interfaces windex rgb ap :
  emits (some_of dev) (X56UsbBackend._send_rgb_with_setup dev interfaces windex rgb ap).
Proof.
  unfold X56UsbBackend._send_rgb_with_setup.
  apply emits_with_local.
  apply (emits_try_finally (some_of dev) (only_of dev)); auto using some_of_app;
    [|apply emits_release_interfaces].
  apply (emits_try_except (some_of dev) (only_of dev)); auto using some_of_app.
  - apply (emits_bind (some_of dev) (only_of dev)); auto using some_of_app;
      [apply emits_claim_interfaces|]. intros _. apply emits_send_packets.
  - intros [] h Hh; try discriminate. inversion Hh.
    apply emits_nothing; [constructor|reflexivity].
Qed.

Lemma emits_set_rgb_single_loop dev rgb ap todo : forall last,
  emits (only_of dev) (X56UsbBackend._set_rgb_single_loop dev rgb ap todo last).
Proof.
  induction todo as [|[interfaces windex] rest IH]; intros last.
  - cbn [X56UsbBackend._set_rgb_single_loop].
    destruct last; apply emits_nothing; try constructor; reflexivity.
  - cbn [X56UsbBackend._set_rgb_single_loop].
    apply (emits_try_except (only_of dev) (only_of dev)); auto using only_of_app.
    + apply (emits_weaken (some_of dev)); [apply some_of_only|].
      apply emits_send_rgb_with_setup.
    + intros [] h Hh; try discriminate. inversion Hh. apply IH.
Qed.

Lemma emits_set_rgb_single_loop_some dev rgb ap interfaces windex rest last :
  emits (some_of dev)
    (X56UsbBackend._set_rgb_single_loop dev rgb ap ((interfaces, windex) :: rest) last).
Proof.
  cbn [X56UsbBackend._set_rgb_single_loop].
  apply (emits_try_except (some_of dev) (only_of dev)); auto using some_of_app.
  - apply emits_send_rgb_with_setup.
  - intros [] h Hh; try discriminate. inversion Hh. apply emits_set_rgb_single_loop.
Qed.

Lemma emits_set_rgb_single dev rgb ap :
  emits (some_of dev) (X56UsbBackend._set_rgb_single dev rgb ap).
Proof.
  unfold X56UsbBackend._set_rgb_single, X56UsbBackend.attempts.
  apply emits_set_rgb_single_loop_some.
Qed.

(** With channels in [0, 255], sending to one device operates on that
    device, at least once, and on nothing else. *)
Lemma emits_send_to_entry entry r g b cmap ctarget ap :
  in_byte_range r -> in_byte_range g -> in_byte_range b ->
  emits (some_of (device entry)) (X56UsbBackend.send_to_entry entry r g b cmap ctarget ap).
Proof.
  intros Hr Hg Hb. unfold X56UsbBackend.send_to_entry.
  assert (exists out,
            match dict_get (DeviceInfo.id (info entry)) cmap with
            | Some calibration =>
                let? target_name :=
                  match ctarget with
                  | Some (String c rest) => Ok (String c rest)
                  | _ => ColorCalibration.closest_target_name r g b
                  end in
                ColorCalibration.apply calibration r g b (Some target_name)
            | None => Ok (r, g, b)
            end = Ok out /\ rgb_in_range out) as (out & -> & Hout).
  { destruct (dict_get _ cmap) as [calibration|].
    - assert (exists target_name,
                match ctarget with
                | Some (String c rest) => Ok (String c rest)
                | _ => ColorCalibration.closest_target_name r g b
                end = Ok target_name) as [target_name ->].
      { destruct ctarget as [[|c rest]|]; eauto using closest_target_name_total. }
      cbn [rbind].
      destruct (apply_returns calibration r g b (Some target_name) Hr Hg Hb)
        as (out & Hout & Hcases).
      exists out. split; [exact Hout|].
      destruct Hcases as [->|[offset ->]]; unfold rgb_in_range; cbn [fst snd];
        auto using clamp_in_byte_range.
    - exists (r, g, b). split; [reflexivity|]. unfold rgb_in_range; cbn [fst snd]; auto. }
  destruct out as [[out_r out_g] out_b]. destruct Hout as (Hor & Hog & Hob).
  cbn [fst snd] in Hor, Hog, Hob.
  intros st. unfold bind at 1, lift_res at 1. unfold bind at 1, lift_res at 1.
  rewrite (build_rgb_packet_ok out_r out_g out_b Hor Hog Hob).
  apply emits_set_rgb_single.
Qed.

(** The events of a run over the targets come in one block per target,
    in the order of the targets. *)
Lemma device_outcomes_blocks targets r g b cmap ctarget ap :
  in_byte_range r -> in_byte_range g -> in_byte_range b ->
  forall st, exists blocks,
    trace (snd (snd (device_outcomes targets r g b cmap ctarget ap st)))
    = (trace (snd st) ++ concat blocks)%list /\
    Forall2 (fun entry block => some_of (device entry) block) targets blocks.
Proof.
  intros Hr Hg Hb. induction targets as [|entry rest IH]; intros st.
  - exists []. cbn. rewrite app_nil_r. split; [reflexivity|constructor].
  - cbn [device_outcomes fst snd].
    destruct (emits_send_to_entry entry r g b cmap ctarget ap Hr Hg Hb st)
      as (block & Htrace & Hblock).
    destruct (IH (snd (X56UsbBackend.send_to_entry entry r g b cmap ctarget ap st)))
      as (blocks & Hrest & Hblocks).
    exists (block :: blocks). rewrite Hrest, Htrace. cbn [concat].
    rewrite app_assoc. split; [reflexivity|]. constructor; assumption.
Qed.

(** C10.  When the list of ids contains 0, whatever else it contains,
    the resolved targets are the enumerated entries, in enumeration
    order, and the call processes exactly them: its result counts the
    outcomes of sending to every entry in turn, one success or one
    failure line per entry; the operations it issues come in one
    non-empty block per entry, in enumeration order, each block on the
    device of its entry only; and the call is the call with the list [0]
    alone. *)
Theorem zero_selects_every_device ids r g b cals ctarget (st st1 : X56UsbBackend.t * env) :
  0 ∈ ids ->
  in_byte_range r -> in_byte_range g -> in_byte_range b ->
  X56UsbBackend.ensure_entries st = (Ok tt, st1) ->
  X56UsbBackend._entries (fst st1) <> [] ->
  let entries := X56UsbBackend._entries (fst st1) in
  let cmap := match cals with Some d => d | None => [] end in
  let run := device_outcomes entries r g b cmap ctarget apply_packet_bytes st1 in
  let failures := omap failure_line (zip entries (fst run)) in
  let success_count := Z.of_nat (length (filter succeeded (fst run))) in
  X56UsbBackend.select_targets entries ids = entries /\
  X56UsbBackend.set_rgb_many ids r g b cals ctarget st
  = (Ok (success_count, failures), snd run) /\
  success_count + Z.of_nat (length failures) = Z.of_nat (length entries) /\
  (exists blocks,
     trace (snd (snd run)) = (trace (snd st1) ++ concat blocks)%list /\
     Forall2 (fun entry block =>
                block <> [] /\
                Forall (fun ev => event_device ev = Some (device entry)) block)
       entries blocks) /\
  X56UsbBackend.set_rgb_many ids r g b cals ctarget st
  = X56UsbBackend.set_rgb_many [0] r g b cals ctarget st.
Proof.
  intros Hin Hr Hg Hb Hensure Hentries.
  destruct (X56UsbBackend._entries (fst st1)) as [|t0 ts] eqn:Hlist; [congruence|].
  intros entries cmap run failures success_count.
  assert (forall ids', 0 ∈ ids' -> X56UsbBackend.select_targets entries ids' = entries)
    as Hsel.
  { intros ids' Hin'. unfold X56UsbBackend.select_targets.
    rewrite bool_decide_eq_true_2 by exact Hin'. reflexivity. }
  assert (forall ids', 0 ∈ ids' ->
            X56UsbBackend.set_rgb_many ids' r g b cals ctarget st
            = (Ok (success_count, failures), snd run)) as Hcall.
  { intros ids' Hin'.
    assert (X56UsbBackend.select_targets (X56UsbBackend._entries (fst st1)) ids' = t0 :: ts)
      as Hresolved by (rewrite Hlist; apply Hsel, Hin').
    rewrite (set_rgb_many_dispatch ids' r g b cals ctarget st st1 t0 ts Hr Hg Hb Hensure
               Hresolved).
    fold cmap.
    destruct (device_loop_outcomes (t0 :: ts) r g b cmap ctarget apply_packet_bytes
                Hr Hg Hb 0 [] st1) as (_ & _ & Hloop).
    rewrite Hloop, app_nil_l, Z.add_0_l. reflexivity. }
  destruct (device_loop_outcomes entries r g b cmap ctarget apply_packet_bytes
              Hr Hg Hb 0 [] st1) as (Hlen & Hall & _).
  fold run in Hlen, Hall.
  split; [apply Hsel, Hin|]. split; [apply Hcall, Hin|]. split; [|split].
  - unfold success_count, failures. rewrite (failure_lines_length _ _ Hall).
    rewrite <- Hlen, firstn_all, <- Nat2Z.inj_add, succeeded_or_failed. reflexivity.
  - exact (device_outcomes_blocks entries r g b cmap ctarget apply_packet_bytes
             Hr Hg Hb st1).
  - rewrite (Hcall ids Hin). symmetry. apply Hcall. left.
Qed.
End Usb.

(** ** Dictionaries *)

Section DictFacts.
Context {K V : Type} `{EqDecision K}.
Implicit Types (d : list (K * V)).

Lemma dict_get_set_eq k v d : dict_get k (dict_set k v d) = Some v.
Proof.
  induction d as [|[k' v'] rest IH]; simpl.
  - rewrite decide_True by reflexivity. reflexivity.
  - destruct (decide (k = k')) as [->|Hne]; simpl.
    + rewrite decide_True by reflexivity. reflexivity.
    + rewrite decide_False by exact Hne. exact IH.
Qed.

Lemma dict_get_set_ne k k' v d : k <> k' -> dict_get k' (dict_set k v d) = dict_get k' d.
Proof.
  intros Hne. induction d as [|[k0 v0] rest IH]; simpl.
  - rewrite decide_False by congruence. reflexivity.
  - destruct (decide (k = k0)) as [->|Hk]; simpl.
    + rewrite !decide_False by congruence. reflexivity.
    + destruct (decide (k' = k0)); [reflexivity|exact IH].
Qed.

Lemma dict_get_None k d : dict_get k d = None <-> k ∉ dict_keys d.
Proof.
  induction d as [|[k' v'] rest IH]; simpl.
  - split; [intros _; apply not_elem_of_nil|reflexivity].
  - rewrite not_elem_of_cons. destruct (decide (k = k')) as [->|Hne].
    + split; [discriminate|intros [Hne _]; congruence].
    + rewrite IH. tauto.
Qed.

Lemma dict_set_fresh k v d : k ∉ dict_keys d -> dict_set k v d = (d ++ [(k, v)])%list.
Proof.
  induction d as [|[k' v'] rest IH]; simpl; intros Hk; [reflexivity|].
  apply not_elem_of_cons in Hk as [Hne Hk].
  rewrite decide_False by exact Hne. rewrite IH by exact Hk. reflexivity.
Qed.

Lemma dict_get_del_eq k d : NoDup (dict_keys d) -> dict_get k (dict_del k d) = None.
Proof.
  induction d as [|[k' v'] rest IH]; simpl; intros Hnd; [reflexivity|].
  apply NoDup_cons in Hnd as [Hk' Hnd].
  destruct (decide (k = k')) as [->|Hne]; simpl.
  - apply dict_get_None. exact Hk'.
  - rewrite decide_False by exact Hne. apply IH. exact Hnd.
Qed.

Lemma dict_get_del_ne k k' d : k <> k' -> dict_get k' (dict_del k d) = dict_get k' d.
Proof.
  intros Hne. induction d as [|[k0 v0] rest IH]; simpl; [reflexivity|].
  destruct (decide (k = k0)) as [->|Hk]; simpl.
  - rewrite decide_False by congruence. reflexivity.
  - destruct (decide (k' = k0)); [reflexivity|exact IH].
Qed.

Lemma dict_keys_set k v d :
  dict_keys (dict_set k v d)
  = if dict_mem k d then dict_keys d else (dict_keys d ++ [k])%list.
Proof.
  unfold dict_mem. induction d as [|[k' v'] rest IH]; simpl; [reflexivity|].
  destruct (decide (k = k')) as [->|Hne]; simpl; [reflexivity|].
  rewrite IH. destruct (dict_get k rest); reflexivity.
Qed.

Lemma dict_mem_true k d : dict_mem k d = true <-> k ∈ dict_keys d.
Proof.
  unfold dict_mem. pose proof (dict_get_None k d) as Hn.
  destruct (dict_get k d).
  - split; [intros _|reflexivity].
    destruct (decide (k ∈ dict_keys d)) as [|Hnot]; [assumption|].
    apply Hn in Hnot. discriminate.
  - split; [discriminate|]. intros Hin. exfalso. apply Hn; auto.
Qed.

Lemma dict_set_NoDup k v d : NoDup (dict_keys d) -> NoDup (dict_keys (dict_set k v d)).
Proof.
  intros Hnd. rewrite dict_keys_set. destruct (dict_mem k d) eqn:Hmem; [exact Hnd|].
  apply NoDup_app. split; [exact Hnd|]. split.
  - intros x Hx Hx'. apply list_elem_of_singleton in Hx'. subst x.
    apply dict_mem_true in Hx. congruence.
  - apply NoDup_singleton.
Qed.

Lemma dict_keys_del_subseteq k d : dict_keys (dict_del k d) ⊆ dict_keys d.
Proof.
  induction d as [|[k' v'] rest IH]; simpl; [reflexivity|].
  destruct (decide (k = k')); simpl.
  - apply list_subseteq_cons. reflexivity.
  - intros x Hx. apply elem_of_cons in Hx as [->|Hx]; [left|right; apply IH, Hx].
Qed.

Lemma dict_del_NoDup k d : NoDup (dict_keys d) -> NoDup (dict_keys (dict_del k d)).
Proof.
  induction d as [|[k' v'] rest IH]; simpl; intros Hnd; [constructor|].
  apply NoDup_cons in Hnd as [Hk' Hnd].
  destruct (decide (k = k')); simpl; [exact Hnd|].
  apply NoDup_cons. split; [|apply IH, Hnd].
  intros Hin. apply Hk'. eapply dict_keys_del_subseteq, Hin.
Qed.
End DictFacts.

(** ** calibration.py: the persisted form *)

Section Json.
Context `{Builtins}.

Lemma color_offset_roundtrip (o : ColorOffset.t) :
  ColorOffset.from_json (ColorOffset.to_json o) = Ok o.
Proof. destruct o as [r g b]. reflexivity. Qed.

Lemma parse_offsets_loop_roundtrip (offsets : list (string * ColorOffset.t)) :
  forall parsed,
    NoDup (dict_keys parsed ++ dict_keys offsets) ->
    Forall (fun kv => fst kv ∈ dict_keys CALIBRATION_COLORS) offsets ->
    _parse_offsets_loop
      (map (fun kv => (fst kv, PDict (ColorOffset.to_json (snd kv)))) offsets) parsed
    = Ok (parsed ++ offsets)%list.
Proof.
  induction offsets as [|[k v] rest IH]; intros parsed Hnd Hkeys.
  - simpl. rewrite app_nil_r. reflexivity.
  - inversion Hkeys as [|? ? Hk Hrest]; subst. cbn [fst snd] in Hk.
    cbn [map _parse_offsets_loop fst snd].
    apply dict_mem_true in Hk. rewrite Hk.
    rewrite color_offset_roundtrip. cbn [rbind].
    assert (k ∉ dict_keys parsed) as Hfresh.
    { apply NoDup_app in Hnd as (_ & Hdisj & _). intros Hin.
      apply (Hdisj k Hin). simpl. left. }
    rewrite (dict_set_fresh k v parsed Hfresh).
    rewrite IH.
    + rewrite <- app_assoc. reflexivity.
    + unfold dict_keys in *. rewrite map_app. simpl in *.
      rewrite <- app_assoc. exact Hnd.
    + exact Hrest.
Qed.

Lemma channel_upper (s : string) : s ∈ CHANNELS -> upper s = s /\ bool_decide (s ∈ CHANNELS) = true.
Proof.
  intros Hin. split; [|apply bool_decide_eq_true_2, Hin].
  unfold CHANNELS in Hin. repeat (apply elem_of_cons in Hin as [->|Hin]; [reflexivity|]).
  apply elem_of_nil in Hin. destruct Hin.
Qed.

(** C7.  For a valid calibration (the order a permutation of R, G, B, any
    gains, offsets keyed by palette names with any integers), parsing the
    serialized form gives the calibration back. *)
Theorem calibration_json_roundtrip (c : ColorCalibration.t) :
  valid_calibration c ->
  ColorCalibration.from_json (ColorCalibration.to_json c) = Ok c.
Proof.
  destruct c as [[[o0 o1] o2] gr gg gb offs]. intros [Horder (offsets & Hoffs & Hnd & Hkeys)].
  cbn [ColorCalibration.order ColorCalibration.target_offsets] in Horder, Hoffs. subst offs.
  assert (o0 ∈ CHANNELS /\ o1 ∈ CHANNELS /\ o2 ∈ CHANNELS) as (H0 & H1 & H2).
  { repeat split; rewrite <- Horder; set_solver. }
  apply channel_upper in H0 as [Hu0 Hm0], H1 as [Hu1 Hm1], H2 as [Hu2 Hm2].
  unfold ColorCalibration.from_json, ColorCalibration.to_json.
  cbn [ColorCalibration.order ColorCalibration.gain_r ColorCalibration.gain_g
       ColorCalibration.gain_b ColorCalibration.offsets_or_empty
       ColorCalibration.target_offsets].
  change (dict_get_default "order" _ _) with (PList [PStr o0; PStr o1; PStr o2]).
  change (dict_get_default "gain_r" _ _) with (PFloat gr).
  change (dict_get_default "gain_g" _ _) with (PFloat gg).
  change (dict_get_default "gain_b" _ _) with (PFloat gb).
  change (dict_get_default "target_offsets" _ _)
    with (PDict (map (fun kv => (fst kv, PDict (ColorOffset.to_json (snd kv)))) offsets)).
  cbn [py_float rbind map py_str existsb]. rewrite Hu0, Hu1, Hu2, Hm0, Hm1, Hm2.
  cbn [negb orb]. unfold _parse_offsets.
  rewrite (parse_offsets_loop_roundtrip offsets []); [reflexivity| |exact Hkeys].
  simpl. exact Hnd.
Qed.
End Json.

Section Store.
Context `{Host}.

(** ** calibration.py: the store *)

(** C2, as the code has it.  For a device whose calibration is stored only
    under the legacy key, and when the file can be written, the first
    lookup returns that calibration and stores it under the plain key as
    well; a later lookup finds it under the plain key and changes
    nothing; the legacy entry is still in the store. *)
Theorem get_for_device_keeps_the_legacy_entry (device : DeviceInfo.t)
    (c : ColorCalibration.t) (store : CalibrationStore.t) (e : env) :
  let key := CalibrationStore.key_for_device device in
  let legacy_key := CalibrationStore._legacy_key_for_device device in
  dict_get key (CalibrationStore._profiles store) = None ->
  dict_get legacy_key (CalibrationStore._profiles store) = Some c ->
  (forall doc, fst (fs_write_json (CalibrationStore._path store) doc (world e)) = true) ->
  let first := CalibrationStore.get_for_device device (store, e) in
  let second := CalibrationStore.get_for_device device (snd first) in
  fst first = Ok (Some c) /\
  CalibrationStore._profiles (fst (snd first))
    = dict_set key c (CalibrationStore._profiles store) /\
  dict_get key (CalibrationStore._profiles (fst (snd first))) = Some c /\
  dict_get legacy_key (CalibrationStore._profiles (fst (snd first))) = Some c /\
  second = (Ok (Some c), snd first).
Proof.
  intros key legacy_key Hkey Hlegacy Hwrite first second.
  assert (first = (Ok (Some c),
                   (CalibrationStore.mk (CalibrationStore._path store)
                      (dict_set key c (CalibrationStore._profiles store)),
                    snd (snd first)))) as Hfirst.
  { unfold first, CalibrationStore.get_for_device, bind, get_self. cbn [fst snd].
    fold key legacy_key. rewrite Hkey, Hlegacy.
    unfold CalibrationStore.set_profiles, CalibrationStore._save, bind, get_self, set_self,
      host_write_json, ret.
    cbn [fst snd CalibrationStore._path CalibrationStore._profiles].
    rewrite Hwrite. reflexivity. }
  assert (dict_get key (dict_set key c (CalibrationStore._profiles store)) = Some c) as Hnew
    by apply dict_get_set_eq.
  assert (dict_get legacy_key (dict_set key c (CalibrationStore._profiles store)) = Some c)
    as Hold.
  { destruct (decide (key = legacy_key)) as [Heq|Hne].
    - rewrite <- Heq. apply dict_get_set_eq.
    - rewrite dict_get_set_ne by exact Hne. exact Hlegacy. }
  unfold second. rewrite Hfirst. cbn [fst snd CalibrationStore._profiles].
  repeat split; auto.
  unfold CalibrationStore.get_for_device, bind, get_self, ret.
  cbn [fst snd CalibrationStore._profiles]. fold key. rewrite Hnew. reflexivity.
Qed.
End Store.

Section Scheduler.
Context `{Host}.

(** ** main_window.py: the effect scheduler *)

(** Building the calibration map changes nothing of the window but its
    calibration store. *)
Lemma build_calibration_map_loop_frame {T} (f : MainWindow.t -> T) devices :
  (forall c w, f (MainWindow.set_calibration_store c w) = f w) ->
  forall target_set cmap (st : MainWindow.t * env),
    f (fst (snd (MainWindow._build_calibration_map_loop devices target_set cmap st)))
    = f (fst st).
Proof.
  intros Hf. induction devices as [|device rest IH]; intros target_set cmap st;
    [reflexivity|].
  cbn [MainWindow._build_calibration_map_loop].
  destruct (negb _); [apply IH|].
  unfold bind, on_member.
  destruct (CalibrationStore.get_for_device device _) as [[calibration|e] st1]; cbn [fst snd].
  - destruct calibration as [c|]; rewrite IH; apply Hf.
  - apply Hf.
Qed.

Lemma build_calibration_map_frame {T} (f : MainWindow.t -> T) target_ids
    (st : MainWindow.t * env) :
  (forall c w, f (MainWindow.set_calibration_store c w) = f w) ->
  f (fst (snd (MainWindow._build_calibration_map target_ids st))) = f (fst st).
Proof.
  intros Hf. unfold MainWindow._build_calibration_map, bind, get_self. cbn [fst snd].
  apply build_calibration_map_loop_frame. exact Hf.
Qed.

Lemma effect_tick_session_step (session_key : string) (st : MainWindow.t * env) r st' :
  MainWindow._effect_tick_session session_key st = (r, st') ->
  MainWindow._devices (fst st') = MainWindow._devices (fst st) /\
  match dict_get session_key (MainWindow._effect_sessions (fst st)) with
  | None => MainWindow._effect_sessions (fst st') = MainWindow._effect_sessions (fst st)
  | Some session =>
      if String.eqb (mode session) EFFECT_OFF
      then
        r = Ok tt /\
        MainWindow._effect_sessions (fst st')
        = dict_del session_key (MainWindow._effect_sessions (fst st))
      else
        MainWindow._effect_sessions (fst st') = MainWindow._effect_sessions (fst st) \/
        MainWindow._effect_sessions (fst st')
        = dict_set session_key (advanced_session session)
            (MainWindow._effect_sessions (fst st))
  end.
Proof.
  unfold MainWindow._effect_tick_session. unfold bind at 1, get_self at 1.
  cbn [fst snd].
  destruct (dict_get session_key _) as [session|];
    [|intros [= <- <-]; split; reflexivity].
  destruct (String.eqb (mode session) EFFECT_OFF);
    [intros [= <- <-]; split; [reflexivity|split; reflexivity]|].
  destruct (MainWindow._resolved_target_ids (fst st) session) as [|t0 ts];
    [intros [= <- <-]; split; [reflexivity|left; reflexivity]|].
  set (target_ids := t0 :: ts).
  unfold bind at 1, lift_res at 1.
  destruct (float_of_Z _) as [brightness|e];
    [|intros [= <- <-]; split; [reflexivity|left; reflexivity]].
  unfold bind at 1, lift_res at 1.
  destruct (compute_effect_color _ _ _ _) as [out_rgb|e];
    [|intros [= <- <-]; split; [reflexivity|left; reflexivity]].
  unfold bind at 1.
  pose proof (build_calibration_map_frame MainWindow._effect_sessions target_ids st
                (fun _ _ => eq_refl)) as Hs2.
  pose proof (build_calibration_map_frame MainWindow._devices target_ids st
                (fun _ _ => eq_refl)) as Hd2.
  destruct (MainWindow._build_calibration_map target_ids st) as [[cmap|e] st2];
    cbn [fst snd] in *; [|intros [= <- <-]; split; [exact Hd2|left; exact Hs2]].
  unfold bind, try_except, on_member.
  destruct (X56UsbBackend.set_rgb_many _ _ _ _ _ _ _) as [[sent|e] st3]; cbn [fst snd].
  - unfold ret, get_self, set_self. cbn. intros [= <- <-]. cbn. rewrite Hs2.
    split; [exact Hd2|right; reflexivity].
  - destruct e; cbn; intros [= <- <-]; (split; [exact Hd2|left; exact Hs2]).
Qed.

Lemma session_after_tick_refl entry : session_after_tick entry entry.
Proof.
  destruct entry as [session|]; cbn; [|reflexivity].
  destruct (String.eqb _ _); auto.
Qed.

(** The loop of a tick over keys without repetition. *)
Lemma effect_tick_loop (session_keys : list string) :
  NoDup session_keys ->
  forall (st : MainWindow.t * env) r st',
    NoDup (dict_keys (MainWindow._effect_sessions (fst st))) ->
    for_each session_keys MainWindow._effect_tick_session st = (r, st') ->
    MainWindow._devices (fst st') = MainWindow._devices (fst st) /\
    NoDup (dict_keys (MainWindow._effect_sessions (fst st'))) /\
    (forall k, k ∉ session_keys ->
       dict_get k (MainWindow._effect_sessions (fst st'))
       = dict_get k (MainWindow._effect_sessions (fst st))) /\
    (forall k, k ∈ session_keys ->
       session_after_tick (dict_get k (MainWindow._effect_sessions (fst st)))
         (dict_get k (MainWindow._effect_sessions (fst st')))) /\
    (r = Ok tt ->
     forall k session, k ∈ session_keys ->
       dict_get k (MainWindow._effect_sessions (fst st)) = Some session ->
       mode session = EFFECT_OFF ->
       dict_get k (MainWindow._effect_sessions (fst st')) = None).
Proof.
  induction 1 as [|key rest Hfresh Hnodup IH]; intros st r st' Hkeys.
  - cbn. intros [= <- <-]. split; [reflexivity|]. split; [exact Hkeys|].
    split; [reflexivity|]. split.
    + intros k Hk. inversion Hk.
    + intros _ k session Hk. inversion Hk.
  - cbn [for_each]. unfold bind.
    destruct (MainWindow._effect_tick_session key st) as [r1 st1] eqn:Hstep.
    destruct (effect_tick_session_step key st r1 st1 Hstep) as [Hdev1 Hsess1].
    (* the entry of [key] after its own step, and the other entries *)
    assert (NoDup (dict_keys (MainWindow._effect_sessions (fst st1))) /\
            (forall k, k <> key ->
               dict_get k (MainWindow._effect_sessions (fst st1))
               = dict_get k (MainWindow._effect_sessions (fst st))) /\
            session_after_tick (dict_get key (MainWindow._effect_sessions (fst st)))
              (dict_get key (MainWindow._effect_sessions (fst st1))) /\
            (r1 = Ok tt -> forall session,
               dict_get key (MainWindow._effect_sessions (fst st)) = Some session ->
               mode session = EFFECT_OFF ->
               dict_get key (MainWindow._effect_sessions (fst st1)) = None))
      as (Hkeys1 & Hother1 & Hkey1 & Hoff1).
    { destruct (dict_get key (MainWindow._effect_sessions (fst st))) as [session|] eqn:Hget.
      - unfold session_after_tick.
        destruct (String.eqb (mode session) EFFECT_OFF) eqn:Hmode.
        + destruct Hsess1 as [_ ->]. split; [apply dict_del_NoDup, Hkeys|].
          split; [intros k Hk; apply dict_get_del_ne; congruence|].
          rewrite dict_get_del_eq by exact Hkeys. split; [left; reflexivity|]. reflexivity.
        + apply String.eqb_neq in Hmode.
          destruct Hsess1 as [->| ->].
          * split; [exact Hkeys|]. split; [reflexivity|]. rewrite Hget.
            split; [left; reflexivity|]. intros _ s [= <-] Hs. contradiction.
          * split; [apply dict_set_NoDup, Hkeys|].
            split; [intros k Hk; apply dict_get_set_ne; congruence|].
            rewrite dict_get_set_eq. split; [right; reflexivity|].
            intros _ s [= <-] Hs. contradiction.
      - rewrite Hsess1, Hget. split; [exact Hkeys|]. split; [reflexivity|].
        split; [reflexivity|]. intros _ s Hs. discriminate. }
    assert (forall k, k ∈ rest ->
              dict_get k (MainWindow._effect_sessions (fst st1))
              = dict_get k (MainWindow._effect_sessions (fst st))) as Hrest1.
    { intros k Hk. apply Hother1. intros ->. contradiction. }
    destruct r1 as [[]|e].
    + intros Hloop.
      destruct (IH st1 r st' Hkeys1 Hloop) as (Hdev & Hkeys' & Hout & Hin & Hoff).
      split; [congruence|]. split; [exact Hkeys'|]. split; [|split].
      * intros k Hk. apply not_elem_of_cons in Hk as [Hne Hk].
        rewrite Hout by exact Hk. apply Hother1, Hne.
      * intros k Hk. apply elem_of_cons in Hk as [->|Hk].
        -- rewrite Hout by exact Hfresh. exact Hkey1.
        -- rewrite <- Hrest1 by exact Hk. apply Hin, Hk.
      * intros Hr k session Hk Hget Hmode. apply elem_of_cons in Hk as [->|Hk].
        -- rewrite Hout by exact Hfresh. eapply Hoff1; eauto.
        -- rewrite <- Hrest1 in Hget by exact Hk. eapply Hoff; eauto.
    + intros [= <- <-]. split; [exact Hdev1|]. split; [exact Hkeys1|]. split; [|split].
      * intros k Hk. apply not_elem_of_cons in Hk as [Hne Hk]. apply Hother1, Hne.
      * intros k Hk. apply elem_of_cons in Hk as [->|Hk]; [exact Hkey1|].
        rewrite Hrest1 by exact Hk. apply session_after_tick_refl.
      * discriminate.
Qed.






End Scheduler.

(** ** Concrete runs on the scripted host *)

(** C1, as stated, fails: on a device whose colour transfer always fails,
    the four attempts send wIndex 0x0200, 2, 0x0200, 2, not the
    0x0202, 2, 0x0202, 2 of the table in the specification. *)
Lemma set_rgb_single_windex_is_not_0x0202 :
  ctrl_windexes
    (@trace scripted_host
       (snd (snd (@X56UsbBackend._set_rgb_single scripted_host joystick
                    [9; 0; 3; 255; 0; 0] apply_packet_bytes (backend_on colour_stalls)))))
  = [0x0200; 2; 0x0200; 2] /\
  map snd attempts_of_the_spec = [0x0202; 2; 0x0202; 2] /\
  X56UsbBackend.attempts <> attempts_of_the_spec.
Proof.
  split; [vm_compute; reflexivity|]. split; [reflexivity|]. discriminate.
Qed.

Lemma apply_in_range_on_bytes_witness :
  (in_byte_range 255 /\ in_byte_range 0 /\ in_byte_range 0) /\
  exists out,
    ColorCalibration.apply demo_calibration 255 0 0 None = Ok out /\ rgb_in_range out.
Proof.
  assert (in_byte_range 255 /\ in_byte_range 0 /\ in_byte_range 0) as Hin
    by (unfold in_byte_range; lia).
  split; [exact Hin|].
  destruct Hin as (Hr & Hg & Hb).
  exact (apply_in_range_on_bytes demo_calibration 255 0 0 None Hr Hg Hb).
Defined.

Lemma closest_target_name_first_nearest_witness :
  exists name pre c post,
    ColorCalibration.closest_target_name 200 10 10 = Ok name /\
    CALIBRATION_COLORS = (pre ++ (name, c) :: post)%list /\
    Forall (fun item => sqdist 200 10 10 c < sqdist 200 10 10 (snd item)) pre /\
    Forall (fun item => sqdist 200 10 10 c <= sqdist 200 10 10 (snd item)) post.
Proof.
  apply (closest_target_name_first_nearest 200 10 10); unfold in_byte_range; lia.
Defined.

Lemma demo_calibration_valid : valid_calibration demo_calibration.
Proof.
  split.
  - cbn. unfold CHANNELS.
    apply (perm_trans (l' := ["G"; "B"; "R"])); [apply perm_swap|].
    apply (perm_trans (l' := ["G"; "R"; "B"])); [apply perm_skip, perm_swap|].
    apply perm_swap.
  - eexists. split; [reflexivity|]. split.
    + apply (bool_decide_unpack (NoDup _)). vm_compute. exact I.
    + repeat constructor; apply (bool_decide_unpack (_ ∈ _)); vm_compute; exact I.
Defined.

Lemma calibration_json_roundtrip_witness :
  @ColorCalibration.from_json plain_builtins (ColorCalibration.to_json demo_calibration)
  = Ok demo_calibration.
Proof.
  exact (@calibration_json_roundtrip plain_builtins demo_calibration demo_calibration_valid).
Defined.

Lemma get_for_device_keeps_the_legacy_entry_witness :
  let first :=
    @CalibrationStore.get_for_device scripted_host joystick_info
      (legacy_store, @mk_env scripted_host throttle_fails []) in
  fst first = Ok (Some demo_calibration) /\
  dict_get "2221" (CalibrationStore._profiles (fst (snd first))) = Some demo_calibration /\
  dict_get "2221:1:4" (CalibrationStore._profiles (fst (snd first))) = Some demo_calibration.
Proof.
  destruct (@get_for_device_keeps_the_legacy_entry scripted_host joystick_info
              demo_calibration legacy_store (@mk_env scripted_host throttle_fails [])
              eq_refl eq_refl (fun _ => eq_refl))
    as (Hret & _ & Hplain & Hlegacy & _).
  exact (conj Hret (conj Hplain Hlegacy)).
Defined.


Lemma pipe_error_passes_only_on_latch_witness :
  fst (@X56UsbBackend._send_rgb_with_setup scripted_host joystick [2; 0] 0x0200
         [9; 0; 3; 255; 0; 0] apply_packet_bytes (backend_on latch_stalls))
  = Ok tt /\
  fst (@X56UsbBackend._send_rgb_with_setup scripted_host joystick [2; 0] 0x0200
         [9; 0; 3; 255; 0; 0] apply_packet_bytes (backend_on colour_stalls))
  = Raise (BackendError "USB transfer failed ([Errno 32] Pipe error).") /\
  fst (@X56UsbBackend._send_rgb_with_setup scripted_host joystick [2; 0] 0x0200
         [9; 0; 3; 255; 0; 0] apply_packet_bytes (backend_on latch_breaks))
  = Raise (BackendError "USB transfer failed ([Errno 5] Input/Output Error).").
Proof.
  pose proof (fun w =>
    @pipe_error_passes_only_on_latch scripted_host joystick [2; 0] 0x0200
      [9; 0; 3; 255; 0; 0] apply_packet_bytes (backend_on w)
      (snd (@X56UsbBackend.claim_interfaces scripted_host _ joystick [2; 0]
              ((fst (backend_on w), []), snd (backend_on w))))) as Hrun.
  pose proof (Hrun latch_stalls eq_refl) as Hlatch.
  pose proof (Hrun colour_stalls eq_refl) as Hcolour.
  pose proof (Hrun latch_breaks eq_refl) as Hbreaks.
  clear Hrun. cbv zeta in Hlatch, Hcolour, Hbreaks.
  cbn [usb_call scripted_host] in Hlatch, Hcolour, Hbreaks.
  change (s_usb latch_stalls joystick
            (X56UsbBackend.rgb_transfer 0x0200 [9; 0; 3; 255; 0; 0])) with (@None usb_error)
    in Hlatch.
  change (s_usb latch_stalls joystick
            (X56UsbBackend.apply_transfer 0x0200 apply_packet_bytes)) with (Some pipe_error)
    in Hlatch.
  change (s_usb colour_stalls joystick
            (X56UsbBackend.rgb_transfer 0x0200 [9; 0; 3; 255; 0; 0])) with (Some pipe_error)
    in Hcolour.
  change (s_usb latch_breaks joystick
            (X56UsbBackend.rgb_transfer 0x0200 [9; 0; 3; 255; 0; 0])) with (@None usb_error)
    in Hbreaks.
  change (s_usb latch_breaks joystick
            (X56UsbBackend.apply_transfer 0x0200 apply_packet_bytes))
    with (Some (Build_usb_error (Some 5) "  [Errno 5] Input/Output Error ")) in Hbreaks.
  destruct Hlatch as [Hpass _]. destruct Hcolour as [Hcolour _].
  destruct Hbreaks as [_ Hbreaks].
  split; [apply Hpass; left; reflexivity|]. split; [exact Hcolour|].
  apply Hbreaks; [discriminate|reflexivity].
Defined.

Lemma set_rgb_many_fails_before_device_io_witness :
  exists e st',
    @X56UsbBackend.set_rgb_many scripted_host [0] 256 0 0 None None (backend_on throttle_fails)
    = (Raise e, st') /\
    @world scripted_host (snd st') = throttle_fails /\
    exists evs,
      @trace scripted_host (snd st') = ([] ++ evs)%list /\
      Forall (fun ev => is_device_event ev = false) evs.
Proof.
  apply (@set_rgb_many_fails_before_device_io scripted_host [0] 256 0 0 None None
           (backend_on throttle_fails)).
  left. unfold in_byte_range. lia.
Defined.

Lemma zero_selects_every_device_witness :
  fst (@X56UsbBackend.set_rgb_many scripted_host [7; 0; 3] 255 0 0 None None
         (backend_on throttle_fails))
  = Ok (1, ["Device 2 (X-56 Throttle): USB transfer failed ([Errno 5] Input/Output Error)."]) /\
  omap event_device
    (@trace scripted_host
       (snd (snd (@X56UsbBackend.set_rgb_many scripted_host [7; 0; 3] 255 0 0 None None
                    (backend_on throttle_fails)))))
  = (repeat joystick 9 ++ repeat throttle 26)%list.
Proof.
  assert (0 ∈ [7; 0; 3]) as Hin
    by (apply elem_of_cons; right; apply elem_of_cons; left; reflexivity).
  destruct (@zero_selects_every_device scripted_host [7; 0; 3] 255 0 0 None None
              (backend_on throttle_fails)
              (snd (@X56UsbBackend.ensure_entries scripted_host (backend_on throttle_fails)))
              Hin)
    as (_ & Hcall & _).
  - unfold in_byte_range; lia.
  - unfold in_byte_range; lia.
  - unfold in_byte_range; lia.
  - vm_compute. reflexivity.
  - vm_compute. discriminate.
  - rewrite Hcall. split; vm_compute; reflexivity.
Defined.


(** * Part III: further properties of the code *)


(** ** protocol.py *)

(** X1.  In range, the colour packet is 64 bytes long: the report id, a zero,
    the command 3, the three channels, then zeros; out of range the
    bytearray store raises ValueError. *)
Theorem build_rgb_packet_layout r g b :
  (in_byte_range r /\ in_byte_range g /\ in_byte_range b ->
   exists packet,
     build_rgb_packet r g b = Ok packet /\
     length packet = 64%nat /\
     take 6 packet = [0x09; 0x00; 0x03; r; g; b] /\
     Forall (fun byte => byte = 0) (drop 6 packet)) /\
  (~ (in_byte_range r /\ in_byte_range g /\ in_byte_range b) ->
   build_rgb_packet r g b = Raise ValueError).
Proof.
  split.
  - intros (Hr & Hg & Hb). eexists. split; [apply build_rgb_packet_ok; assumption|].
    split; [reflexivity|]. split; [reflexivity|].
    simpl. repeat constructor.
  - intros Hbad. unfold in_byte_range in Hbad.
    unfold build_rgb_packet, bytearray_set. cbn [rbind negb andb Z.leb Z.ltb Z.compare].
    simpl.
    destruct (Z.leb_spec 0 r); destruct (Z.ltb_spec r 256); try reflexivity.
    destruct (Z.leb_spec 0 g); destruct (Z.ltb_spec g 256); try reflexivity.
    destruct (Z.leb_spec 0 b); destruct (Z.ltb_spec b 256); try reflexivity.
    exfalso. apply Hbad. lia.
Qed.

Lemma build_apply_packet_layout :
  build_apply_packet = Ok ([0x01; 0x01] ++ repeat 0 62)%list.
Proof. reflexivity. Qed.

(** ** effects.py *)

Lemma clamp_speed_low speed : speed <= 1 -> py_max 1 (py_min 20 speed) = 1.
Proof.
  intros Hs. unfold py_max, py_min.
  destruct (Z.ltb_spec speed 20); [|lia].
  destruct (Z.ltb_spec 1 speed); lia.
Qed.

Lemma clamp_speed_high speed : 20 <= speed -> py_max 1 (py_min 20 speed) = 20.
Proof.
  intros Hs. unfold py_max, py_min.
  destruct (Z.ltb_spec speed 20); [lia|]. reflexivity.
Qed.

(** X2.  The speed of a phase step saturates at 1 and at 20; in between the
    step is 0.02 times the speed. *)
Theorem next_phase_clamps_speed phase speed :
  (speed <= 1 -> next_phase phase speed = next_phase phase 1) /\
  (20 <= speed -> next_phase phase speed = next_phase phase 20) /\
  (1 <= speed <= 20 ->
   next_phase phase speed = fadd phase (fmul (float_lit 2 100) (float_of_Z_round speed))).
Proof.
  unfold next_phase. repeat split.
  - intros Hs. rewrite (clamp_speed_low speed Hs). reflexivity.
  - intros Hs. rewrite (clamp_speed_high speed Hs). reflexivity.
  - intros Hs. f_equal. f_equal. f_equal. unfold py_max, py_min.
    destruct (Z.ltb_spec speed 20).
    + destruct (Z.ltb_spec 1 speed); lia.
    + assert (speed = 20) by lia. subst. reflexivity.
Qed.

Lemma effects_clamp_in_range v : in_byte_range (effects._clamp_rgb v).
Proof. apply clamp_in_byte_range. Qed.

(** X3.  Any mode but rainbow returns the base colour untouched.  The rainbow
    returns channels in 0..255, or raises; a phase that is not a finite
    number raises ValueError. *)
Theorem compute_effect_color_range mode base_rgb phase brightness :
  (mode <> EFFECT_RAINBOW ->
   compute_effect_color mode base_rgb phase brightness = Ok base_rgb) /\
  (mode = EFFECT_RAINBOW ->
   match compute_effect_color mode base_rgb phase brightness with
   | Ok out => rgb_in_range out
   | Raise e => e = ValueError \/ e = OverflowError \/ e = TypeError
   end) /\
  (mode = EFFECT_RAINBOW ->
   phase = S754_nan \/ (exists s, phase = S754_infinity s) ->
   compute_effect_color mode base_rgb phase brightness = Raise ValueError).
Proof.
  repeat split.
  - intros Hmode. unfold compute_effect_color.
    apply String.eqb_neq in Hmode. rewrite Hmode. reflexivity.
  - intros ->. unfold compute_effect_color. cbn [String.eqb Ascii.eqb Bool.eqb EFFECT_RAINBOW].
    change (("rainbow" =? "rainbow")%string) with true. cbv iota.
    destruct (hsv_to_rgb _ _ _) as [[[red green] blue]|e] eqn:Hhsv; cbn [rbind].
    + destruct (float_round (fmul red _)) as [r|e] eqn:Hr; cbn [rbind].
      2: { unfold float_round in Hr. destruct (fmul red _); inversion Hr; auto. }
      destruct (float_round (fmul green _)) as [g|e] eqn:Hg; cbn [rbind].
      2: { unfold float_round in Hg. destruct (fmul green _); inversion Hg; auto. }
      destruct (float_round (fmul blue _)) as [b|e] eqn:Hb; cbn [rbind].
      2: { unfold float_round in Hb. destruct (fmul blue _); inversion Hb; auto. }
      unfold rgb_in_range. cbn [fst snd]. auto using effects_clamp_in_range.
    + unfold hsv_to_rgb in Hhsv.
      destruct (feqb _ _); [discriminate|].
      destruct (float_trunc _) as [i|e'] eqn:Ht; cbn [rbind] in Hhsv.
      2: { inversion Hhsv; subst. unfold float_trunc in Ht.
           destruct (fmul _ _); inversion Ht; auto. }
      destruct (float_of_Z i) as [fi|e'] eqn:Hfi; cbn [rbind] in Hhsv.
      2: { inversion Hhsv; subst. unfold float_of_Z in Hfi.
           destruct (float_of_Z_round i); inversion Hfi; auto. }
      repeat (destruct (_ =? _); [discriminate|]).
      inversion Hhsv. auto.
  - intros -> Hphase. destruct Hphase as [->|[s ->]].
    + vm_compute. reflexivity.
    + destruct s; vm_compute; reflexivity.
Qed.


(** ** calibration.py: offsets *)

(** X4.  [with_offset] sets the offset of the one palette name: [offset_for]
    returns it for that name and what it returned before for every
    other name, and the order is kept. *)
Theorem with_offset_then_offset_for (c : ColorCalibration.t) target_name offset other :
  ColorCalibration.offset_for (ColorCalibration.with_offset c target_name offset) target_name
  = offset /\
  (other <> target_name ->
   ColorCalibration.offset_for (ColorCalibration.with_offset c target_name offset) other
   = ColorCalibration.offset_for c other) /\
  ColorCalibration.order (ColorCalibration.with_offset c target_name offset)
  = ColorCalibration.order c.
Proof.
  unfold ColorCalibration.offset_for, ColorCalibration.with_offset, dict_get_default.
  cbn [ColorCalibration.offsets_or_empty ColorCalibration.target_offsets ColorCalibration.order].
  repeat split.
  - rewrite dict_get_set_eq. reflexivity.
  - intros Hne. rewrite dict_get_set_ne by congruence. reflexivity.
Qed.

(** X5.  With an explicit target that has an offset, [apply] clamps whatever the
    input is. *)
Theorem apply_with_explicit_target (c : ColorCalibration.t) r g b target_name offset :
  target_name <> "" ->
  dict_get target_name (ColorCalibration.offsets_or_empty c) = Some offset ->
  ColorCalibration.apply c r g b (Some target_name)
  = Ok (py_max 0 (py_min 255 (r + ColorOffset.red offset)),
        py_max 0 (py_min 255 (g + ColorOffset.green offset)),
        py_max 0 (py_min 255 (b + ColorOffset.blue offset))) /\
  exists out, ColorCalibration.apply c r g b (Some target_name) = Ok out /\ rgb_in_range out.
Proof.
  intros Hname Hget.
  assert (ColorCalibration.apply c r g b (Some target_name)
          = Ok (py_max 0 (py_min 255 (r + ColorOffset.red offset)),
                py_max 0 (py_min 255 (g + ColorOffset.green offset)),
                py_max 0 (py_min 255 (b + ColorOffset.blue offset)))) as Happly.
  { unfold ColorCalibration.apply.
    destruct (ColorCalibration.offsets_or_empty c) as [|kv offsets] eqn:Hoff;
      [discriminate|].
    destruct target_name as [|ch rest]; [congruence|].
    cbn [rbind]. rewrite Hget. reflexivity. }
  split; [exact Happly|]. eexists. split; [exact Happly|].
  unfold rgb_in_range. cbn [fst snd]. auto using clamp_in_byte_range.
Qed.

Section Parse.
Context `{Builtins}.

Lemma to_int_raises value default :
  match _to_int value default with
  | Ok _ => True
  | Raise e => e = OverflowError
  end.
Proof.
  unfold _to_int, py_int.
  destruct value as [| b | z | f | s | l | d]; try exact I.
  - destruct f as [s|s| |s m e]; simpl; auto.
  - destruct (int_of_str s); exact I.
Qed.

Lemma color_offset_from_json_raises data :
  match ColorOffset.from_json data with
  | Ok _ => True
  | Raise e => e = OverflowError
  end.
Proof.
  unfold ColorOffset.from_json.
  pose proof (to_int_raises (dict_get_default "red" (PInt 0) data) 0) as Hr.
  destruct (_to_int (dict_get_default "red" (PInt 0) data) 0); [|exact Hr]. cbn [rbind].
  pose proof (to_int_raises (dict_get_default "green" (PInt 0) data) 0) as Hg.
  destruct (_to_int (dict_get_default "green" (PInt 0) data) 0); [|exact Hg]. cbn [rbind].
  pose proof (to_int_raises (dict_get_default "blue" (PInt 0) data) 0) as Hb.
  destruct (_to_int (dict_get_default "blue" (PInt 0) data) 0); [|exact Hb]. exact I.
Qed.

Lemma parse_offsets_loop_keys items : forall parsed,
  NoDup (dict_keys parsed) ->
  Forall (fun kv => fst kv ∈ dict_keys CALIBRATION_COLORS) parsed ->
  match _parse_offsets_loop items parsed with
  | Ok offsets =>
      NoDup (dict_keys offsets) /\
      Forall (fun kv => fst kv ∈ dict_keys CALIBRATION_COLORS) offsets
  | Raise e => e = OverflowError
  end.
Proof.
  induction items as [|[key value] rest IH]; intros parsed Hnd Hkeys; [simpl; auto|].
  cbn [_parse_offsets_loop].
  destruct value; try (apply IH; assumption).
  destruct (dict_mem key CALIBRATION_COLORS) eqn:Hmem; [|apply IH; assumption].
  pose proof (color_offset_from_json_raises d) as Hoff.
  destruct (ColorOffset.from_json d) as [offset|e]; [|exact Hoff]. cbn [rbind].
  apply IH.
  - apply dict_set_NoDup. exact Hnd.
  - apply dict_mem_true in Hmem. clear -Hkeys Hmem.
    induction parsed as [|[k v] parsed IHp]; simpl.
    + constructor; [exact Hmem|constructor].
    + inversion Hkeys; subst. destruct (decide (key = k)); constructor; auto.
Qed.

(** Whatever the persisted value, the parsed offsets are keyed by
    distinct palette names. *)
Lemma parse_offsets_keeps_palette_keys (raw : pyobj) :
  match _parse_offsets raw with
  | Ok offsets =>
      NoDup (dict_keys offsets) /\
      Forall (fun kv => fst kv ∈ dict_keys CALIBRATION_COLORS) offsets
  | Raise e => e = OverflowError
  end.
Proof.
  unfold _parse_offsets.
  destruct raw; try (split; constructor).
  apply parse_offsets_loop_keys; constructor.
Qed.

(** X6.  What [from_json] returns is well formed except that the order need
    not be a permutation. *)
Theorem from_json_result_shape (data : list (string * pyobj)) (c : ColorCalibration.t) :
  ColorCalibration.from_json data = Ok c ->
  (let '(o0, o1, o2) := ColorCalibration.order c in
   o0 ∈ CHANNELS /\ o1 ∈ CHANNELS /\ o2 ∈ CHANNELS) /\
  exists offsets,
    ColorCalibration.target_offsets c = Some offsets /\
    NoDup (dict_keys offsets) /\
    Forall (fun kv => fst kv ∈ dict_keys CALIBRATION_COLORS) offsets.
Proof.
  unfold ColorCalibration.from_json.
  set (order := match dict_get_default "order" _ data with PList _ => _ | _ => _ end).
  assert (let '(o0, o1, o2) := order in
          o0 ∈ CHANNELS /\ o1 ∈ CHANNELS /\ o2 ∈ CHANNELS) as Horder.
  { subst order.
    assert ("R" ∈ CHANNELS /\ "G" ∈ CHANNELS /\ "B" ∈ CHANNELS) as Hrgb
      by (unfold CHANNELS; repeat split; set_solver).
    destruct (dict_get_default "order" _ data) as [| | | | |l|]; try exact Hrgb.
    destruct l as [|x0 [|x1 [|x2 [|x3 l]]]]; try exact Hrgb.
    destruct (existsb _ _) eqn:Hex; [exact Hrgb|].
    cbn [map existsb] in Hex.
    apply orb_false_elim in Hex as [H0 Hex]. apply orb_false_elim in Hex as [H1 Hex].
    apply orb_false_elim in Hex as [H2 _].
    apply negb_false_iff in H0, H1, H2.
    apply bool_decide_eq_true in H0, H1, H2. auto. }
  clearbody order.
  destruct (py_float (dict_get_default "gain_r" _ data)) as [gr|e]; [|discriminate].
  destruct (py_float (dict_get_default "gain_g" _ data)) as [gg|e]; [|discriminate].
  destruct (py_float (dict_get_default "gain_b" _ data)) as [gb|e]; [|discriminate].
  cbn [rbind].
  pose proof (parse_offsets_keeps_palette_keys (dict_get_default "target_offsets" PNone data))
    as Hoffsets.
  destruct (_parse_offsets _) as [offsets|e]; [|discriminate]. cbn [rbind].
  intros Hc. inversion Hc; subst c. cbn [ColorCalibration.order ColorCalibration.target_offsets].
  split; [exact Horder|]. exists offsets. split; [reflexivity|exact Hoffsets].
Qed.

(** X7.  A calibration without offsets ([target_offsets] is [None], the
    default) parses back with the empty dictionary in their place. *)
Theorem calibration_without_offsets_roundtrip (c : ColorCalibration.t) :
  (let '(o0, o1, o2) := ColorCalibration.order c in [o0; o1; o2] ≡ₚ CHANNELS) ->
  ColorCalibration.target_offsets c = None ->
  ColorCalibration.from_json (ColorCalibration.to_json c)
  = Ok (ColorCalibration.mk (ColorCalibration.order c) (ColorCalibration.gain_r c)
          (ColorCalibration.gain_g c) (ColorCalibration.gain_b c) (Some [])).
Proof.
  destruct c as [[[o0 o1] o2] gr gg gb offs]. intros Horder Hoffs.
  cbn [ColorCalibration.order ColorCalibration.target_offsets ColorCalibration.gain_r
       ColorCalibration.gain_g ColorCalibration.gain_b] in *. subst offs.
  assert (o0 ∈ CHANNELS /\ o1 ∈ CHANNELS /\ o2 ∈ CHANNELS) as (H0 & H1 & H2).
  { repeat split; rewrite <- Horder; set_solver. }
  apply channel_upper in H0 as [Hu0 Hm0], H1 as [Hu1 Hm1], H2 as [Hu2 Hm2].
  unfold ColorCalibration.from_json, ColorCalibration.to_json.
  cbn [ColorCalibration.order ColorCalibration.gain_r ColorCalibration.gain_g
       ColorCalibration.gain_b ColorCalibration.offsets_or_empty
       ColorCalibration.target_offsets map].
  change (dict_get_default "order" _ _) with (PList [PStr o0; PStr o1; PStr o2]).
  change (dict_get_default "gain_r" _ _) with (PFloat gr).
  change (dict_get_default "gain_g" _ _) with (PFloat gg).
  change (dict_get_default "gain_b" _ _) with (PFloat gb).
  change (dict_get_default "target_offsets" _ _) with (PDict []).
  cbn [py_float rbind map py_str existsb]. rewrite Hu0, Hu1, Hu2, Hm0, Hm1, Hm2.
  reflexivity.
Qed.
End Parse.


(** ** Strings *)

Lemma length_append (s t : string) :
  String.length (s ++ t) = (String.length s + String.length t)%nat.
Proof. induction s as [|c s IH]; simpl; [reflexivity|]. rewrite IH. reflexivity. Qed.

Lemma append_nonempty_ne (s : string) c t : s <> (s ++ String c t)%string.
Proof.
  intros Heq. apply (f_equal String.length) in Heq.
  rewrite length_append in Heq. simpl in Heq. lia.
Qed.

Lemma legacy_key_differs (device : DeviceInfo.t) :
  CalibrationStore.key_for_device device <> CalibrationStore._legacy_key_for_device device.
Proof.
  unfold CalibrationStore.key_for_device, CalibrationStore._legacy_key_for_device.
  apply append_nonempty_ne.
Qed.

Section StoreMore.
Context `{Host}.

Lemma dict_mem_get {V} (k : string) (d : list (string * V)) :
  dict_mem k d = false <-> dict_get k d = None.
Proof. unfold dict_mem. destruct (dict_get k d); split; congruence. Qed.

(** X8.  Storing a calibration puts it under the plain key and removes the
    legacy entry of the device. *)
Theorem set_for_device_drops_legacy (device : DeviceInfo.t)
    (calibration : ColorCalibration.t) (store : CalibrationStore.t) (e : env) :
  NoDup (dict_keys (CalibrationStore._profiles store)) ->
  (forall doc, fst (fs_write_json (CalibrationStore._path store) doc (world e)) = true) ->
  let after := CalibrationStore.set_for_device device calibration (store, e) in
  fst after = Ok tt /\
  dict_get (CalibrationStore.key_for_device device)
    (CalibrationStore._profiles (fst (snd after))) = Some calibration /\
  dict_get (CalibrationStore._legacy_key_for_device device)
    (CalibrationStore._profiles (fst (snd after))) = None /\
  CalibrationStore.get_for_device device (snd after) = (Ok (Some calibration), snd after).
Proof.
  intros Hnd Hwrite after.
  pose proof (legacy_key_differs device) as Hne.
  set (key := CalibrationStore.key_for_device device) in *.
  set (legacy_key := CalibrationStore._legacy_key_for_device device) in *.
  set (profiles := if dict_mem legacy_key (dict_set key calibration (CalibrationStore._profiles store))
                   then dict_del legacy_key (dict_set key calibration (CalibrationStore._profiles store))
                   else dict_set key calibration (CalibrationStore._profiles store)).
  assert (after = (Ok tt, (CalibrationStore.mk (CalibrationStore._path store) profiles,
                           snd (snd after)))) as Hafter.
  { unfold after, CalibrationStore.set_for_device, bind, get_self. cbn [fst snd].
    fold key legacy_key. fold profiles.
    unfold CalibrationStore.set_profiles, CalibrationStore._save, bind, get_self, set_self,
      host_write_json.
    cbn [fst snd CalibrationStore._path CalibrationStore._profiles].
    rewrite Hwrite. reflexivity. }
  assert (dict_get key profiles = Some calibration) as Hkey.
  { unfold profiles. destruct (dict_mem legacy_key _).
    - rewrite dict_get_del_ne by congruence. apply dict_get_set_eq.
    - apply dict_get_set_eq. }
  assert (dict_get legacy_key profiles = None) as Hlegacy.
  { unfold profiles. destruct (dict_mem legacy_key _) eqn:Hmem.
    - apply dict_get_del_eq. apply dict_set_NoDup. exact Hnd.
    - apply dict_mem_get. exact Hmem. }
  rewrite Hafter. cbn [fst snd CalibrationStore._profiles].
  repeat split; auto.
  unfold CalibrationStore.get_for_device, bind, get_self, ret.
  cbn [fst snd CalibrationStore._profiles]. fold key. rewrite Hkey. reflexivity.
Qed.

(** X9.  Resetting a device removes its plain and its legacy entry and leaves
    the other entries alone; with neither entry nothing is written. *)
Theorem reset_for_device_forgets (device : DeviceInfo.t) (store : CalibrationStore.t)
    (e : env) :
  NoDup (dict_keys (CalibrationStore._profiles store)) ->
  (forall doc, fst (fs_write_json (CalibrationStore._path store) doc (world e)) = true) ->
  let key := CalibrationStore.key_for_device device in
  let legacy_key := CalibrationStore._legacy_key_for_device device in
  let after := CalibrationStore.reset_for_device device (store, e) in
  fst after = Ok tt /\
  dict_get key (CalibrationStore._profiles (fst (snd after))) = None /\
  dict_get legacy_key (CalibrationStore._profiles (fst (snd after))) = None /\
  (forall other, other <> key -> other <> legacy_key ->
     dict_get other (CalibrationStore._profiles (fst (snd after)))
     = dict_get other (CalibrationStore._profiles store)) /\
  CalibrationStore.get_for_device device (snd after) = (Ok None, snd after) /\
  (dict_get key (CalibrationStore._profiles store) = None ->
   dict_get legacy_key (CalibrationStore._profiles store) = None ->
   after = (Ok tt, (store, e))).
Proof.
  intros Hnd Hwrite key legacy_key after.
  pose proof (legacy_key_differs device) as Hne. fold key legacy_key in Hne.
  destruct store as [path profiles]. cbn [CalibrationStore._profiles CalibrationStore._path] in *.
  set (p1 := if dict_mem key profiles then dict_del key profiles else profiles).
  set (p2 := if dict_mem legacy_key p1 then dict_del legacy_key p1 else p1).
  assert (NoDup (dict_keys p1)) as Hnd1
    by (unfold p1; destruct (dict_mem key profiles); auto using dict_del_NoDup).
  assert (dict_get key p1 = None) as Hk1.
  { unfold p1. destruct (dict_mem key profiles) eqn:Hmem.
    - apply dict_get_del_eq. exact Hnd.
    - apply dict_mem_get. exact Hmem. }
  assert (dict_get key p2 = None) as Hk2.
  { unfold p2. destruct (dict_mem legacy_key p1); [|exact Hk1].
    rewrite dict_get_del_ne by congruence. exact Hk1. }
  assert (dict_get legacy_key p2 = None) as Hl2.
  { unfold p2. destruct (dict_mem legacy_key p1) eqn:Hmem.
    - apply dict_get_del_eq. exact Hnd1.
    - apply dict_mem_get. exact Hmem. }
  assert (forall other, other <> key -> other <> legacy_key ->
            dict_get other p2 = dict_get other profiles) as Hother.
  { intros other Hok Hol. unfold p2, p1.
    destruct (dict_mem key profiles); destruct (dict_mem legacy_key _);
      rewrite ?dict_get_del_ne by congruence; reflexivity. }
  assert (fst after = Ok tt /\ CalibrationStore._profiles (fst (snd after)) = p2 /\
          (dict_get key profiles = None -> dict_get legacy_key profiles = None ->
           after = (Ok tt, (CalibrationStore.mk path profiles, e)))) as (Hok & Hp & Hnone).
  { unfold after, CalibrationStore.reset_for_device, bind, get_self.
    cbn [fst snd CalibrationStore._profiles]. fold key legacy_key.
    unfold p2, p1.
    destruct (dict_mem key profiles) eqn:Hm1.
    - destruct (dict_mem legacy_key (dict_del key profiles)) eqn:Hm2;
        unfold CalibrationStore.set_profiles, CalibrationStore._save, bind, get_self,
          set_self, host_write_json;
        cbn [fst snd CalibrationStore._path CalibrationStore._profiles];
        rewrite Hwrite; (split; [reflexivity|]); (split; [reflexivity|]);
        intros Hk; apply dict_mem_get in Hk; congruence.
    - destruct (dict_mem legacy_key profiles) eqn:Hm2;
        unfold CalibrationStore.set_profiles, CalibrationStore._save, bind, get_self,
          set_self, host_write_json, ret;
        cbn [fst snd CalibrationStore._path CalibrationStore._profiles].
      + rewrite Hwrite. split; [reflexivity|]. split; [reflexivity|].
        intros _ Hl. apply dict_mem_get in Hl. congruence.
      + split; [reflexivity|]. split; [reflexivity|]. reflexivity. }
  rewrite Hp. repeat split; auto.
  unfold CalibrationStore.get_for_device, bind, get_self, ret. cbn [fst snd].
  fold key legacy_key. rewrite Hp, Hk2, Hl2. reflexivity.
Qed.

(** X10.  A lookup that finds the plain key, or neither key, changes nothing
    and writes nothing. *)
Theorem get_for_device_without_legacy (device : DeviceInfo.t) (store : CalibrationStore.t)
    (e : env) :
  dict_get (CalibrationStore._legacy_key_for_device device)
    (CalibrationStore._profiles store) = None \/
  dict_get (CalibrationStore.key_for_device device)
    (CalibrationStore._profiles store) <> None ->
  CalibrationStore.get_for_device device (store, e)
  = (Ok (dict_get (CalibrationStore.key_for_device device)
           (CalibrationStore._profiles store)),
     (store, e)).
Proof.
  intros Hcase. unfold CalibrationStore.get_for_device, bind, get_self, ret.
  cbn [fst snd].
  destruct (dict_get (CalibrationStore.key_for_device device) _) as [direct|] eqn:Hkey;
    [reflexivity|].
  destruct Hcase as [Hlegacy|Hsome]; [|congruence]. rewrite Hlegacy. reflexivity.
Qed.
End StoreMore.

Section Persist.
Context `{Host} `{Builtins}.

Lemma valid_calibration_parses_back (c : ColorCalibration.t) :
  valid_calibration c ->
  ColorCalibration.from_json (ColorCalibration.to_json c) = Ok c.
Proof.
  destruct c as [[[o0 o1] o2] gr gg gb offs]. intros [Horder (offsets & Hoffs & Hnd & Hkeys)].
  cbn [ColorCalibration.order ColorCalibration.target_offsets] in Horder, Hoffs. subst offs.
  assert (o0 ∈ CHANNELS /\ o1 ∈ CHANNELS /\ o2 ∈ CHANNELS) as (Hc0 & Hc1 & Hc2).
  { repeat split; rewrite <- Horder; set_solver. }
  apply channel_upper in Hc0 as [Hu0 Hm0], Hc1 as [Hu1 Hm1], Hc2 as [Hu2 Hm2].
  unfold ColorCalibration.from_json, ColorCalibration.to_json.
  cbn [ColorCalibration.order ColorCalibration.gain_r ColorCalibration.gain_g
       ColorCalibration.gain_b ColorCalibration.offsets_or_empty
       ColorCalibration.target_offsets].
  change (dict_get_default "order" _ _) with (PList [PStr o0; PStr o1; PStr o2]).
  change (dict_get_default "gain_r" _ _) with (PFloat gr).
  change (dict_get_default "gain_g" _ _) with (PFloat gg).
  change (dict_get_default "gain_b" _ _) with (PFloat gb).
  change (dict_get_default "target_offsets" _ _)
    with (PDict (map (fun kv => (fst kv, PDict (ColorOffset.to_json (snd kv)))) offsets)).
  cbn [py_float rbind map py_str existsb]. rewrite Hu0, Hu1, Hu2, Hm0, Hm1, Hm2.
  cbn [negb orb]. unfold _parse_offsets.
  rewrite (parse_offsets_loop_roundtrip offsets []); [reflexivity| |exact Hkeys].
  simpl. exact Hnd.
Qed.

Lemma calibration_load_loop_roundtrip (profiles : list (string * ColorCalibration.t)) :
  forall loaded,
    NoDup (dict_keys loaded ++ dict_keys profiles) ->
    Forall (fun kv => valid_calibration (snd kv)) profiles ->
    CalibrationStore._load_loop
      (map (fun kv => (fst kv, PDict (ColorCalibration.to_json (snd kv)))) profiles) loaded
    = Ok (loaded ++ profiles)%list.
Proof.
  induction profiles as [|[k c] rest IH]; intros loaded Hnd Hvalid.
  - simpl. rewrite app_nil_r. reflexivity.
  - inversion Hvalid as [|? ? Hc Hrest]; subst. cbn [fst snd] in Hc.
    cbn [map CalibrationStore._load_loop fst snd].
    rewrite (valid_calibration_parses_back c Hc). cbn [rbind].
    assert (k ∉ dict_keys loaded) as Hfresh.
    { apply NoDup_app in Hnd as (_ & Hdisj & _). intros Hin.
      apply (Hdisj k Hin). simpl. left. }
    rewrite (dict_set_fresh k c loaded Hfresh).
    rewrite IH.
    + rewrite <- app_assoc. reflexivity.
    + unfold dict_keys in *. rewrite map_app. simpl in *.
      rewrite <- app_assoc. exact Hnd.
    + exact Hrest.
Qed.

(** X11.  What [_save] wrote, a new store loads back: on a file system that
    returns what was written, constructing a store for the same path
    after a successful save gives the same profiles. *)
Theorem saved_calibrations_load_back (store : CalibrationStore.t) (e : env) :
  NoDup (dict_keys (CalibrationStore._profiles store)) ->
  Forall (fun kv => valid_calibration (snd kv)) (CalibrationStore._profiles store) ->
  (forall doc w',
     fs_write_json (CalibrationStore._path store) doc (world e) = (true, w') ->
     fs_read_json (CalibrationStore._path store) w' = FileDoc doc) ->
  fst (CalibrationStore._save (store, e)) = Ok tt ->
  let e' := snd (snd (CalibrationStore._save (store, e))) in
  CalibrationStore.__init__ (CalibrationStore._path store) (tt, e') = (Ok store, (tt, e')).
Proof.
  intros Hnd Hvalid Hlaw Hsaved e'.
  destruct store as [path profiles]. cbn [CalibrationStore._profiles CalibrationStore._path] in *.
  unfold CalibrationStore._save, bind, get_self, host_write_json in Hsaved, e'.
  cbn [fst snd CalibrationStore._path CalibrationStore._profiles] in Hsaved, e'.
  set (payload := PDict [("profiles", PDict (map _ profiles))]) in *.
  destruct (fs_write_json path payload (world e)) as [ok w'] eqn:Hwrite.
  cbn [fst snd] in Hsaved, e'. destruct ok; [|discriminate].
  cbn [fst snd] in e'.
  specialize (Hlaw payload w' Hwrite).
  unfold CalibrationStore.__init__, CalibrationStore._load, try_except, bind, get_self,
    host_read_json.
  cbn [fst snd CalibrationStore._path]. subst e'. cbn [world]. rewrite Hlaw.
  subst payload. cbv beta iota.
  change (dict_get_default "profiles" (PDict []) [("profiles", ?x)]) with x.
  cbv beta iota. unfold lift_res.
  rewrite (calibration_load_loop_roundtrip profiles [] Hnd Hvalid).
  reflexivity.
Qed.

Lemma py_float_raises value :
  match py_float value with
  | Ok _ => True
  | Raise e => e = TypeError \/ e = ValueError \/ e = OverflowError
  end.
Proof.
  destruct value as [| b | z | f | s | l | d]; cbn; auto.
  - unfold float_of_Z. destruct (float_of_Z_round z); auto.
  - destruct (float_of_str s); auto.
Qed.

Lemma calibration_from_json_raises data :
  match ColorCalibration.from_json data with
  | Ok _ => True
  | Raise e => e = TypeError \/ e = ValueError \/ e = OverflowError
  end.
Proof.
  unfold ColorCalibration.from_json. cbv zeta.
  pose proof (py_float_raises (dict_get_default "gain_r" (PFloat (float_of_Z_round 1)) data))
    as Hr.
  destruct (py_float (dict_get_default "gain_r" _ data)); [|exact Hr]. cbn [rbind].
  pose proof (py_float_raises (dict_get_default "gain_g" (PFloat (float_of_Z_round 1)) data))
    as Hg.
  destruct (py_float (dict_get_default "gain_g" _ data)); [|exact Hg]. cbn [rbind].
  pose proof (py_float_raises (dict_get_default "gain_b" (PFloat (float_of_Z_round 1)) data))
    as Hb.
  destruct (py_float (dict_get_default "gain_b" _ data)); [|exact Hb]. cbn [rbind].
  pose proof (parse_offsets_keeps_palette_keys (dict_get_default "target_offsets" PNone data))
    as Ho.
  destruct (_parse_offsets _); [exact I|]. cbn [rbind]. auto.
Qed.

Lemma calibration_load_loop_raises items : forall loaded,
  match CalibrationStore._load_loop items loaded with
  | Ok _ => True
  | Raise e => e = TypeError \/ e = ValueError \/ e = OverflowError
  end.
Proof.
  induction items as [|[key value] rest IH]; intros loaded; [exact I|].
  cbn [CalibrationStore._load_loop]. destruct value; try apply IH.
  pose proof (calibration_from_json_raises d) as Hd.
  destruct (ColorCalibration.from_json d); [apply IH|exact Hd].
Qed.

(** X12.  What [_load] does, by what the file holds.  A file that cannot
    be read or is not JSON empties the profiles; a missing file, a
    document that is no dictionary, or a [profiles] entry that is no
    dictionary leaves the store as it is.  A dictionary of profiles
    replaces the profiles when every profile parses, empties them when
    parsing raises ValueError, and otherwise [_load] raises: the
    TypeError or OverflowError of a stored number is not caught, and the
    store is left as it was. *)
Theorem load_raises_on_bad_numbers (store : CalibrationStore.t) (e : env) :
  let run := CalibrationStore._load (store, e) in
  let unchanged := (Ok tt, (store, e)) in
  let emptied := (Ok tt, (CalibrationStore.mk (CalibrationStore._path store) [], e)) in
  match fs_read_json (CalibrationStore._path store) (world e) with
  | FileUnreadable | FileInvalid => run = emptied
  | FileMissing => run = unchanged
  | FileDoc (PDict raw) =>
      match dict_get_default "profiles" (PDict []) raw with
      | PDict profiles_raw =>
          match CalibrationStore._load_loop profiles_raw [] with
          | Ok loaded =>
              run = (Ok tt, (CalibrationStore.mk (CalibrationStore._path store) loaded, e))
          | Raise ValueError => run = emptied
          | Raise ex =>
              run = (Raise ex, (store, e)) /\ (ex = TypeError \/ ex = OverflowError)
          end
      | _ => run = unchanged
      end
  | FileDoc _ => run = unchanged
  end.
Proof.
  intros run unchanged emptied. subst run unchanged emptied.
  unfold CalibrationStore._load, try_except, bind, get_self, host_read_json.
  cbn [fst snd].
  destruct (fs_read_json (CalibrationStore._path store) (world e)) as [| | |doc];
    try reflexivity.
  destruct doc as [| | | | | |raw]; try reflexivity.
  destruct (dict_get_default "profiles" (PDict []) raw) as [| | | | | |profiles_raw];
    try reflexivity.
  unfold lift_res.
  pose proof (calibration_load_loop_raises profiles_raw []) as Hraises.
  destruct (CalibrationStore._load_loop profiles_raw []) as [loaded|ex]; [reflexivity|].
  destruct Hraises as [->|[->| ->]]; cbn; auto.
Qed.
End Persist.


(** ** profile_store.py *)

Lemma clamp_between lo hi x : lo <= hi -> lo <= py_max lo (py_min hi x) <= hi.
Proof.
  intros Hle. unfold py_max, py_min.
  destruct (Z.ltb_spec x hi).
  - destruct (Z.ltb_spec lo x); lia.
  - destruct (Z.ltb_spec lo hi); lia.
Qed.

Lemma clamp_inside lo hi x : lo <= x <= hi -> py_max lo (py_min hi x) = x.
Proof.
  intros Hx. unfold py_max, py_min.
  destruct (Z.ltb_spec x hi).
  - destruct (Z.ltb_spec lo x); lia.
  - assert (x = hi) by lia. subst. destruct (Z.ltb_spec lo hi); lia.
Qed.

Section Profiles.
Context `{Builtins}.

Lemma clamp_int_bounds value lo hi default :
  lo <= hi ->
  match profile_store._clamp_int value lo hi default with
  | Ok v => lo <= v <= hi
  | Raise e => e = OverflowError
  end.
Proof.
  intros Hle. unfold profile_store._clamp_int, py_int.
  destruct value as [| b | z | f | s | l | d]; cbn [rbind];
    try (apply clamp_between; exact Hle).
  - destruct f as [s|s| |s m e]; cbn [float_trunc rbind];
      first [apply clamp_between; exact Hle | reflexivity].
  - destruct (int_of_str s); cbn [rbind]; apply clamp_between; exact Hle.
Qed.

Lemma clamp_rgb_bounds value :
  match profile_store._clamp_rgb value with
  | Ok v => in_byte_range v
  | Raise e => e = OverflowError
  end.
Proof.
  unfold profile_store._clamp_rgb, py_int, in_byte_range.
  destruct value as [| b | z | f | s | l | d]; cbn [rbind];
    try (apply clamp_between; lia).
  - destruct f as [s|s| |s m e]; cbn [float_trunc rbind];
      first [apply clamp_between; lia | reflexivity].
  - destruct (int_of_str s); cbn [rbind]; apply clamp_between; lia.
Qed.

Lemma effect_mode_known value : profile_store._effect_mode value ∈ EFFECT_MODES.
Proof.
  unfold profile_store._effect_mode. destruct (bool_decide _) eqn:Hmode.
  - apply bool_decide_eq_true in Hmode. exact Hmode.
  - unfold EFFECT_MODES. left.
Qed.

(** X13.  Whatever the persisted dictionary, a parsed profile is within bounds;
    the only exception parsing can raise is OverflowError. *)
Theorem profile_from_json_in_bounds (data : list (string * pyobj)) :
  match DeviceDefaultProfile.from_json data with
  | Ok p => profile_in_bounds p
  | Raise e => e = OverflowError
  end.
Proof.
  unfold DeviceDefaultProfile.from_json.
  pose proof (clamp_rgb_bounds (dict_get_default "red" (PInt 255) data)) as Hr.
  destruct (profile_store._clamp_rgb (dict_get_default "red" (PInt 255) data));
    [|exact Hr]. cbn [rbind].
  pose proof (clamp_rgb_bounds (dict_get_default "green" (PInt 255) data)) as Hg.
  destruct (profile_store._clamp_rgb (dict_get_default "green" (PInt 255) data));
    [|exact Hg]. cbn [rbind].
  pose proof (clamp_rgb_bounds (dict_get_default "blue" (PInt 255) data)) as Hb.
  destruct (profile_store._clamp_rgb (dict_get_default "blue" (PInt 255) data));
    [|exact Hb]. cbn [rbind].
  pose proof (clamp_int_bounds (dict_get_default "effect_speed" (PInt 3) data) 1 20 3
                ltac:(lia)) as Hs.
  destruct (profile_store._clamp_int (dict_get_default "effect_speed" (PInt 3) data) 1 20 3);
    [|exact Hs]. cbn [rbind].
  pose proof (clamp_int_bounds (dict_get_default "effect_brightness" (PInt 100) data)
                5 100 100 ltac:(lia)) as Hbr.
  destruct (profile_store._clamp_int (dict_get_default "effect_brightness" (PInt 100) data)
              5 100 100); [|exact Hbr]. cbn [rbind].
  unfold profile_in_bounds.
  cbn [DeviceDefaultProfile.red DeviceDefaultProfile.green DeviceDefaultProfile.blue
       DeviceDefaultProfile.effect_speed DeviceDefaultProfile.effect_brightness
       DeviceDefaultProfile.effect_mode].
  unfold in_byte_range in *.
  split; [lia|]. split; [lia|]. split; [lia|]. split; [lia|]. split; [lia|].
  apply effect_mode_known.
Qed.

(** X14.  A profile within bounds parses back from its persisted form. *)
Theorem profile_json_roundtrip (p : DeviceDefaultProfile.t) :
  profile_in_bounds p ->
  DeviceDefaultProfile.from_json (DeviceDefaultProfile.to_json p) = Ok p.
Proof.
  destruct p as [enabled name red green blue effect_enabled mode speed brightness].
  unfold profile_in_bounds, in_byte_range.
  cbn [DeviceDefaultProfile.red DeviceDefaultProfile.green DeviceDefaultProfile.blue
       DeviceDefaultProfile.effect_speed DeviceDefaultProfile.effect_brightness
       DeviceDefaultProfile.effect_mode].
  intros (Hr & Hg & Hb & Hs & Hbr & Hmode).
  unfold DeviceDefaultProfile.from_json, DeviceDefaultProfile.to_json.
  cbn [DeviceDefaultProfile.red DeviceDefaultProfile.green DeviceDefaultProfile.blue
       DeviceDefaultProfile.effect_speed DeviceDefaultProfile.effect_brightness
       DeviceDefaultProfile.effect_mode DeviceDefaultProfile.enabled
       DeviceDefaultProfile.name DeviceDefaultProfile.effect_enabled].
  change (dict_get_default "enabled" _ _) with (PBool enabled).
  change (dict_get_default "name" _ _) with (PStr name).
  change (dict_get_default "red" _ _) with (PInt red).
  change (dict_get_default "green" _ _) with (PInt green).
  change (dict_get_default "blue" _ _) with (PInt blue).
  change (dict_get_default "effect_enabled" _ _) with (PBool effect_enabled).
  change (dict_get_default "effect_mode" _ _) with (PStr mode).
  change (dict_get_default "effect_speed" _ _) with (PInt speed).
  change (dict_get_default "effect_brightness" _ _) with (PInt brightness).
  unfold profile_store._clamp_rgb, profile_store._clamp_int.
  cbn [py_int py_bool py_str rbind].
  rewrite !clamp_inside by lia.
  assert (profile_store._effect_mode (PStr mode) = mode) as ->.
  { unfold profile_store._effect_mode. cbn [py_str].
    assert (lower mode = mode) as ->.
    { unfold EFFECT_MODES in Hmode.
      repeat (apply elem_of_cons in Hmode as [->|Hmode]; [reflexivity|]).
      apply elem_of_nil in Hmode. destruct Hmode. }
    rewrite bool_decide_eq_true_2 by exact Hmode. reflexivity. }
  reflexivity.
Qed.
End Profiles.

Section ProfileStoreFacts.
Context `{Host}.

(** X15.  [set] then [get] gives the profile back, also when the file cannot be
    written: the profile is replaced in memory before [_save] raises. *)
Theorem profile_set_then_get (product_id : Z) (profile : DeviceDefaultProfile.t)
    (store : ProfileStore.t) (e : env) :
  let after := ProfileStore.set product_id profile (store, e) in
  ProfileStore.get (fst (snd after)) product_id = profile /\
  (forall other, ProfileStore._key other <> ProfileStore._key product_id ->
     ProfileStore.get (fst (snd after)) other = ProfileStore.get store other) /\
  fst after
  = (if fst (fs_write_json (ProfileStore._path store)
               (PDict [("profiles",
                        PDict (map (fun kv => (fst kv, PDict (DeviceDefaultProfile.to_json (snd kv))))
                                 (dict_set (ProfileStore._key product_id) profile
                                    (ProfileStore._profiles store))))])
               (world e))
     then Ok tt else Raise OSError).
Proof.
  intros after.
  unfold after, ProfileStore.set, ProfileStore._save, bind, get_self, set_self,
    host_write_json.
  cbn [fst snd ProfileStore._path ProfileStore._profiles].
  destruct (fst (fs_write_json _ _ _)); cbn [fst snd];
    (split; [|split; [|reflexivity]]);
    unfold ProfileStore.get, dict_get_default; cbn [ProfileStore._profiles];
    try (rewrite dict_get_set_eq; reflexivity);
    intros other Hother; rewrite dict_get_set_ne by congruence; reflexivity.
Qed.
End ProfileStoreFacts.


(** ** Sorting *)

Section Sort.
Context {A : Type} (le : A -> A -> bool).
Hypothesis le_total : forall a b, le a b = true \/ le b a = true.

Lemma insert_sorted_perm x l : insert_sorted le x l ≡ₚ x :: l.
Proof using Type.
  induction l as [|y l IH]; simpl; [reflexivity|].
  destruct (le x y); [reflexivity|].
  rewrite IH. apply perm_swap.
Qed.

Lemma stable_sort_perm l : stable_sort le l ≡ₚ l.
Proof using Type.
  unfold stable_sort. induction l as [|x l IH]; simpl; [reflexivity|].
  rewrite insert_sorted_perm, IH. reflexivity.
Qed.

Lemma insert_sorted_HdRel a x l :
  le a x = true -> HdRel (fun u v => le u v = true) a l ->
  HdRel (fun u v => le u v = true) a (insert_sorted le x l).
Proof using Type.
  intros Hax Hl. destruct l as [|y l]; simpl; [constructor; exact Hax|].
  destruct (le x y); constructor; [exact Hax|].
  inversion Hl; assumption.
Qed.

Lemma insert_sorted_Sorted x l :
  Sorted (fun u v => le u v = true) l ->
  Sorted (fun u v => le u v = true) (insert_sorted le x l).
Proof using le_total.
  induction l as [|y l IH]; intros Hs; simpl.
  - constructor; constructor.
  - destruct (le x y) eqn:Hxy.
    + constructor; [exact Hs|]. constructor. exact Hxy.
    + inversion Hs as [|? ? Hs' Hhd]; subst. constructor; [apply IH, Hs'|].
      apply insert_sorted_HdRel; [|exact Hhd].
      destruct (le_total x y); congruence.
Qed.

Lemma stable_sort_Sorted l : Sorted (fun u v => le u v = true) (stable_sort le l).
Proof using le_total.
  unfold stable_sort. induction l as [|x l IH]; simpl; [constructor|].
  apply insert_sorted_Sorted, IH.
Qed.
End Sort.

Lemma bus_address_le_total a b : bus_address_le a b = true \/ bus_address_le b a = true.
Proof.
  unfold bus_address_le.
  destruct (Z.ltb_spec (dev_bus a) (dev_bus b)); [left; reflexivity|].
  destruct (Z.ltb_spec (dev_bus b) (dev_bus a)); [right; reflexivity|].
  assert (dev_bus a = dev_bus b) as Heq by lia. rewrite Heq, Z.eqb_refl. simpl.
  destruct (Z.leb_spec (dev_address a) (dev_address b)); [left; reflexivity|].
  right. apply Z.leb_le. lia.
Qed.

(** ** usb_backend.py: enumeration *)

Lemma make_entries_spec devices : forall index,
  Forall (fun dev => supported dev = true) devices ->
  exists entries,
    make_entries index devices = Ok entries /\
    map device entries = devices /\
    (forall (i : nat) entry, entries !! i = Some entry ->
       DeviceInfo.id (info entry) = index + Z.of_nat i /\
       DeviceInfo.bus (info entry) = dev_bus (device entry) /\
       DeviceInfo.address (info entry) = dev_address (device entry) /\
       DeviceInfo.product_id (info entry) = idProduct (device entry) /\
       dict_get (idProduct (device entry)) SUPPORTED_PRODUCTS
       = Some (DeviceInfo.name (info entry))).
Proof.
  induction devices as [|dev rest IH]; intros index Hsup.
  - exists []. split; [reflexivity|]. split; [reflexivity|].
    intros i entry Hi. discriminate.
  - inversion Hsup as [|? ? Hdev Hrest]; subst.
    cbn [make_entries]. unfold supported, dict_mem in Hdev.
    destruct (dict_get (idProduct dev) SUPPORTED_PRODUCTS) as [name|] eqn:Hname;
      [|discriminate].
    destruct (IH (index + 1) Hrest) as (entries & -> & Hdevs & Hfields). cbn [rbind].
    eexists. split; [reflexivity|]. split; [simpl; rewrite Hdevs; reflexivity|].
    intros [|i] entry Hi; simpl in Hi.
    + inversion Hi; subst entry. cbn. rewrite Z.add_0_r. auto.
    + destruct (Hfields i entry Hi) as (Hid & Hother). split; [lia|exact Hother].
Qed.

Section Refresh.
Context `{Host}.

(** What [refresh] does, by the outcome of the scan. *)
Lemma refresh_run (backend : X56UsbBackend.t) (e : env) :
  match usb_find VENDOR_ID (world e) with
  | Ok found =>
      exists entries,
        X56UsbBackend.refresh (backend, e)
        = (Ok (map info entries),
           (X56UsbBackend.mk entries, mk_env _ (world e) (trace e ++ [EvFind]))) /\
        map device entries
        = stable_sort bus_address_le (filter (fun dev => supported dev = true) found) /\
        (forall (i : nat) entry, entries !! i = Some entry ->
           DeviceInfo.id (info entry) = 1 + Z.of_nat i /\
           DeviceInfo.bus (info entry) = dev_bus (device entry) /\
           DeviceInfo.address (info entry) = dev_address (device entry) /\
           DeviceInfo.product_id (info entry) = idProduct (device entry) /\
           dict_get (idProduct (device entry)) SUPPORTED_PRODUCTS
           = Some (DeviceInfo.name (info entry)))
  | Raise ex =>
      X56UsbBackend.refresh (backend, e)
      = (Raise ex, (backend, mk_env _ (world e) (trace e ++ [EvFind])))
  end.
Proof.
  unfold X56UsbBackend.refresh, bind, host_find, lift_res, set_self, ret. cbn [fst snd].
  destruct (usb_find VENDOR_ID (world e)) as [found|ex]; [|reflexivity].
  set (filtered := filter (fun dev => dict_mem (idProduct dev) SUPPORTED_PRODUCTS) found).
  set (sorted := stable_sort bus_address_le filtered).
  assert (filtered = filter (fun dev => supported dev = true) found) as Hfiltered.
  { unfold filtered. apply list_filter_iff. intros dev. unfold supported.
    apply Is_true_true. }
  assert (Forall (fun dev => supported dev = true) sorted) as Hsup.
  { apply Forall_forall. intros dev Hin.
    assert (dev ∈ filtered) as Hin'
      by (rewrite <- (stable_sort_perm bus_address_le filtered); exact Hin).
    rewrite Hfiltered in Hin'. apply list_elem_of_filter in Hin' as [Hs _]. exact Hs. }
  destruct (make_entries_spec sorted 1 Hsup) as (entries & Hmake & Hdevs & Hfields).
  rewrite Hmake. cbn [fst snd]. exists entries. split; [reflexivity|].
  rewrite Hdevs. split; [|exact Hfields]. unfold sorted. rewrite Hfiltered. reflexivity.
Qed.

(** X16.  A successful scan replaces the entries: they are the supported
    devices found, ordered by (bus, address), numbered from 1 in that
    order, with name, bus, address and product id taken from the device.
    A failing scan raises and keeps the old entries. *)
Theorem refresh_numbers_the_devices (backend : X56UsbBackend.t) (e : env) :
  match usb_find VENDOR_ID (world e) with
  | Ok found =>
      exists entries,
        X56UsbBackend.refresh (backend, e)
        = (Ok (map info entries),
           (X56UsbBackend.mk entries, mk_env _ (world e) (trace e ++ [EvFind]))) /\
        map device entries ≡ₚ filter (fun dev => supported dev = true) found /\
        Sorted (fun a b => bus_address_le a b = true) (map device entries) /\
        (forall (i : nat) entry, entries !! i = Some entry ->
           DeviceInfo.id (info entry) = 1 + Z.of_nat i /\
           DeviceInfo.bus (info entry) = dev_bus (device entry) /\
           DeviceInfo.address (info entry) = dev_address (device entry) /\
           DeviceInfo.product_id (info entry) = idProduct (device entry) /\
           dict_get (idProduct (device entry)) SUPPORTED_PRODUCTS
           = Some (DeviceInfo.name (info entry)))
  | Raise ex =>
      X56UsbBackend.refresh (backend, e)
      = (Raise ex, (backend, mk_env _ (world e) (trace e ++ [EvFind])))
  end.
Proof.
  pose proof (refresh_run backend e) as Hrun.
  destruct (usb_find VENDOR_ID (world e)) as [found|ex]; [|exact Hrun].
  destruct Hrun as (entries & Hrun & Hdevs & Hfields).
  exists entries. split; [exact Hrun|]. rewrite Hdevs.
  split; [apply stable_sort_perm|]. split; [|exact Hfields].
  apply stable_sort_Sorted. apply bus_address_le_total.
Qed.
End Refresh.

(** ** usb_backend.py: resolving the target ids *)

(** X17.  The resolved targets are entries of the enumeration, in its order; an
    entry is among them when 0 or its id is in the list; so unknown ids
    are dropped, and the order and the repetitions of the list do not
    matter. *)
Theorem select_targets_members (entries : list _DeviceEntry) (device_ids other_ids : list Z) :
  sublist (X56UsbBackend.select_targets entries device_ids) entries /\
  (forall entry,
     entry ∈ X56UsbBackend.select_targets entries device_ids <->
     entry ∈ entries /\ (0 ∈ device_ids \/ DeviceInfo.id (info entry) ∈ device_ids)) /\
  ((forall device_id, device_id ∈ device_ids <-> device_id ∈ other_ids) ->
   X56UsbBackend.select_targets entries device_ids
   = X56UsbBackend.select_targets entries other_ids).
Proof.
  unfold X56UsbBackend.select_targets. split; [|split].
  - destruct (bool_decide (0 ∈ device_ids)); [reflexivity|apply sublist_filter].
  - intros entry. destruct (bool_decide (0 ∈ device_ids)) eqn:Hzero.
    + apply bool_decide_eq_true in Hzero. tauto.
    + apply bool_decide_eq_false in Hzero.
      rewrite list_elem_of_filter, bool_decide_spec, elem_of_list_to_set. tauto.
  - intros Hsame.
    assert (bool_decide (0 ∈ device_ids) = bool_decide (0 ∈ other_ids)) as ->
      by (apply bool_decide_ext, Hsame).
    destruct (bool_decide (0 ∈ other_ids)); [reflexivity|].
    apply list_filter_iff. intros entry.
    rewrite !bool_decide_spec, !elem_of_list_to_set. apply Hsame.
Qed.


Section Setup.
Context `{Host} {O : Type}.

Lemma setup_events_nil l : setup_events l [] l.
Proof. unfold setup_events. simpl. rewrite app_nil_r. auto. Qed.

Lemma setup_events_app l1 evs1 l2 evs2 l3 :
  setup_events l1 evs1 l2 -> setup_events l2 evs2 l3 ->
  setup_events l1 (evs1 ++ evs2) l3.
Proof.
  unfold setup_events. intros (Hr1 & Ha1 & Hl1) (Hr2 & Ha2 & Hl2).
  rewrite !omap_app, Hr1, Hr2, Ha1, Ha2. repeat split; try reflexivity.
  intros x Hx. apply Hl2 in Hx. rewrite elem_of_app in Hx.
  rewrite app_assoc, elem_of_app. destruct Hx as [Hx|Hx]; [left; apply Hl1, Hx|right; exact Hx].
Qed.

Lemma tracks_ret {A} (x : A) : tracks (O:=O) setup_events (ret x).
Proof.
  intros st. exists []. cbn. rewrite app_nil_r.
  split; [reflexivity|]. split; [apply setup_events_nil|reflexivity].
Qed.

Lemma tracks_raise {A} e : tracks (O:=O) (A:=A) setup_events (raise e).
Proof.
  intros st. exists []. cbn. rewrite app_nil_r.
  split; [reflexivity|]. split; [apply setup_events_nil|reflexivity].
Qed.

Lemma tracks_bind {A B} (m : M ((O * list Z) * env) A) (k : A -> M ((O * list Z) * env) B) :
  tracks setup_events m -> (forall x, tracks setup_events (k x)) ->
  tracks setup_events (bind m k).
Proof.
  intros Hm Hk st. unfold bind. destruct (Hm st) as (evs1 & Ht1 & Hp1 & Ho1).
  destruct (m st) as [[x|e] st1]; cbn [fst snd] in *.
  - destruct (Hk x st1) as (evs2 & Ht2 & Hp2 & Ho2). exists (evs1 ++ evs2)%list.
    rewrite Ht2, Ht1, app_assoc, Ho2, Ho1. split; [reflexivity|].
    split; [|reflexivity]. eapply setup_events_app; eassumption.
  - exists evs1. auto.
Qed.

Lemma tracks_try_except {A} (m : M ((O * list Z) * env) A) handler :
  tracks setup_events m ->
  (forall e h, handler e = Some h -> tracks setup_events h) ->
  tracks setup_events (try_except m handler).
Proof.
  intros Hm Hh st. unfold try_except. destruct (Hm st) as (evs1 & Ht1 & Hp1 & Ho1).
  destruct (m st) as [[x|e] st1]; cbn [fst snd] in *.
  - exists evs1. auto.
  - destruct (handler e) as [h|] eqn:Hhandler; [|exists evs1; auto].
    destruct (Hh e h Hhandler st1) as (evs2 & Ht2 & Hp2 & Ho2). exists (evs1 ++ evs2)%list.
    rewrite Ht2, Ht1, app_assoc, Ho2, Ho1. split; [reflexivity|].
    split; [|reflexivity]. eapply setup_events_app; eassumption.
Qed.

Lemma tracks_for_each {A} (l : list A) (body : A -> M ((O * list Z) * env) unit) :
  (forall x, tracks setup_events (body x)) -> tracks setup_events (for_each l body).
Proof.
  intros Hbody. induction l as [|x l IH]; simpl; [apply tracks_ret|].
  apply tracks_bind; [apply Hbody|intros _; exact IH].
Qed.

Lemma tracks_host_usb dev op :
  released_interface (EvUsb dev op) = None ->
  attached_interface (EvUsb dev op) = None ->
  tracks (O:=O) setup_events (host_usb dev op).
Proof.
  intros Hr Ha st. exists [EvUsb dev op]. unfold host_usb. cbn [fst snd].
  split; [destruct (fst (usb_call dev op _)); reflexivity|].
  assert (forall l l' : list Z, l' = l -> setup_events l [EvUsb dev op] l') as Hgoal.
  { intros l l' ->. unfold setup_events.
    destruct op; try discriminate Hr; try discriminate Ha; cbn;
      repeat split; try reflexivity; intros x Hx; try apply elem_of_app; auto. }
  split; [apply Hgoal|]; destruct (fst (usb_call dev op _)); reflexivity.
Qed.

Lemma tracks_kernel_active dev iface :
  tracks (O:=O) setup_events (X56UsbBackend._kernel_active dev iface).
Proof.
  intros st. exists [EvKernelActive dev iface].
  unfold X56UsbBackend._kernel_active, bind, host_kernel_active, ret. cbn [fst snd].
  destruct (fst (usb_kernel_active dev iface _)) as [b| |]; cbn [fst snd trace];
    (split; [reflexivity|]); (split; [|reflexivity]);
    unfold setup_events; cbn; rewrite app_nil_r; auto.
Qed.

Lemma tracks_record_detached dev iface :
  tracks (O:=O) setup_events
    (bind (host_usb dev (DetachKernelDriver iface)) (fun _ =>
       bind get_local (fun attached_ifaces =>
         set_local (attached_ifaces ++ [iface])%list))).
Proof.
  intros st. exists [EvUsb dev (DetachKernelDriver iface)].
  unfold bind, host_usb, get_local, set_local. cbn [fst snd].
  destruct (fst (usb_call dev _ _)); cbn [fst snd trace]; (split; [reflexivity|]);
    (split; [|reflexivity]); unfold setup_events; cbn; auto.
  repeat split. intros x Hx. apply elem_of_app. auto.
Qed.

Lemma tracks_claim_interfaces dev interfaces :
  tracks (O:=O) setup_events (X56UsbBackend.claim_interfaces dev interfaces).
Proof.
  unfold X56UsbBackend.claim_interfaces. apply tracks_bind.
  - apply tracks_try_except; [apply tracks_host_usb; reflexivity|].
    intros [] h Hh; try discriminate. inversion Hh. apply tracks_ret.
  - intros _. apply tracks_for_each. intros iface.
    apply tracks_bind; [apply tracks_kernel_active|]. intros active.
    apply tracks_bind; [|intros _; apply tracks_host_usb; reflexivity].
    destruct active; [apply tracks_record_detached|apply tracks_ret].
Qed.

Lemma tracks_send_packets dev windex rgb_packet apply_packet :
  tracks (O:=O) setup_events (X56UsbBackend.send_packets dev windex rgb_packet apply_packet).
Proof.
  unfold X56UsbBackend.send_packets. apply tracks_bind; [apply tracks_host_usb; reflexivity|].
  intros _. apply tracks_try_except; [apply tracks_host_usb; reflexivity|].
  intros [] h Hh; try discriminate.
  destruct (X56UsbBackend._is_pipe_error _); inversion Hh. apply tracks_ret.
Qed.

Lemma ignore_usb_error_host_usb dev op (st : (O * list Z) * env) :
  X56UsbBackend.ignore_usb_error (host_usb dev op) st
  = (Ok tt, (fst st, mk_env _ (snd (usb_call dev op (world (snd st))))
                       (trace (snd st) ++ [EvUsb dev op]))).
Proof.
  unfold X56UsbBackend.ignore_usb_error, try_except, host_usb. cbn [fst snd].
  destruct (fst (usb_call dev op _)); reflexivity.
Qed.

(** The [finally] block never raises; it releases every interface of
    the attempt, in order, and attaches a driver only for an interface
    recorded in [attached_ifaces], which it leaves as it is. *)
Lemma release_interfaces_trace dev interfaces : forall st : (O * list Z) * env,
  exists evs,
    fst (X56UsbBackend.release_interfaces dev interfaces st) = Ok tt /\
    trace (snd (snd (X56UsbBackend.release_interfaces dev interfaces st))) = (trace (snd st) ++ evs)%list /\
    omap released_interface evs = interfaces /\
    omap attached_interface evs ⊆ snd (fst st) /\
    fst (snd (X56UsbBackend.release_interfaces dev interfaces st)) = fst st.
Proof.
  unfold X56UsbBackend.release_interfaces.
  induction interfaces as [|iface rest IH]; intros st.
  - exists []. cbn. rewrite app_nil_r. repeat split. apply list_subseteq_nil.
  - set (body := fun iface : Z => _) in *.
    assert (exists s1 evs0,
              for_each (iface :: rest) body st = for_each rest body s1 /\
              trace (snd s1) = (trace (snd st) ++ evs0)%list /\
              fst s1 = fst st /\
              omap released_interface evs0 = [iface] /\
              omap attached_interface evs0 ⊆ snd (fst st))
      as (s1 & evs0 & -> & Htrace0 & Hobj0 & Hrel0 & Hatt0).
    { cbn [for_each]. unfold bind at 1. unfold body at 1. unfold bind at 1.
      rewrite ignore_usb_error_host_usb. unfold bind at 1, get_local at 1. cbn [fst snd].
      destruct (bool_decide (iface ∈ snd (fst st))) eqn:Hmem.
      - rewrite ignore_usb_error_host_usb. cbn [fst snd world trace].
        eexists _, [EvUsb dev (ReleaseInterface iface); EvUsb dev (AttachKernelDriver iface)].
        split; [reflexivity|]. cbn [fst snd trace].
        split; [rewrite <- app_assoc; reflexivity|]. split; [reflexivity|].
        split; [reflexivity|]. cbn.
        apply bool_decide_eq_true in Hmem. intros x Hx.
        apply list_elem_of_singleton in Hx as ->. exact Hmem.
      - unfold ret at 1. cbn [fst snd].
        eexists _, [EvUsb dev (ReleaseInterface iface)].
        split; [reflexivity|]. cbn [fst snd trace].
        split; [reflexivity|]. split; [reflexivity|].
        split; [reflexivity|]. cbn. apply list_subseteq_nil. }
    destruct (IH s1) as (evs & Hok & Htrace & Hrel & Hatt & Hobj).
    exists (evs0 ++ evs)%list. split; [exact Hok|].
    rewrite Htrace, Htrace0, Hobj, Hobj0, !omap_app, Hrel0, Hrel, app_assoc.
    split; [reflexivity|]. split; [reflexivity|]. split; [|reflexivity].
    intros x Hx. apply elem_of_app in Hx as [Hx|Hx]; [apply Hatt0, Hx|].
    apply Hatt in Hx. rewrite Hobj0 in Hx. exact Hx.
Qed.
End Setup.

Section Release.
Context `{Host}.

(** X18.  Whatever the transfers do, an attempt releases each of its
    interfaces exactly once, in the order of the list, and attaches a
    kernel driver only to an interface whose driver it detached. *)
Theorem send_rgb_with_setup_releases_every_interface
    (device : usb_device) (interfaces : list Z) (windex : Z)
    (rgb_packet apply_packet : list Z) (st : X56UsbBackend.t * env) :
  exists evs,
    trace (snd (snd (X56UsbBackend._send_rgb_with_setup device interfaces windex
                       rgb_packet apply_packet st)))
    = (trace (snd st) ++ evs)%list /\
    omap released_interface evs = interfaces /\
    omap attached_interface evs ⊆ omap detached_interface evs /\
    fst (snd (X56UsbBackend._send_rgb_with_setup device interfaces windex
                rgb_packet apply_packet st)) = fst st.
Proof.
  unfold X56UsbBackend._send_rgb_with_setup, with_local, try_finally.
  set (body := try_except _ _).
  assert (tracks setup_events body) as Hbody.
  { apply tracks_try_except.
    - apply tracks_bind; [apply tracks_claim_interfaces|].
      intros _. apply tracks_send_packets.
    - intros [] h Hh; try discriminate. inversion Hh. apply tracks_raise. }
  destruct (Hbody ((fst st, []), snd st)) as (evs1 & Ht1 & (Hr1 & Ha1 & Hl1) & Ho1).
  destruct (body ((fst st, []), snd st)) as [r st1] eqn:Hrun. cbn [fst snd] in *.
  destruct (release_interfaces_trace device interfaces st1)
    as (evs2 & Hok & Ht2 & Hr2 & Ha2 & Ho2).
  destruct (X56UsbBackend.release_interfaces device interfaces st1) as [[[]|e] st2]; [|discriminate].
  cbn [fst snd] in *. exists (evs1 ++ evs2)%list.
  rewrite Ht2, Ht1, app_assoc, !omap_app, Hr1, Hr2, Ha1, Ho2, Ho1.
  split; [reflexivity|]. split; [reflexivity|]. split; [|reflexivity].
  cbn [app]. intros x Hx. apply elem_of_app. left. apply Hl1, Ha2, Hx.
Qed.
End Release.


Section Tick.
Context `{Host}.

(** X19.  One tick of the scheduler, whatever the host does.  The device list
    is not touched and no session is created.  A session whose mode is
    not off stays, with its phase unchanged or advanced once by
    [next_phase]; a session whose mode is off is removed or, when the
    tick stops before reaching it, left as it is.  A tick that returns
    with a device present removes every session whose mode is off; a
    tick without devices changes nothing. *)
Theorem effect_tick_sessions (st : MainWindow.t * env) r st' :
  NoDup (dict_keys (MainWindow._effect_sessions (fst st))) ->
  MainWindow._effect_tick st = (r, st') ->
  MainWindow._devices (fst st') = MainWindow._devices (fst st) /\
  (forall k, session_after_tick (dict_get k (MainWindow._effect_sessions (fst st)))
               (dict_get k (MainWindow._effect_sessions (fst st')))) /\
  (r = Ok tt -> MainWindow._devices (fst st) <> [] ->
   forall k session,
     dict_get k (MainWindow._effect_sessions (fst st)) = Some session ->
     mode session = EFFECT_OFF ->
     dict_get k (MainWindow._effect_sessions (fst st')) = None) /\
  (MainWindow._devices (fst st) = [] -> r = Ok tt /\ st' = st).
Proof.
  intros Hkeys. unfold MainWindow._effect_tick, bind, get_self. cbn [fst snd].
  destruct (MainWindow._effect_sessions (fst st)) as [|entry sessions] eqn:Hsessions.
  { intros [= <- <-]. rewrite Hsessions. split; [reflexivity|].
    split; [intros k; apply session_after_tick_refl|]. split; [|auto].
    intros _ _ k session Hget. discriminate. }
  destruct (MainWindow._devices (fst st)) as [|dev devices] eqn:Hdevices.
  { intros [= <- <-]. rewrite Hsessions, Hdevices. split; [reflexivity|].
    split; [intros k; apply session_after_tick_refl|]. split; [|auto].
    intros _ Hne. congruence. }
  rewrite <- Hsessions in *. intros Hloop.
  destruct (effect_tick_loop _ Hkeys st r st' Hkeys Hloop) as (Hdev & _ & Hout & Hin & Hoff).
  split; [congruence|]. split; [|split; [|discriminate]].
  - intros k. destruct (decide (k ∈ dict_keys (MainWindow._effect_sessions (fst st))))
      as [Hk|Hk]; [apply Hin, Hk|].
    rewrite Hout by exact Hk. apply session_after_tick_refl.
  - intros Hr _ k session Hget Hmode. eapply Hoff; eauto.
    destruct (decide (k ∈ dict_keys (MainWindow._effect_sessions (fst st))))
      as [Hk|Hk]; [exact Hk|].
    apply dict_get_None in Hk. congruence.
Qed.

(** X20.  The ids a session resolves to are ids of connected devices; a
    product session resolves to the ids of exactly the connected devices
    of its product, in the order of the device list, and an id list is
    filtered in its own order. *)
Theorem resolved_target_ids_are_connected (self : MainWindow.t) (session : EffectSession) :
  (forall device_id, device_id ∈ MainWindow._resolved_target_ids self session ->
     exists dev, dev ∈ MainWindow._devices self /\ DeviceInfo.id dev = device_id /\
       match product_id session with
       | Some pid => DeviceInfo.product_id dev = pid
       | None => device_id ∈ target_ids session
       end) /\
  (forall dev, dev ∈ MainWindow._devices self ->
     match product_id session with
     | Some pid => DeviceInfo.product_id dev = pid
     | None => DeviceInfo.id dev ∈ target_ids session
     end ->
     DeviceInfo.id dev ∈ MainWindow._resolved_target_ids self session) /\
  (product_id session = None ->
   sublist (MainWindow._resolved_target_ids self session) (target_ids session)).
Proof.
  unfold MainWindow._resolved_target_ids.
  destruct (product_id session) as [pid|]; split; [|split| |split].
  - intros device_id Hin. apply list_elem_of_fmap in Hin as (dev & -> & Hdev).
    apply list_elem_of_filter in Hdev as [Hpid Hdev].
    exists dev. split; [exact Hdev|]. split; [reflexivity|].
    apply Is_true_true, Z.eqb_eq in Hpid. exact Hpid.
  - intros dev Hdev Hpid. apply list_elem_of_fmap. exists dev. split; [reflexivity|].
    apply list_elem_of_filter. split; [|exact Hdev].
    apply Is_true_true, Z.eqb_eq. exact Hpid.
  - discriminate.
  - intros device_id Hin. apply list_elem_of_filter in Hin as [Hvalid Hin].
    apply bool_decide_spec, elem_of_list_to_set, list_elem_of_fmap in Hvalid
      as (dev & -> & Hdev).
    exists dev. auto.
  - intros dev Hdev Hin. apply list_elem_of_filter. split; [|exact Hin].
    apply bool_decide_spec, elem_of_list_to_set, list_elem_of_fmap. exists dev. auto.
  - intros _. apply sublist_filter.
Qed.
End Tick.


(** ** main_window.py: grouping the devices by product *)

Lemma group_by_product_get (devices : list DeviceInfo.t) :
  forall by_product,
    NoDup (dict_keys by_product) ->
    NoDup (dict_keys (MainWindow.group_by_product devices by_product)) /\
    forall pid,
      dict_get pid (MainWindow.group_by_product devices by_product)
      = match dict_get pid by_product with
        | Some ids =>
            Some (ids ++ map DeviceInfo.id
                           (filter (fun dev => DeviceInfo.product_id dev =? pid) devices))%list
        | None =>
            if bool_decide (pid ∈ map DeviceInfo.product_id devices)
            then Some (map DeviceInfo.id
                         (filter (fun dev => DeviceInfo.product_id dev =? pid) devices))
            else None
        end.
Proof.
  induction devices as [|device rest IH]; intros by_product Hnd.
  - split; [exact Hnd|]. intros pid. cbn.
    destruct (dict_get pid by_product); [rewrite app_nil_r|]; reflexivity.
  - cbn [MainWindow.group_by_product].
    set (pid0 := DeviceInfo.product_id device).
    set (by_product' := dict_set pid0 _ by_product).
    destruct (IH by_product' (dict_set_NoDup _ _ _ Hnd)) as [Hnd' Hget].
    split; [exact Hnd'|]. intros pid. rewrite Hget. unfold by_product'.
    destruct (decide (pid0 = pid)) as [<-|Hne].
    + rewrite dict_get_set_eq. rewrite filter_cons.
      rewrite decide_True by (apply Is_true_true, Z.eqb_eq; reflexivity).
      unfold dict_get_default. cbn [map].
      destruct (dict_get pid0 by_product) as [ids|].
      * rewrite <- app_assoc. reflexivity.
      * rewrite bool_decide_eq_true_2 by (cbn; fold pid0; left). reflexivity.
    + rewrite dict_get_set_ne by exact Hne. rewrite filter_cons.
      rewrite decide_False
        by (intros Heq; apply Is_true_true, Z.eqb_eq in Heq; fold pid0 in Heq; congruence).
      destruct (dict_get pid by_product) as [ids|]; [reflexivity|].
      cbn [map]. fold pid0.
      assert (bool_decide (pid ∈ pid0 :: map DeviceInfo.product_id rest)
              = bool_decide (pid ∈ map DeviceInfo.product_id rest)) as ->.
      { apply bool_decide_ext. rewrite elem_of_cons. intuition congruence. }
      reflexivity.
Qed.

(** X21.  The grouping has one entry per connected product; its ids are the ids
    of the connected devices of the product, in the order of the device
    list: the ids a session of that product resolves to. *)
Theorem group_by_product_collects_each_product (self : MainWindow.t) :
  let by_product := MainWindow.group_by_product (MainWindow._devices self) [] in
  NoDup (dict_keys by_product) /\
  (forall pid, pid ∈ dict_keys by_product <->
     exists dev, dev ∈ MainWindow._devices self /\ DeviceInfo.product_id dev = pid) /\
  (forall pid device_ids session,
     dict_get pid by_product = Some device_ids ->
     product_id session = Some pid ->
     device_ids <> [] /\
     MainWindow._resolved_target_ids self session = device_ids).
Proof.
  intros by_product.
  destruct (group_by_product_get (MainWindow._devices self) [] (NoDup_nil_2))
    as [Hnd Hget]. fold by_product in Hnd, Hget. cbn [dict_get] in Hget.
  split; [exact Hnd|]. split.
  - intros pid. rewrite <- dict_mem_true. unfold dict_mem. rewrite Hget.
    destruct (bool_decide _) eqn:Hmem.
    + apply bool_decide_eq_true in Hmem. apply list_elem_of_fmap in Hmem as (dev & -> & Hdev).
      split; [eauto|reflexivity].
    + apply bool_decide_eq_false in Hmem. split; [discriminate|].
      intros (dev & Hdev & <-). exfalso. apply Hmem, list_elem_of_fmap. eauto.
  - intros pid device_ids session Hids Hpid. rewrite Hget in Hids.
    destruct (bool_decide _) eqn:Hmem; [|discriminate]. inversion Hids as [Heq].
    unfold MainWindow._resolved_target_ids. rewrite Hpid. split; [|reflexivity].
    apply bool_decide_eq_true in Hmem. apply list_elem_of_fmap in Hmem as (dev & -> & Hdev).
    intros Hnil. apply fmap_nil_inv in Hnil.
    assert (dev ∈ filter (fun d => DeviceInfo.product_id d =? DeviceInfo.product_id dev)
                    (MainWindow._devices self)) as Hin.
    { apply list_elem_of_filter. split; [|exact Hdev]. apply Is_true_true, Z.eqb_refl. }
    rewrite Hnil in Hin. inversion Hin.
Qed.

(** ** main_window.py: the sessions the window holds *)

Section DictForall.
Context {K V : Type} `{EqDecision K}.

Lemma dict_set_Forall (P : K * V -> Prop) k v (d : list (K * V)) :
  P (k, v) -> Forall P d -> Forall P (dict_set k v d).
Proof.
  intros Hkv. induction 1 as [|[k' v'] rest Hhead Hrest IH]; simpl.
  - constructor; [exact Hkv|constructor].
  - destruct (decide (k = k')) as [<-|Hne]; constructor; auto.
Qed.

Lemma dict_del_Forall (P : K * V -> Prop) k (d : list (K * V)) :
  Forall P d -> Forall P (dict_del k d).
Proof.
  induction 1 as [|[k' v'] rest Hhead Hrest IH]; simpl; [constructor|].
  destruct (decide (k = k')); [exact Hrest|constructor; auto].
Qed.

Lemma dict_get_elem k v (d : list (K * V)) : dict_get k d = Some v -> (k, v) ∈ d.
Proof.
  induction d as [|[k' v'] rest IH]; simpl; [discriminate|].
  destruct (decide (k = k')) as [<-|Hne].
  - intros [= <-]. left.
  - intros Hget. right. apply IH, Hget.
Qed.
End DictForall.

Lemma for_each_preserves {S A} (I : S -> Prop) (l : list A) (body : A -> M S unit) :
  (forall x s, I s -> I (snd (body x s))) ->
  forall s, I s -> I (snd (for_each l body s)).
Proof.
  intros Hbody. induction l as [|x l IH]; intros s Hs; [exact Hs|].
  cbn [for_each]. unfold bind. specialize (Hbody x s Hs).
  destruct (body x s) as [[[]|e] s1]; cbn [snd] in *; [apply IH, Hbody|exact Hbody].
Qed.

Lemma advanced_session_default k session :
  default_session (k, session) -> default_session (k, advanced_session session).
Proof. intros (pid & Hk & Hkey & Hpid & Htargets & Hmode). exists pid. auto. Qed.

Section Sessions.
Context `{Host}.

Lemma auto_apply_product_step new_only new_keys pid device_ids
    (st : MainWindow.t * env) r st' :
  MainWindow._auto_apply_product new_only new_keys pid device_ids st = (r, st') ->
  let profile := ProfileStore.get (MainWindow.profile_store (fst st)) pid in
  MainWindow._devices (fst st') = MainWindow._devices (fst st) /\
  MainWindow.profile_store (fst st') = MainWindow.profile_store (fst st) /\
  MainWindow._detected_keys (fst st') = MainWindow._detected_keys (fst st) /\
  (MainWindow._effect_sessions (fst st') = MainWindow._effect_sessions (fst st) \/
   MainWindow._effect_sessions (fst st')
   = dict_del (MainWindow.profile_session_key pid) (MainWindow._effect_sessions (fst st)) \/
   (MainWindow._effect_sessions (fst st')
    = dict_set (MainWindow.profile_session_key pid) (MainWindow.profile_session pid profile)
        (MainWindow._effect_sessions (fst st)) /\
    DeviceDefaultProfile.effect_mode profile ∈ EFFECT_MODES /\
    DeviceDefaultProfile.effect_mode profile <> EFFECT_OFF)).
Proof.
  unfold MainWindow._auto_apply_product. unfold bind at 1, get_self at 1. cbn [fst snd].
  set (profile := ProfileStore.get (MainWindow.profile_store (fst st)) pid).
  destruct (negb (DeviceDefaultProfile.enabled profile)).
  { intros [= <- <-]. cbn. repeat (split; [reflexivity|]). right. left. reflexivity. }
  match goal with |- context [match ?ids with [] => ret tt | _ => _ end] =>
    destruct ids as [|t0 ts] end.
  { intros [= <- <-]. repeat (split; [reflexivity|]). left. reflexivity. }
  set (target_ids := t0 :: ts).
  destruct (DeviceDefaultProfile.effect_enabled profile
            && bool_decide (DeviceDefaultProfile.effect_mode profile ∈ EFFECT_MODES)
            && negb (String.eqb (DeviceDefaultProfile.effect_mode profile) EFFECT_OFF))
    eqn:Heffect.
  - apply andb_true_iff in Heffect as [Heffect Hoff].
    apply andb_true_iff in Heffect as [_ Hmode].
    apply bool_decide_eq_true in Hmode. apply negb_true_iff, String.eqb_neq in Hoff.
    unfold bind, set_self, lift_res, ret. cbn [fst snd].
    destruct (MainWindow.product_label pid); intros [= <- <-]; cbn; auto 10.
  - unfold bind at 1, set_self at 1. cbn [fst snd]. unfold bind at 1.
    set (st1 := (MainWindow.set_effect_sessions _ (fst st), snd st)).
    pose proof (build_calibration_map_frame MainWindow._effect_sessions target_ids st1
                  (fun _ _ => eq_refl)) as Hs2.
    pose proof (build_calibration_map_frame MainWindow._devices target_ids st1
                  (fun _ _ => eq_refl)) as Hd2.
    pose proof (build_calibration_map_frame MainWindow.profile_store target_ids st1
                  (fun _ _ => eq_refl)) as Hp2.
    pose proof (build_calibration_map_frame MainWindow._detected_keys target_ids st1
                  (fun _ _ => eq_refl)) as Hk2.
    destruct (MainWindow._build_calibration_map target_ids st1) as [[cmap|e] st2];
      cbn [fst snd] in *; [|intros [= <- <-]; auto 10].
    unfold bind at 1, on_member at 1.
    destruct (X56UsbBackend.set_rgb_many _ _ _ _ _ _ _) as [[[applied failures]|e] st3];
      cbn [fst snd]; [|intros [= <- <-]; cbn; auto 10].
    set (st4 := (MainWindow.set_backend (fst st3) (fst st2), snd st3)).
    assert (forall (m1 m2 : M (MainWindow.t * env) unit),
              (forall s, snd (m1 s) = s) -> (forall s, snd (m2 s) = s) ->
              forall s, snd (bind m1 (fun _ => m2) s) = s) as Hquiet.
    { intros m1 m2 H1 H2 s. unfold bind. specialize (H1 s).
      destruct (m1 s) as [[[]|e] s1]; cbn [snd] in *; subst; [apply H2|reflexivity]. }
    assert (forall s : MainWindow.t * env,
              snd ((lift_res (MainWindow.product_label pid) ;;; ret tt)%py s) = s) as Hlabel.
    { intros s. unfold bind, lift_res, ret. destruct (MainWindow.product_label pid); reflexivity. }
    intros Hrun. apply (f_equal snd) in Hrun. cbn [snd] in Hrun.
    rewrite Hquiet in Hrun.
    + subst st'. cbn. auto 10.
    + intros s. destruct failures; [reflexivity|apply Hlabel].
    + intros s. destruct (applied =? 0); [reflexivity|apply Hlabel].
Qed.

(** The key of a refreshed entry is the key of its device. *)
Lemma refreshed_device_keys (entries : list _DeviceEntry) :
  (forall (i : nat) entry, entries !! i = Some entry ->
     DeviceInfo.id (info entry) = 1 + Z.of_nat i /\
     DeviceInfo.bus (info entry) = dev_bus (device entry) /\
     DeviceInfo.address (info entry) = dev_address (device entry) /\
     DeviceInfo.product_id (info entry) = idProduct (device entry) /\
     dict_get (idProduct (device entry)) SUPPORTED_PRODUCTS
     = Some (DeviceInfo.name (info entry))) ->
  map MainWindow.device_key (map info entries)
  = map (fun dev => (idProduct dev, dev_bus dev, dev_address dev)) (map device entries).
Proof.
  intros Hfields. rewrite !map_map. apply list_eq. intros i.
  rewrite !list_lookup_fmap. destruct (entries !! i) as [entry|] eqn:Hentry; [|reflexivity].
  destruct (Hfields i entry Hentry) as (_ & Hbus & Haddr & Hpid & _).
  cbn. unfold MainWindow.device_key. rewrite Hbus, Haddr, Hpid. reflexivity.
Qed.

Lemma refreshed_keys (entries : list _DeviceEntry) (found : list usb_device) :
  map device entries
  = stable_sort bus_address_le (filter (fun dev => supported dev = true) found) ->
  (forall (i : nat) entry, entries !! i = Some entry ->
     DeviceInfo.id (info entry) = 1 + Z.of_nat i /\
     DeviceInfo.bus (info entry) = dev_bus (device entry) /\
     DeviceInfo.address (info entry) = dev_address (device entry) /\
     DeviceInfo.product_id (info entry) = idProduct (device entry) /\
     dict_get (idProduct (device entry)) SUPPORTED_PRODUCTS
     = Some (DeviceInfo.name (info entry))) ->
  (list_to_set (map MainWindow.device_key (map info entries)) : gset (Z * Z * Z))
  = list_to_set (map (fun dev => (idProduct dev, dev_bus dev, dev_address dev))
                   (filter (fun dev => supported dev = true) found)).
Proof.
  intros Hdevs Hfields. rewrite (refreshed_device_keys entries Hfields), Hdevs.
  apply set_eq. intros k. rewrite !elem_of_list_to_set, !list_elem_of_fmap.
  split; intros (dev & -> & Hdev); exists dev; (split; [reflexivity|]).
  - rewrite <- (stable_sort_perm bus_address_le). exact Hdev.
  - rewrite (stable_sort_perm bus_address_le). exact Hdev.
Qed.

(** [refresh_devices] when the scan returns. *)
Lemma refresh_devices_found (st : MainWindow.t * env) (found : list usb_device) :
  usb_find VENDOR_ID (world (snd st)) = Ok found ->
  exists entries,
    MainWindow.refresh_devices st
    = (Ok tt,
       (MainWindow.set_detected_keys
          (list_to_set (map MainWindow.device_key (map info entries)))
          (MainWindow.set_devices (map info entries)
             (MainWindow.set_backend (X56UsbBackend.mk entries) (fst st))),
        mk_env _ (world (snd st)) (trace (snd st) ++ [EvFind]))) /\
    map device entries
    = stable_sort bus_address_le (filter (fun dev => supported dev = true) found) /\
    (forall (i : nat) entry, entries !! i = Some entry ->
       DeviceInfo.id (info entry) = 1 + Z.of_nat i /\
       DeviceInfo.bus (info entry) = dev_bus (device entry) /\
       DeviceInfo.address (info entry) = dev_address (device entry) /\
       DeviceInfo.product_id (info entry) = idProduct (device entry) /\
       dict_get (idProduct (device entry)) SUPPORTED_PRODUCTS
       = Some (DeviceInfo.name (info entry))).
Proof.
  intros Hfind.
  pose proof (refresh_run (MainWindow.backend (fst st)) (snd st)) as Hrefresh.
  rewrite Hfind in Hrefresh. destruct Hrefresh as (entries & Hrun & Hdevs & Hfields).
  exists entries. split; [|split; assumption].
  unfold MainWindow.refresh_devices, bind, try_except, on_member. cbn [fst snd].
  rewrite Hrun. reflexivity.
Qed.

(** X22.  A rescan takes the device list of the backend over into the window
    together with the keys of the devices, and touches no session; a
    failing scan raises (it is caught only as a [BackendError]) and
    leaves the window's devices and keys as they were. *)
Theorem refresh_devices_outcome (st : MainWindow.t * env) :
  let after := MainWindow.refresh_devices st in
  MainWindow._effect_sessions (fst (snd after)) = MainWindow._effect_sessions (fst st) /\
  trace (snd (snd after)) = (trace (snd st) ++ [EvFind])%list /\
  match usb_find VENDOR_ID (world (snd st)) with
  | Ok found =>
      fst after = Ok tt /\
      MainWindow._devices (fst (snd after))
      = map info (X56UsbBackend._entries (MainWindow.backend (fst (snd after)))) /\
      MainWindow._detected_keys (fst (snd after))
      = list_to_set (map (fun dev => (idProduct dev, dev_bus dev, dev_address dev))
                       (filter (fun dev => supported dev = true) found)) /\
      (forall (i : nat) dev, MainWindow._devices (fst (snd after)) !! i = Some dev ->
         DeviceInfo.id dev = 1 + Z.of_nat i)
  | Raise ex =>
      fst after = match ex with BackendError _ => Ok tt | _ => Raise ex end /\
      MainWindow._devices (fst (snd after)) = MainWindow._devices (fst st) /\
      MainWindow._detected_keys (fst (snd after)) = MainWindow._detected_keys (fst st)
  end.
Proof.
  intros after. unfold after.
  destruct (usb_find VENDOR_ID (world (snd st))) as [found|ex] eqn:Hfind.
  - destruct (refresh_devices_found st found Hfind) as (entries & -> & Hdevs & Hfields).
    cbn. split; [reflexivity|]. split; [reflexivity|]. split; [reflexivity|].
    split; [reflexivity|]. split; [apply refreshed_keys; assumption|].
    intros i dev Hdev. rewrite list_lookup_fmap in Hdev.
    destruct (entries !! i) as [entry|] eqn:Hentry; [|discriminate].
    inversion Hdev; subst dev. apply (Hfields i entry Hentry).
  - pose proof (refresh_run (MainWindow.backend (fst st)) (snd st)) as Hrefresh.
    rewrite Hfind in Hrefresh.
    unfold MainWindow.refresh_devices, bind, try_except, on_member. cbn [fst snd].
    rewrite Hrefresh. cbn [fst snd].
    destruct ex; cbn; (split; [reflexivity|]); (split; [reflexivity|]); auto.
Qed.

(** ** main_window.py: polling *)

(** X23.  A poll that finds no device it did not know sends nothing and
    starts nothing: it is the rescan alone. *)
Theorem poll_without_new_devices (st : MainWindow.t * env) (found : list usb_device) :
  usb_find VENDOR_ID (world (snd st)) = Ok found ->
  (forall dev, dev ∈ found -> supported dev = true ->
     (idProduct dev, dev_bus dev, dev_address dev) ∈ MainWindow._detected_keys (fst st)) ->
  MainWindow._poll_devices st = MainWindow.refresh_devices st /\
  fst (MainWindow._poll_devices st) = Ok tt /\
  trace (snd (snd (MainWindow._poll_devices st))) = (trace (snd st) ++ [EvFind])%list /\
  MainWindow._effect_sessions (fst (snd (MainWindow._poll_devices st)))
  = MainWindow._effect_sessions (fst st).
Proof.
  intros Hfind Hknown.
  destruct (refresh_devices_found st found Hfind) as (entries & Hrun & Hdevs & Hfields).
  assert (MainWindow._poll_devices st = MainWindow.refresh_devices st) as Hpoll.
  { unfold MainWindow._poll_devices. unfold bind at 1, get_self at 1. cbn [fst snd].
    unfold bind at 1. rewrite Hrun. unfold bind, get_self. cbn [fst snd].
    cbn [MainWindow._detected_keys MainWindow.set_detected_keys].
    rewrite bool_decide_eq_true_2; [reflexivity|].
    rewrite (refreshed_keys entries found Hdevs Hfields).
    apply set_eq. intros k. rewrite elem_of_difference, elem_of_list_to_set.
    split; [|intros Hk; inversion Hk].
    intros [Hin Hnew]. exfalso. apply Hnew.
    apply list_elem_of_fmap in Hin as (dev & -> & Hdev).
    apply list_elem_of_filter in Hdev as [Hsup Hdev]. apply Hknown; assumption. }
  rewrite Hpoll, Hrun. cbn. auto.
Qed.

(** ** main_window.py: the sessions are default sessions *)

Lemma auto_apply_product_keeps_default new_only new_keys pid device_ids
    (st : MainWindow.t * env) :
  Forall default_session (MainWindow._effect_sessions (fst st)) ->
  Forall default_session
    (MainWindow._effect_sessions
       (fst (snd (MainWindow._auto_apply_product new_only new_keys pid device_ids st)))).
Proof.
  intros Hinv.
  destruct (MainWindow._auto_apply_product new_only new_keys pid device_ids st)
    as [r st'] eqn:Hrun.
  destruct (auto_apply_product_step _ _ _ _ _ _ _ Hrun) as (_ & _ & _ & Hcase).
  cbn [fst snd]. destruct Hcase as [->|[->|(-> & Hmode & Hoff)]].
  - exact Hinv.
  - apply dict_del_Forall, Hinv.
  - apply dict_set_Forall; [|exact Hinv]. exists pid. cbn. auto 10.
Qed.

Lemma effect_tick_session_keeps_default session_key (st : MainWindow.t * env) :
  Forall default_session (MainWindow._effect_sessions (fst st)) ->
  Forall default_session
    (MainWindow._effect_sessions (fst (snd (MainWindow._effect_tick_session session_key st)))).
Proof.
  intros Hinv.
  destruct (MainWindow._effect_tick_session session_key st) as [r st'] eqn:Hrun.
  destruct (effect_tick_session_step _ _ _ _ Hrun) as (_ & Hcase). cbn [fst snd].
  destruct (dict_get session_key (MainWindow._effect_sessions (fst st)))
    as [session|] eqn:Hget; [|rewrite Hcase; exact Hinv].
  destruct (String.eqb (mode session) EFFECT_OFF).
  - destruct Hcase as [_ ->]. apply dict_del_Forall, Hinv.
  - destruct Hcase as [->| ->]; [exact Hinv|].
    apply dict_set_Forall; [|exact Hinv]. apply advanced_session_default.
    apply dict_get_elem in Hget. rewrite Forall_forall in Hinv. apply Hinv, Hget.
Qed.

Lemma effect_tick_session_keeps_keys session_key (st : MainWindow.t * env) :
  Forall default_session (MainWindow._effect_sessions (fst st)) ->
  dict_keys (MainWindow._effect_sessions
               (fst (snd (MainWindow._effect_tick_session session_key st))))
  = dict_keys (MainWindow._effect_sessions (fst st)).
Proof.
  intros Hinv.
  destruct (MainWindow._effect_tick_session session_key st) as [r st'] eqn:Hrun.
  destruct (effect_tick_session_step _ _ _ _ Hrun) as (_ & Hcase). cbn [fst snd].
  destruct (dict_get session_key (MainWindow._effect_sessions (fst st)))
    as [session|] eqn:Hget; [|rewrite Hcase; reflexivity].
  assert (String.eqb (mode session) EFFECT_OFF = false) as Hmode.
  { apply dict_get_elem in Hget. rewrite Forall_forall in Hinv.
    destruct (Hinv _ Hget) as (pid & _ & _ & _ & _ & _ & Hoff).
    apply String.eqb_neq. exact Hoff. }
  rewrite Hmode in Hcase. destruct Hcase as [->| ->]; [reflexivity|].
  rewrite dict_keys_set. unfold dict_mem. rewrite Hget. reflexivity.
Qed.

(** X24.  Every operation of the window on its sessions keeps them default
    sessions: applying the default profiles, a tick, a rescan, a poll
    and stopping the effects; and a tick removes no default session. *)
Theorem window_keeps_default_sessions (st : MainWindow.t * env)
    (new_only : bool) (new_keys : option (gset (Z * Z * Z))) :
  Forall default_session (MainWindow._effect_sessions (fst st)) ->
  Forall default_session
    (MainWindow._effect_sessions
       (fst (snd (MainWindow._auto_apply_default_profiles new_only new_keys st)))) /\
  Forall default_session
    (MainWindow._effect_sessions (fst (snd (MainWindow._effect_tick st)))) /\
  Forall default_session
    (MainWindow._effect_sessions (fst (snd (MainWindow.refresh_devices st)))) /\
  Forall default_session
    (MainWindow._effect_sessions (fst (snd (MainWindow._poll_devices st)))) /\
  Forall default_session
    (MainWindow._effect_sessions (fst (snd (MainWindow.stop_all_effects st)))) /\
  dict_keys (MainWindow._effect_sessions (fst (snd (MainWindow._effect_tick st))))
  = dict_keys (MainWindow._effect_sessions (fst st)).
Proof.
  intros Hinv.
  assert (forall new_only new_keys (s : MainWindow.t * env),
            Forall default_session (MainWindow._effect_sessions (fst s)) ->
            Forall default_session
              (MainWindow._effect_sessions
                 (fst (snd (MainWindow._auto_apply_default_profiles new_only new_keys s)))))
    as Happly.
  { intros no nk s Hs. unfold MainWindow._auto_apply_default_profiles, bind, get_self.
    cbn [fst snd]. destruct (MainWindow._devices (fst s)) as [|dev devs]; [exact Hs|].
    apply (for_each_preserves
             (fun s => Forall default_session (MainWindow._effect_sessions (fst s))));
      [|exact Hs].
    intros item s' Hs'. apply auto_apply_product_keeps_default, Hs'. }
  assert (Forall default_session
            (MainWindow._effect_sessions (fst (snd (MainWindow.refresh_devices st)))))
    as Hrefresh.
  { unfold MainWindow.refresh_devices, bind, try_except, on_member. cbn [fst snd].
    destruct (X56UsbBackend.refresh _) as [[devices|e] st1]; cbn; [exact Hinv|].
    destruct e; cbn; exact Hinv. }
  split; [apply Happly, Hinv|]. split; [|split; [exact Hrefresh|split; [|split]]].
  - unfold MainWindow._effect_tick, bind, get_self. cbn [fst snd].
    destruct (MainWindow._effect_sessions (fst st)) as [|entry sessions] eqn:Hsessions;
      [cbn; rewrite Hsessions; constructor|].
    destruct (MainWindow._devices (fst st)) as [|dev devs];
      [cbn; rewrite Hsessions; exact Hinv|].
    rewrite <- Hsessions in *.
    apply (for_each_preserves
             (fun s => Forall default_session (MainWindow._effect_sessions (fst s))));
      [|exact Hinv].
    intros k s Hs. apply effect_tick_session_keeps_default, Hs.
  - unfold MainWindow._poll_devices. unfold bind at 1, get_self at 1. cbn [fst snd].
    unfold bind at 1.
    destruct (MainWindow.refresh_devices st) as [[[]|e] st1]; cbn [fst snd] in *;
      [|exact Hrefresh].
    unfold bind, get_self. cbn [fst snd].
    destruct (bool_decide _); [exact Hrefresh|]. apply Happly, Hrefresh.
  - constructor.
  - unfold MainWindow._effect_tick, bind, get_self. cbn [fst snd].
    destruct (MainWindow._effect_sessions (fst st)) as [|entry sessions] eqn:Hsessions;
      [cbn; rewrite Hsessions; reflexivity|].
    destruct (MainWindow._devices (fst st)) as [|dev devs];
      [cbn; rewrite Hsessions; reflexivity|].
    rewrite <- Hsessions in *.
    apply (for_each_preserves
             (fun s => Forall default_session (MainWindow._effect_sessions (fst s)) /\
                       dict_keys (MainWindow._effect_sessions (fst s))
                       = dict_keys (MainWindow._effect_sessions (fst st))));
      [|split; [exact Hinv|reflexivity]].
    intros k s [Hs Hkeys]. split; [apply effect_tick_session_keeps_default, Hs|].
    rewrite effect_tick_session_keeps_keys by exact Hs. exact Hkeys.
Qed.
End Sessions.

(** ** Concrete runs for the further properties *)

Lemma apply_with_explicit_target_witness :
  ColorCalibration.apply demo_calibration 252 0 0 (Some "Red") = Ok (255, 0, 0) /\
  exists out,
    ColorCalibration.apply demo_calibration 252 0 0 (Some "Red") = Ok out /\ rgb_in_range out.
Proof.
  assert ("Red" <> "") as Hname by discriminate.
  exact (apply_with_explicit_target demo_calibration 252 0 0 "Red" (ColorOffset.mk 5 0 (-3))
           Hname eq_refl).
Defined.

Lemma from_json_result_shape_witness :
  (let '(o0, o1, o2) := ColorCalibration.order demo_calibration in
   o0 ∈ CHANNELS /\ o1 ∈ CHANNELS /\ o2 ∈ CHANNELS) /\
  exists offsets,
    ColorCalibration.target_offsets demo_calibration = Some offsets /\
    NoDup (dict_keys offsets) /\
    Forall (fun kv => fst kv ∈ dict_keys CALIBRATION_COLORS) offsets.
Proof.
  assert (@ColorCalibration.from_json plain_builtins (ColorCalibration.to_json demo_calibration)
          = Ok demo_calibration) as Hparse by (vm_compute; reflexivity).
  exact (@from_json_result_shape plain_builtins (ColorCalibration.to_json demo_calibration)
           demo_calibration Hparse).
Defined.

Lemma calibration_without_offsets_roundtrip_witness :
  @ColorCalibration.from_json plain_builtins (ColorCalibration.to_json ColorCalibration.default)
  = Ok (ColorCalibration.mk ("R", "G", "B") (float_of_Z_round 1) (float_of_Z_round 1)
          (float_of_Z_round 1) (Some [])).
Proof.
  assert (["R"; "G"; "B"] ≡ₚ CHANNELS) as Horder by reflexivity.
  exact (@calibration_without_offsets_roundtrip plain_builtins ColorCalibration.default
           Horder eq_refl).
Defined.

Lemma legacy_store_keys : NoDup (dict_keys (CalibrationStore._profiles legacy_store)).
Proof. apply (bool_decide_unpack (NoDup _)). vm_compute. exact I. Defined.

Lemma set_for_device_drops_legacy_witness :
  let after :=
    @CalibrationStore.set_for_device scripted_host joystick_info ColorCalibration.default
      (legacy_store, @mk_env scripted_host throttle_fails []) in
  fst after = Ok tt /\
  dict_get "2221" (CalibrationStore._profiles (fst (snd after)))
  = Some ColorCalibration.default /\
  dict_get "2221:1:4" (CalibrationStore._profiles (fst (snd after))) = None.
Proof.
  destruct (@set_for_device_drops_legacy scripted_host joystick_info ColorCalibration.default
              legacy_store (@mk_env scripted_host throttle_fails [])
              legacy_store_keys (fun _ => eq_refl))
    as (Hret & Hplain & Hlegacy & _).
  exact (conj Hret (conj Hplain Hlegacy)).
Defined.

Lemma reset_for_device_forgets_witness :
  let after :=
    @CalibrationStore.reset_for_device scripted_host joystick_info
      (legacy_store, @mk_env scripted_host throttle_fails []) in
  fst after = Ok tt /\
  dict_get "2221" (CalibrationStore._profiles (fst (snd after))) = None /\
  dict_get "2221:1:4" (CalibrationStore._profiles (fst (snd after))) = None.
Proof.
  destruct (@reset_for_device_forgets scripted_host joystick_info
              legacy_store (@mk_env scripted_host throttle_fails [])
              legacy_store_keys (fun _ => eq_refl))
    as (Hret & Hplain & Hlegacy & _).
  exact (conj Hret (conj Hplain Hlegacy)).
Defined.

Lemma get_for_device_without_legacy_witness :
  @CalibrationStore.get_for_device scripted_host throttle_info
    (legacy_store, @mk_env scripted_host throttle_fails [])
  = (Ok None, (legacy_store, @mk_env scripted_host throttle_fails [])).
Proof.
  exact (@get_for_device_without_legacy scripted_host throttle_info legacy_store
           (@mk_env scripted_host throttle_fails []) (or_introl eq_refl)).
Defined.

Lemma scripted_host_reads_what_it_wrote (path : string) (w : script) :
  forall doc w',
    @fs_write_json scripted_host path doc w = (true, w') ->
    @fs_read_json scripted_host path w' = FileDoc doc.
Proof.
  intros doc w'. cbn. destruct (s_writable w); [|discriminate].
  intros [= <-]. cbn. rewrite dict_get_set_eq. reflexivity.
Defined.

Lemma saved_calibrations_load_back_witness :
  let e' :=
    snd (snd (@CalibrationStore._save scripted_host
                (legacy_store, @mk_env scripted_host throttle_fails []))) in
  @CalibrationStore.__init__ scripted_host plain_builtins "calibration.json" (tt, e')
  = (Ok legacy_store, (tt, e')).
Proof.
  assert (Forall (fun kv => valid_calibration (snd kv)) (CalibrationStore._profiles legacy_store))
    as Hvalid by (constructor; [exact demo_calibration_valid|constructor]).
  exact (@saved_calibrations_load_back scripted_host plain_builtins legacy_store
           (@mk_env scripted_host throttle_fails [])
           legacy_store_keys Hvalid
           (scripted_host_reads_what_it_wrote "calibration.json" throttle_fails)
           eq_refl).
Defined.

Lemma default_profile_in_bounds : profile_in_bounds DeviceDefaultProfile.default.
Proof.
  unfold profile_in_bounds, in_byte_range. cbn.
  repeat (split; [lia|]). unfold EFFECT_MODES, EFFECT_OFF. left.
Defined.

Lemma profile_json_roundtrip_witness :
  @DeviceDefaultProfile.from_json plain_builtins
    (DeviceDefaultProfile.to_json DeviceDefaultProfile.default)
  = Ok DeviceDefaultProfile.default.
Proof.
  exact (@profile_json_roundtrip plain_builtins DeviceDefaultProfile.default
           default_profile_in_bounds).
Defined.

Lemma effect_tick_sessions_witness :
  let run := @MainWindow._effect_tick scripted_host (window_on throttle_fails) in
  MainWindow._devices (fst (snd run)) = [joystick_info; throttle_info] /\
  (dict_get "profile:41505" (MainWindow._effect_sessions (fst (snd run)))
   = Some throttle_rainbow \/
   dict_get "profile:41505" (MainWindow._effect_sessions (fst (snd run)))
   = Some (advanced_session throttle_rainbow)).
Proof.
  intros run.
  assert (NoDup (dict_keys (MainWindow._effect_sessions (fst (window_on throttle_fails)))))
    as Hkeys by (apply (bool_decide_unpack (NoDup _)); vm_compute; exact I).
  destruct (@effect_tick_sessions scripted_host (window_on throttle_fails)
              (fst run) (snd run) Hkeys (surjective_pairing run))
    as (Hdevices & Hsessions & _).
  split; [exact Hdevices|]. exact (Hsessions "profile:41505").
Defined.

Lemma poll_without_new_devices_witness :
  let st :=
    (MainWindow.set_detected_keys (list_to_set [(0x2221, 1, 4); (0xA221, 1, 5)])
       (fst (window_on throttle_fails)),
     snd (window_on throttle_fails)) in
  fst (@MainWindow._poll_devices scripted_host st) = Ok tt /\
  @trace scripted_host (snd (snd (@MainWindow._poll_devices scripted_host st))) = [EvFind].
Proof.
  intros st.
  assert (forall dev, dev ∈ [throttle; joystick] -> supported dev = true ->
            (idProduct dev, dev_bus dev, dev_address dev)
            ∈ MainWindow._detected_keys (fst st)) as Hknown.
  { intros dev Hdev _. unfold st.
    cbn [fst MainWindow._detected_keys MainWindow.set_detected_keys].
    rewrite elem_of_list_to_set.
    apply elem_of_cons in Hdev as [->|Hdev]; [right; left|].
    apply elem_of_cons in Hdev as [->|Hdev]; [left|]. inversion Hdev. }
  destruct (@poll_without_new_devices scripted_host st [throttle; joystick] eq_refl Hknown)
    as (_ & Hret & Htrace & _).
  exact (conj Hret Htrace).
Defined.

Lemma throttle_rainbow_default : default_session ("profile:41505", throttle_rainbow).
Proof.
  exists 0xA221. cbn. split; [vm_compute; reflexivity|]. split; [reflexivity|].
  split; [reflexivity|]. split; [reflexivity|].
  split; [unfold EFFECT_MODES, EFFECT_RAINBOW; right; left|discriminate].
Defined.

Lemma window_keeps_default_sessions_witness :
  Forall default_session
    (MainWindow._effect_sessions
       (fst (snd (@MainWindow._effect_tick scripted_host (window_on throttle_fails))))) /\
  dict_keys (MainWindow._effect_sessions
               (fst (snd (@MainWindow._effect_tick scripted_host (window_on throttle_fails)))))
  = ["profile:41505"].
Proof.
  assert (Forall default_session (MainWindow._effect_sessions (fst (window_on throttle_fails))))
    as Hinv by (constructor; [exact throttle_rainbow_default|constructor]).
  destruct (@window_keeps_default_sessions scripted_host (window_on throttle_fails) false None
              Hinv) as (_ & Htick & _ & _ & _ & Hkeys).
  exact (conj Htick Hkeys).
Defined.

Lemma load_raises_on_bad_numbers_witness :
  @CalibrationStore._load scripted_host plain_builtins
    (CalibrationStore.mk "calibration.json" [], @mk_env scripted_host null_gain_file [])
  = (Raise TypeError,
     (CalibrationStore.mk "calibration.json" [], @mk_env scripted_host null_gain_file [])).
Proof.
  pose proof (@load_raises_on_bad_numbers scripted_host plain_builtins
                (CalibrationStore.mk "calibration.json" [])
                (@mk_env scripted_host null_gain_file [])) as Hload.
  cbv zeta in Hload. cbn in Hload. destruct Hload as [Hrun _]. exact Hrun.
Defined.
